(** * Razor Brain: conversation memory, state ledger, gateway and engine

    A shallow embedding of [razor_brain/context.py], [razor_brain/state.py],
    [razor_brain/gateway.py] and [razor_brain/engine.py], followed by the
    properties of the session core that the specification states.

    Conventions of the embedding.
    - Python [float] values (timestamps, delays) are rationals: the code only
      compares them, subtracts them and scales them by powers of two.
    - [uuid.uuid4()] and [time.time()] are inputs of the function that calls
      them (named [uid] and [now]), or fields of the record that describes
      the environment of a call.
    - [str] is [string]; [lower] and [strip] are given on ASCII text.
    - A [dict] whose iteration order is observable is an association list in
      insertion order; the tables of the gateway, whose order is not
      observable in any result, are [gmap]s.
    - A callback supplied by the caller is known by what it does when called:
      it returns, or it raises. Calls are recorded in an event trace.
    - [json.loads] is a parameter with three outcomes: the decoded value,
      [JSONDecodeError], or another exception of the decoder. Whether
      [json.dumps] accepts a message is part of the environment of the
      call that sends it. *)

From Stdlib Require Import ZArith QArith Qminmax String Ascii List Lia Bool.
From Stdlib Require Import Sorting.Sorted Sorting.Permutation.
From stdpp Require Import gmap strings list fin_maps sorting.

Import ListNotations.
Set Warnings "-register-all".

Local Open Scope string_scope.
Local Open Scope list_scope.

(* ===================================================================== *)
(** * Python values and built-ins *)
(* ===================================================================== *)

(** The values of type [Any] that reach this code: decoded JSON. *)
Inductive pyval :=
| PNone
| PBool (b : bool)
| PInt (z : Z)
| PFloat (q : Q)
| PStr (s : string)
| PList (l : list pyval)
| PDict (d : list (string * pyval)).

Abbreviation pydict := (list (string * pyval)).

(** Truth value of an object, as [if x:] tests it. *)
Definition truthy (v : pyval) : bool :=
  match v with
  | PNone => false
  | PBool b => b
  | PInt z => negb (z =? 0)%Z
  | PFloat q => negb (Qeq_bool q 0)
  | PStr s => negb (s =? "")%string
  | PList l => match l with [] => false | _ => true end
  | PDict d => match d with [] => false | _ => true end
  end.

(** [x == "literal"] for a string literal. *)
Definition eq_str (v : pyval) (s : string) : bool :=
  match v with PStr t => (t =? s)%string | _ => false end.

(** The number a [bool], [int] or [float] stands for in a comparison. *)
Definition num_of (v : pyval) : option Q :=
  match v with
  | PBool b => Some (if b then 1%Q else 0%Q)
  | PInt z => Some (inject_Z z)
  | PFloat q => Some q
  | _ => None
  end.

Module PyDict.
Section Ops.
Context {V : Type}.

(** [d.get(k)] *)
Fixpoint get (k : string) (d : list (string * V)) : option V :=
  match d with
  | [] => None
  | (k', v) :: d' => if (k' =? k)%string then Some v else get k d'
  end.

(** [d[k] = v]: an existing key keeps its position, a new key goes last. *)
Fixpoint set (k : string) (v : V) (d : list (string * V)) : list (string * V) :=
  match d with
  | [] => [(k, v)]
  | (k', v') :: d' =>
      if (k' =? k)%string then (k, v) :: d' else (k', v') :: set k v d'
  end.

(** [d.update(other)] *)
Definition update (d other : list (string * V)) : list (string * V) :=
  fold_left (fun acc kv => set (fst kv) (snd kv) acc) other d.
End Ops.
End PyDict.

(** [d.get(k)] on a JSON object, [None] when the key is missing. *)
Definition get_or_none (k : string) (d : pydict) : pyval :=
  match PyDict.get k d with Some v => v | None => PNone end.

(** [d.get(k, default)] *)
Definition get_or (k : string) (default : pyval) (d : pydict) : pyval :=
  match PyDict.get k d with Some v => v | None => default end.

(** [a == b]: numbers by value, strings and lists by content, dicts by
    their items whatever the order. *)
Fixpoint py_eq (a b : pyval) : bool :=
  match num_of a, num_of b with
  | Some x, Some y => Qeq_bool x y
  | _, _ =>
      match a, b with
      | PNone, PNone => true
      | PStr s, PStr t => (s =? t)%string
      | PList l, PList m =>
          (fix go (l m : list pyval) : bool :=
             match l, m with
             | [], [] => true
             | x :: l', y :: m' => py_eq x y && go l' m'
             | _, _ => false
             end) l m
      | PDict d, PDict e =>
          (length d =? length e)%nat
          && (fix go (d : list (string * pyval)) : bool :=
                match d with
                | [] => true
                | (k, v) :: d' =>
                    match PyDict.get k e with
                    | Some w => py_eq v w
                    | None => false
                    end && go d'
                end) d
      | _, _ => false
      end
  end.

(** ** Strings *)

Definition is_upper (c : ascii) : bool :=
  let n := nat_of_ascii c in (65 <=? n)%nat && (n <=? 90)%nat.

Definition lower_char (c : ascii) : ascii :=
  if is_upper c then ascii_of_nat (nat_of_ascii c + 32) else c.

(** [s.lower()] *)
Fixpoint lower (s : string) : string :=
  match s with
  | EmptyString => EmptyString
  | String c s' => String (lower_char c) (lower s')
  end.

(** [c.isspace()]: tab, line feed, vertical tab, form feed, carriage return,
    the four separators 0x1c-0x1f, and space. *)
Definition is_space (c : ascii) : bool :=
  let n := nat_of_ascii c in
  ((9 <=? n)%nat && (n <=? 13)%nat) || ((28 <=? n)%nat && (n <=? 32)%nat).

Fixpoint lstrip (s : string) : string :=
  match s with
  | EmptyString => EmptyString
  | String c s' => if is_space c then lstrip s' else s
  end.

Fixpoint rstrip (s : string) : string :=
  match s with
  | EmptyString => EmptyString
  | String c s' =>
      match rstrip s' with
      | EmptyString => if is_space c then EmptyString else String c EmptyString
      | r => String c r
      end
  end.

(** [s.strip()] *)
Definition strip (s : string) : string := rstrip (lstrip s).

(** ** Slices and sorting *)

(** [l[start:]] for any integer [start]. *)
Definition slice_from {A} (start : Z) (l : list A) : list A :=
  let n := Z.of_nat (length l) in
  let s := if (start <? 0)%Z then Z.max (start + n) 0 else Z.min start n in
  drop (Z.to_nat s) l.

(** [l[:stop]] for any integer [stop]. *)
Definition slice_to {A} (stop : Z) (l : list A) : list A :=
  let n := Z.of_nat (length l) in
  let s := if (stop <? 0)%Z then Z.max (stop + n) 0 else Z.min stop n in
  take (Z.to_nat s) l.

(** [sorted(l, key=...)] is stable: elements come out in key order, equal
    keys in their original order. Insertion from the right, placing an
    element before the first one that is not smaller, computes that list. *)
Section Sorted.
Context {A : Type} (le : A -> A -> bool).

Fixpoint insert_sorted (x : A) (l : list A) : list A :=
  match l with
  | [] => [x]
  | y :: l' => if le x y then x :: l else y :: insert_sorted x l'
  end.

Fixpoint sorted (l : list A) : list A :=
  match l with
  | [] => []
  | x :: l' => insert_sorted x (sorted l')
  end.
End Sorted.

(* ===================================================================== *)
(** * context.py *)
(* ===================================================================== *)

Inductive Role := USER | BRAIN | SYSTEM.

Module Entity.
Record t := mk {
  id : string;
  canonical_name : string;
  entity_type : pyval;
  aliases : list string;
  metadata : pydict;
  last_referenced_at : Q;
  reference_count : Z
}.

(** [touch()] *)
Definition touch (now : Q) (e : t) : t :=
  mk (id e) (canonical_name e) (entity_type e) (aliases e) (metadata e)
     now (reference_count e + 1).

Definition with_aliases (al : list string) (e : t) : t :=
  mk (id e) (canonical_name e) (entity_type e) al (metadata e)
     (last_referenced_at e) (reference_count e).

Definition with_metadata (md : pydict) (e : t) : t :=
  mk (id e) (canonical_name e) (entity_type e) (aliases e) md
     (last_referenced_at e) (reference_count e).
End Entity.
Abbreviation Entity := Entity.t.

Module Turn.
Record t := mk {
  id : string;
  role : Role;
  content : pyval;
  timestamp : Q;
  entities_mentioned : list pyval;
  intent : pyval;
  metadata : pydict
}.
End Turn.
Abbreviation Turn := Turn.t.

(** The registry [_entities : dict[str, Entity]] always stores an entity
    under its own [id], which is never reassigned; the dict is represented by
    its values in insertion order, the key being the [id] field. *)
Module Registry.
(** [d[e.id] = e] *)
Fixpoint set (e : Entity) (d : list Entity) : list Entity :=
  match d with
  | [] => [e]
  | e' :: d' =>
      if (Entity.id e' =? Entity.id e)%string then e :: d' else e' :: set e d'
  end.

(** [del d[key]]; the keys deleted by this code are taken from the dict. *)
Definition del (key : string) (d : list Entity) : list Entity :=
  List.filter (fun e => negb (Entity.id e =? key)%string) d.

Definition ids (d : list Entity) : list string := map Entity.id d.
End Registry.

Module Context.
Record t := mk {
  session_id : string;
  window_size : Z;
  max_entities : Z;
  _turns : list Turn;
  _entities : list Entity;
  _session_summary : pyval;
  _created_at : Q;
  _topic_stack : list pyval
}.

(** [ConversationContext(window_size=..., max_entities=...)]: no session id
    is passed by this code, so one is generated. *)
Definition init (uid : string) (now : Q) (window_size max_entities : Z) : t :=
  mk uid window_size max_entities [] [] (PStr "") now [].

Definition with_turns (ts : list Turn) (c : t) : t :=
  mk (session_id c) (window_size c) (max_entities c) ts (_entities c)
     (_session_summary c) (_created_at c) (_topic_stack c).

Definition with_entities (es : list Entity) (c : t) : t :=
  mk (session_id c) (window_size c) (max_entities c) (_turns c) es
     (_session_summary c) (_created_at c) (_topic_stack c).

Definition with_topics (tp : list pyval) (c : t) : t :=
  mk (session_id c) (window_size c) (max_entities c) (_turns c) (_entities c)
     (_session_summary c) (_created_at c) tp.

(** *** Turns *)

Definition add_user_turn (uid : string) (now : Q) (content : string)
    (metadata : option pydict) (c : t) : Turn * t :=
  let turn := Turn.mk uid USER (PStr content) now [] PNone
                (match metadata with Some m => m | None => [] end) in
  (turn, with_turns (_turns c ++ [turn]) c).

Definition add_brain_turn (uid : string) (now : Q) (content : pyval)
    (intent : pyval) (entities : option (list pyval))
    (metadata : option pydict) (c : t) : Turn * t :=
  let turn := Turn.mk uid BRAIN content now
                (match entities with Some l => l | None => [] end) intent
                (match metadata with Some m => m | None => [] end) in
  (turn, with_turns (_turns c ++ [turn]) c).

Definition add_system_turn (uid : string) (now : Q) (content : string)
    (c : t) : Turn * t :=
  let turn := Turn.mk uid SYSTEM (PStr content) now [] PNone [] in
  (turn, with_turns (_turns c ++ [turn]) c).

Definition turn_count (c : t) : Z := Z.of_nat (length (_turns c)).

(** *** Entities *)

Definition matches (needle : string) (e : Entity) : bool :=
  (lower (Entity.canonical_name e) =? needle)%string
  || existsb (fun a => (lower a =? needle)%string) (Entity.aliases e).

(** [find_entity]: the first entity, in insertion order, whose lowered
    name or one of whose lowered aliases equals the lowered, stripped
    argument. *)
Definition find_entity (name_or_alias : string) (c : t) : option Entity :=
  let needle := strip (lower name_or_alias) in
  List.find (matches needle) (_entities c).

(** The loop
    [for alias in aliases: if alias.lower() not in [a.lower() ...]: append]. *)
Definition merge_aliases (existing new : list string) : list string :=
  fold_left
    (fun acc alias =>
       if existsb (fun a => (lower a =? lower alias)%string) acc
       then acc else acc ++ [alias])
    new existing.

(** The sort key [(e.reference_count, e.last_referenced_at)], compared as
    tuples. *)
Definition evict_key_le (a b : Entity) : bool :=
  (Entity.reference_count a <? Entity.reference_count b)%Z
  || ((Entity.reference_count a =? Entity.reference_count b)%Z
      && Qle_bool (Entity.last_referenced_at a) (Entity.last_referenced_at b)).

(** The entities that [_evict_stale_entities] deletes, in deletion order. *)
Definition evicted (c : t) : list Entity :=
  let sorted_entities := sorted evict_key_le (_entities c) in
  let to_remove := (Z.of_nat (length (_entities c)) - max_entities c)%Z in
  slice_to to_remove sorted_entities.

Definition _evict_stale_entities (c : t) : t :=
  with_entities
    (fold_left (fun d e => Registry.del (Entity.id e) d) (evicted c)
               (_entities c))
    c.

(** [track_entity]. An entity of the code keeps the list of aliases and
    the dict of metadata that it is given, by reference, and merges into
    them in place. The records of the embedding hold their values, which
    describe the registry as long as no two entities hold the same list
    or dict and no caller changes one that it has passed. *)
Definition track_entity (uid : string) (now : Q)
    (canonical_name : string) (entity_type : pyval)
    (aliases : option (list string)) (metadata : option pydict)
    (c : t) : Entity * t :=
  match find_entity canonical_name c with
  | Some existing =>
      let e1 := Entity.touch now existing in
      let e2 := match aliases with
                | Some al => Entity.with_aliases
                               (merge_aliases (Entity.aliases e1) al) e1
                | None => e1
                end in
      let e3 := match metadata with
                | Some md => Entity.with_metadata
                               (PyDict.update (Entity.metadata e2) md) e2
                | None => e2
                end in
      (e3, with_entities (Registry.set e3 (_entities c)) c)
  | None =>
      let entity := Entity.mk uid canonical_name entity_type
                      (match aliases with Some al => al | None => [] end)
                      (match metadata with Some md => md | None => [] end)
                      now 1 in
      let c1 := with_entities (Registry.set entity (_entities c)) c in
      let c2 := if (max_entities c1 <? Z.of_nat (length (_entities c1)))%Z
                then _evict_stale_entities c1 else c1 in
      (entity, c2)
  end.

Definition recent_key_le (a b : Entity) : bool :=
  Qle_bool (Entity.last_referenced_at b) (Entity.last_referenced_at a).

(** [sorted(..., key=last_referenced_at, reverse=True)[:limit]] *)
Definition get_recent_entities (limit : Z) (c : t) : list Entity :=
  slice_to limit (sorted recent_key_le (_entities c)).

(** *** Topic stack *)

Definition push_topic (topic : pyval) (c : t) : t :=
  match last (_topic_stack c) with
  | Some top => if py_eq top topic then c
                else
                  let st := _topic_stack c ++ [topic] in
                  with_topics
                    (if (20 <? Z.of_nat (length st))%Z
                     then slice_from (-20) st else st) c
  | None => with_topics [topic] c
  end.

Definition current_topic (c : t) : option pyval := last (_topic_stack c).

Definition pop_topic (c : t) : option pyval * t :=
  match last (_topic_stack c) with
  | Some top => (Some top, with_topics (removelast (_topic_stack c)) c)
  | None => (None, c)
  end.

(** *** The payload for the brain *)

Record turn_view := mk_turn_view {
  tv_role : Role;
  tv_content : pyval;
  tv_timestamp : Q;
  tv_intent : pyval;
  tv_entities : list pyval
}.

Record entity_view := mk_entity_view {
  ev_id : string;
  ev_name : string;
  ev_type : pyval;
  ev_aliases : list string;
  ev_metadata : pydict;
  ev_ref_count : Z
}.

Record brain_context := mk_brain_context {
  bc_session_id : string;
  bc_session_summary : pyval;
  bc_current_topic : option pyval;
  bc_topic_history : list pyval;
  bc_turns : list turn_view;
  bc_tracked_entities : list entity_view;
  bc_turn_count : Z;
  bc_session_age_seconds : Q
}.

Definition view_turn (t : Turn) : turn_view :=
  mk_turn_view (Turn.role t) (Turn.content t) (Turn.timestamp t)
               (Turn.intent t) (Turn.entities_mentioned t).

Definition view_entity (e : Entity) : entity_view :=
  mk_entity_view (Entity.id e) (Entity.canonical_name e) (Entity.entity_type e)
                 (Entity.aliases e) (Entity.metadata e)
                 (Entity.reference_count e).

Definition get_brain_context (now : Q) (c : t) : brain_context :=
  let window_turns := slice_from (- window_size c) (_turns c) in
  let recent_entities := get_recent_entities 15 c in
  mk_brain_context
    (session_id c) (_session_summary c) (current_topic c)
    (slice_from (-5) (_topic_stack c))
    (map view_turn window_turns)
    (map view_entity recent_entities)
    (Z.of_nat (length (_turns c)))
    (now - _created_at c).

Definition update_session_summary (summary : pyval) (c : t) : t :=
  mk (session_id c) (window_size c) (max_entities c) (_turns c) (_entities c)
     summary (_created_at c) (_topic_stack c).
End Context.
Abbreviation ConversationContext := Context.t.

(* ===================================================================== *)
(** * state.py *)
(* ===================================================================== *)

Inductive ConversationState :=
| IDLE | GREETING | QUERYING | DEBRIEFING | ACTION_REQUESTED | CLARIFYING
| CONFIRMING | FOLLOWING_UP | MULTI_TURN_TASK | ERROR_RECOVERY | FAREWELL.

Definition state_value (s : ConversationState) : string :=
  match s with
  | IDLE => "idle" | GREETING => "greeting" | QUERYING => "querying"
  | DEBRIEFING => "debriefing" | ACTION_REQUESTED => "action_requested"
  | CLARIFYING => "clarifying" | CONFIRMING => "confirming"
  | FOLLOWING_UP => "following_up" | MULTI_TURN_TASK => "multi_turn_task"
  | ERROR_RECOVERY => "error_recovery" | FAREWELL => "farewell"
  end.

Definition all_states : list ConversationState :=
  [IDLE; GREETING; QUERYING; DEBRIEFING; ACTION_REQUESTED; CLARIFYING;
   CONFIRMING; FOLLOWING_UP; MULTI_TURN_TASK; ERROR_RECOVERY; FAREWELL].

(** [ConversationState(raw)]: the member with that value; [None] here
    stands for the [ValueError] of a value that names no member. *)
Definition state_of_value (raw : pyval) : option ConversationState :=
  match raw with
  | PStr s => List.find (fun st => (state_value st =? s)%string) all_states
  | _ => None
  end.

Module StateSnapshot.
Record t := mk {
  state : ConversationState;
  entered_at : Q;
  exited_at : option Q;
  trigger_turn_id : option string;
  metadata : pydict
}.

Definition close (now : Q) (s : t) : t :=
  mk (state s) (entered_at s) (Some now) (trigger_turn_id s) (metadata s).
End StateSnapshot.
Abbreviation StateSnapshot := StateSnapshot.t.

Module StateTracker.
(** A registered listener is named by a handle; calling it is an event. *)
Inductive event :=
| Notified (listener : nat) (old new : StateSnapshot).

Record t := mk {
  _current : StateSnapshot;
  _history : list StateSnapshot;
  _listeners : list nat
}.

Definition init (now : Q) : t :=
  let current := StateSnapshot.mk IDLE now None None [] in
  mk current [current] [].

Definition current_state (s : t) : ConversationState :=
  StateSnapshot.state (_current s).

(** [_current] is the object that sits last in [_history]: assigning its
    [exited_at] is seen through both. *)
Definition set_last (x : StateSnapshot) (h : list StateSnapshot) :=
  match h with [] => [] | _ => removelast h ++ [x] end.

Definition transition (now : Q) (new_state : ConversationState)
    (trigger_turn_id : option string) (metadata : option pydict)
    (s : t) : StateSnapshot * t * list event :=
  let closed := StateSnapshot.close now (_current s) in
  let h1 := set_last closed (_history s) in
  let snapshot :=
    StateSnapshot.mk new_state now None trigger_turn_id
      (match metadata with Some m => m | None => [] end) in
  let h2 := h1 ++ [snapshot] in
  let h3 := if (500 <? Z.of_nat (length h2))%Z then slice_from (-500) h2
            else h2 in
  (* [listener(self._history[-2], snapshot)], any exception swallowed *)
  let evs := match rev h3 with
             | _ :: old :: _ =>
                 map (fun l => Notified l old snapshot) (_listeners s)
             | _ => []
             end in
  (snapshot, mk snapshot h3 (_listeners s), evs).

Definition on_transition (callback : nat) (s : t) : t :=
  mk (_current s) (_history s) (_listeners s ++ [callback]).

Definition last_n_states (n : Z) (s : t) : list ConversationState :=
  map StateSnapshot.state (slice_from (- n) (_history s)).
End StateTracker.
Abbreviation StateTracker := StateTracker.t.

(* ===================================================================== *)
(** * Exceptions *)
(* ===================================================================== *)

Inductive exn_class :=
| ConnectionError | TimeoutError | RuntimeError | AttributeError | TypeError
| OverflowError
| UserError (name : string)     (* any other subclass of [Exception] *)
| CancelledError | KeyboardInterrupt.

(** An exception with the pieces of its message. *)
Record exn := Exn { exn_of : exn_class; exn_msg : list pyval }.

(** Whether [except Exception] catches it. *)
Definition is_Exception (e : exn) : bool :=
  match exn_of e with
  | CancelledError | KeyboardInterrupt => false
  | _ => true
  end.

Definition is_class (c : exn_class) (e : exn) : bool :=
  match c, exn_of e with
  | ConnectionError, ConnectionError => true
  | TimeoutError, TimeoutError => true
  | _, _ => false
  end.

Inductive result (A : Type) :=
| Ok (a : A)
| Raise (e : exn).
Arguments Ok {A} a.
Arguments Raise {A} e.

(** ** The [json] module *)

(** [json.loads] raises [JSONDecodeError] on text that is not JSON. On some
    text it raises something else: [RecursionError] when the nesting goes
    beyond the recursion limit, [ValueError] when an integer literal goes
    beyond the digit limit of [int]. Neither is a [JSONDecodeError]; both
    are subclasses of [Exception]. *)
Inductive loads_error := LoadsRecursionError | LoadsValueError.

Definition loads_exn (e : loads_error) : exn :=
  match e with
  | LoadsRecursionError =>
      Exn (UserError "RecursionError")
          [PStr "maximum recursion depth exceeded"]
  | LoadsValueError =>
      Exn (UserError "ValueError")
          [PStr "Exceeds the limit for integer string conversion"]
  end.

(** What [json.loads] does with a string. *)
Inductive loads_outcome :=
| Decoded (v : pyval)
| JSONDecodeError
| LoadsRaises (e : loads_error).

(** [json.dumps(message, default=str)] raises [TypeError] for a key that is
    no string or number, [ValueError] for a structure that contains itself
    and [RecursionError] for nesting beyond the recursion limit. All are
    subclasses of [Exception]. *)
Inductive dumps_error := DumpsTypeError | DumpsValueError | DumpsRecursionError.

Definition dumps_exn (e : dumps_error) : exn :=
  match e with
  | DumpsTypeError =>
      Exn TypeError [PStr "keys must be str, int, float, bool or None"]
  | DumpsValueError =>
      Exn (UserError "ValueError") [PStr "Circular reference detected"]
  | DumpsRecursionError =>
      Exn (UserError "RecursionError")
          [PStr "maximum recursion depth exceeded"]
  end.

(* ===================================================================== *)
(** * gateway.py *)
(* ===================================================================== *)

Inductive GatewayStatus :=
| DISCONNECTED | CONNECTING | CONNECTED | RECONNECTING | FATAL.

Definition status_eqb (a b : GatewayStatus) : bool :=
  match a, b with
  | DISCONNECTED, DISCONNECTED | CONNECTING, CONNECTING
  | CONNECTED, CONNECTED | RECONNECTING, RECONNECTING | FATAL, FATAL => true
  | _, _ => false
  end.

Module GatewayConfig.
Record t := mk {
  uri : string;
  reconnect_delay_base : Q;
  reconnect_delay_max : Q;
  reconnect_max_attempts : Z;
  ping_interval : Q;
  ping_timeout : Q;
  response_timeout : Q;
  max_message_size : Z;
  connect_timeout : Q
}.

Definition default : t :=
  mk "ws://127.0.0.1:18789" 1 30 50 20 10 60 (10 * 1024 * 1024) 10.
End GatewayConfig.
Abbreviation GatewayConfig := GatewayConfig.t.

(** The state of an [asyncio.Future]. *)
Inductive future_state :=
| FPending
| FResult (message : pydict)
| FException (e : exn)
| FCancelled.

Definition done (f : future_state) : bool :=
  match f with FPending => false | _ => true end.

(** [PendingRequest]. Its [future] is the future object made for this
    request; futures are kept in the heap [Gateway.futures] of the model
    under the request id, so that the caller awaiting one still holds it
    when the table entry is gone. *)
Module PendingRequest.
Record t := mk {
  request_id : string;
  payload : pydict;
  sent_at : Q;
  timeout : Q
}.
End PendingRequest.
Abbreviation PendingRequest := PendingRequest.t.

Inductive task_state := TaskRunning | TaskCancelled | TaskDone.

(** What the network does when the code calls it. *)
Inductive connect_outcome :=
| ConnectOk (ws : nat)     (* the new connection *)
| ConnectFails.            (* OSError, WebSocketException or timeout *)

(** What becomes of a message that [_raw_send] is given while a connection
    is there: [json.dumps] may refuse it, and then nothing reaches the
    connection. The payloads of this embedding are trees with string keys;
    a payload of the code is any [dict], and whether it can be serialised
    is part of the environment of the call. *)
Inductive ws_send_outcome :=
| WsSent (now : Q)                  (* sent; the clock read afterwards *)
| WsClosed                          (* ConnectionClosed *)
| NotSerialisable (e : dumps_error). (* [json.dumps] raised *)

Module Gateway.
Inductive event :=
| StatusListener (listener : nat) (old new : GatewayStatus)
| WsSend (ws : nat) (message : pydict)
| WsClose (ws : nat)
| SinkCalled (sink : nat) (chunk : pyval)
| SetResult (request_id : string) (message : pydict)
| SetException (request_id : string) (e : exn)
| Sleep (attempt : Z) (delay : Q)
| SpawnReconnect
| Unsolicited (msg_type : pyval).

Record t := mk {
  config : GatewayConfig;
  _ws : option nat;
  _status : GatewayStatus;
  _reconnect_attempt : Z;
  _pending : gmap string PendingRequest;
  _stream_callbacks : gmap string nat;
  _status_listeners : list nat;
  _messages_sent : Z;
  _messages_received : Z;
  _last_send_at : option Q;
  _last_recv_at : option Q;
  _total_latency : Q;
  _latency_samples : Z;
  _reader_task : option task_state;
  _health_task : option task_state;
  futures : gmap string future_state
}.

Definition init (config : GatewayConfig) : t :=
  mk config None DISCONNECTED 0 ∅ ∅ [] 0 0 None None 0 0 None None ∅.

Definition with_conn (ws : option nat) (st : GatewayStatus) (att : Z)
    (rt ht : option task_state) (g : t) : t :=
  mk (config g) ws st att (_pending g) (_stream_callbacks g)
     (_status_listeners g) (_messages_sent g) (_messages_received g)
     (_last_send_at g) (_last_recv_at g) (_total_latency g)
     (_latency_samples g) rt ht (futures g).

Definition with_status (st : GatewayStatus) (g : t) : t :=
  with_conn (_ws g) st (_reconnect_attempt g) (_reader_task g)
            (_health_task g) g.

Definition with_attempt (att : Z) (g : t) : t :=
  with_conn (_ws g) (_status g) att (_reader_task g) (_health_task g) g.

Definition with_tables (p : gmap string PendingRequest)
    (cb : gmap string nat) (fs : gmap string future_state) (g : t) : t :=
  mk (config g) (_ws g) (_status g) (_reconnect_attempt g) p cb
     (_status_listeners g) (_messages_sent g) (_messages_received g)
     (_last_send_at g) (_last_recv_at g) (_total_latency g)
     (_latency_samples g) (_reader_task g) (_health_task g) fs.

Definition with_metrics (sent recv : Z) (ls lr : option Q) (lat : Q)
    (n : Z) (g : t) : t :=
  mk (config g) (_ws g) (_status g) (_reconnect_attempt g) (_pending g)
     (_stream_callbacks g) (_status_listeners g) sent recv ls lr lat n
     (_reader_task g) (_health_task g) (futures g).

(** [_set_status] *)
Definition _set_status (status : GatewayStatus) (g : t) : t * list event :=
  let old := _status g in
  (with_status status g,
   if status_eqb old status then []
   else map (fun l => StatusListener l old status) (_status_listeners g)).

(** [connect] *)
Definition connect (o : connect_outcome) (g : t)
    : result unit * t * list event :=
  if status_eqb (_status g) CONNECTED then (Ok tt, g, [])
  else
    let '(g1, ev1) := _set_status CONNECTING g in
    match o with
    | ConnectOk ws =>
        let '(g2, ev2) :=
          _set_status CONNECTED
            (with_conn (Some ws) (_status g1) (_reconnect_attempt g1)
                       (_reader_task g1) (_health_task g1) g1) in
        (Ok tt,
         with_conn (_ws g2) (_status g2) 0
                   (Some TaskRunning) (Some TaskRunning) g2,
         ev1 ++ ev2)
    | ConnectFails =>
        let '(g2, ev2) := _set_status DISCONNECTED g1 in
        (Raise (Exn ConnectionError
                    [PStr "Cannot reach OpenClaw gateway at ";
                     PStr (GatewayConfig.uri (config g))]),
         g2, ev1 ++ ev2)
    end.

(** [future.set_exception(e)] under [if not future.done()]. *)
Definition fail_future (e : exn) (f : future_state) : future_state :=
  if done f then f else FException e.

(** The loop [for req in self._pending.values(): if not req.future.done():
    req.future.set_exception(e)], on the heap of futures. *)
Definition fail_all_pending (e : exn) (g : t) : gmap string future_state :=
  map_fold (fun rid (_ : PendingRequest) fs => alter (fail_future e) rid fs)
           (futures g) (_pending g).

Definition cancel_task (tk : option task_state) : option task_state :=
  match tk with
  | Some TaskRunning => Some TaskCancelled
  | other => other
  end.

(** [disconnect] *)
Definition disconnect (g : t) : t * list event :=
  let rt := cancel_task (_reader_task g) in
  let ht := cancel_task (_health_task g) in
  let ev_close := match _ws g with Some ws => [WsClose ws] | None => [] end in
  let fs := fail_all_pending
              (Exn ConnectionError [PStr "Gateway disconnected"]) g in
  let g1 := with_tables ∅ (_stream_callbacks g) fs
              (with_conn None (_status g) (_reconnect_attempt g) rt ht g) in
  let '(g2, ev) := _set_status DISCONNECTED g1 in
  (g2, ev_close ++ ev).

(** The delay of [_reconnect] before an attempt:
    [min(base * (2 ** (attempt - 1)), max)]. [2 ** k] is an [int] for
    [k >= 0]; multiplying the [float] base by it first converts it to a
    double, which raises [OverflowError] from [2 ** 1024] on. Scaling a
    double by a power of two is exact, and a product beyond the largest
    double is above any configured maximum, so the rational product
    gives the same minimum. *)
Definition reconnect_delay (c : GatewayConfig) (attempt : Z) : result Q :=
  let k := (attempt - 1)%Z in
  if (k <? 0)%Z then
    Ok (Qmin (GatewayConfig.reconnect_delay_base c * Qpower 2 k)
             (GatewayConfig.reconnect_delay_max c))
  else if (k <? 1024)%Z then
    Ok (Qmin (GatewayConfig.reconnect_delay_base c * inject_Z (2 ^ k))
             (GatewayConfig.reconnect_delay_max c))
  else Raise (Exn OverflowError [PStr "int too large to convert to float"]).

(** [_raw_send]: the message is serialised before the [try], so an error
    of [json.dumps] leaves as it is. *)
Definition _raw_send (o : ws_send_outcome) (message : pydict) (g : t)
    : result unit * t * list event :=
  match _ws g with
  | None => (Raise (Exn ConnectionError [PStr "WebSocket not connected"]),
             g, [])
  | Some ws =>
      match o with
      | NotSerialisable e => (Raise (dumps_exn e), g, [])
      | WsSent now =>
          (Ok tt,
           with_metrics (_messages_sent g + 1) (_messages_received g)
                        (Some now) (_last_recv_at g) (_total_latency g)
                        (_latency_samples g) g,
           [WsSend ws message])
      | WsClosed =>
          (Raise (Exn ConnectionError [PStr "Connection lost during send"]),
           g, [SpawnReconnect])
      end
  end.

Definition future_done (rid : string) (g : t) : bool :=
  match futures g !! rid with Some f => done f | None => true end.

(** The re-send loop of [_reconnect]; it ends at the first send that
    raises. The requests are visited in the order of the model's table. *)
Fixpoint resend (now : Q) (o : ws_send_outcome)
    (reqs : list (string * PendingRequest)) (g : t)
    : result unit * t * list event :=
  match reqs with
  | [] => (Ok tt, g, [])
  | (rid, req) :: reqs' =>
      if negb (Qle_bool (PendingRequest.timeout req)
                        (now - PendingRequest.sent_at req)%Q)
         && negb (future_done rid g)
      then
        let '(r, g1, ev1) := _raw_send o (PendingRequest.payload req) g in
        match r with
        | Ok _ => let '(r2, g2, ev2) := resend now o reqs' g1 in
                  (r2, g2, ev1 ++ ev2)
        | Raise e => (Raise e, g1, ev1)
        end
      else resend now o reqs' g
  end.

(** What the network does at one reconnection attempt. *)
Record attempt_env := mk_attempt_env {
  ae_connect : connect_outcome;
  ae_now : Q;
  ae_resend : ws_send_outcome
}.

Inductive reconnect_result :=
| Reconnected
| Exhausted                (* FATAL *)
| Crashed (e : exn)        (* the task ended with an exception *)
| Retrying.                (* still in the loop when the script ends *)

Definition exhausted_error : exn :=
  Exn ConnectionError [PStr "Gateway reconnection failed"].

(** The [while True] loop of [_reconnect], run against a script of
    connection attempts. *)
Fixpoint _reconnect_loop (script : list attempt_env) (g : t)
    : reconnect_result * t * list event :=
  let g1 := with_attempt (_reconnect_attempt g + 1) g in
  let max_attempts := GatewayConfig.reconnect_max_attempts (config g1) in
  if (0 <? max_attempts)%Z && (max_attempts <? _reconnect_attempt g1)%Z then
    let '(g2, ev) := _set_status FATAL g1 in
    (Exhausted,
     with_tables ∅ (_stream_callbacks g2) (fail_all_pending exhausted_error g2)
                 g2,
     ev)
  else
    match reconnect_delay (config g1) (_reconnect_attempt g1) with
    | Raise e => (Crashed e, g1, [])
    | Ok delay =>
        let ev0 := [Sleep (_reconnect_attempt g1) delay] in
        match script with
        | [] => (Retrying, g1, ev0)
        | a :: script' =>
            let '(r, g2, ev2) := connect (ae_connect a) g1 in
            match r with
            | Raise _ =>
                let '(r', g', ev') := _reconnect_loop script' g2 in
                (r', g', ev0 ++ ev2 ++ ev')
            | Ok _ =>
                let '(r3, g3, ev3) :=
                  resend (ae_now a) (ae_resend a)
                         (map_to_list (_pending g2)) g2 in
                match r3 with
                | Ok _ => (Reconnected, g3, ev0 ++ ev2 ++ ev3)
                | Raise e =>
                    (* [except ConnectionError: continue] *)
                    if is_class ConnectionError e then
                      let '(r', g', ev') := _reconnect_loop script' g3 in
                      (r', g', ev0 ++ ev2 ++ ev3 ++ ev')
                    else (Crashed e, g3, ev0 ++ ev2 ++ ev3)
                end
            end
        end
    end.

(** [_reconnect] *)
Definition _reconnect (script : list attempt_env) (g : t)
    : reconnect_result * t * list event :=
  let '(g1, ev1) := _set_status RECONNECTING g in
  let '(r, g2, ev2) := _reconnect_loop script g1 in
  (r, g2, ev1 ++ ev2).

(** [key in table] for a key taken from a message: a [str] is looked up,
    a list or dict is unhashable, anything else is no key of the table. *)
Definition lookup_key {V} (key : pyval) (m : gmap string V)
    : result (option (string * V)) :=
  match key with
  | PStr s => Ok (match m !! s with Some v => Some (s, v) | None => None end)
  | PList _ | PDict _ => Raise (Exn TypeError [PStr "unhashable type"])
  | _ => Ok None
  end.

Definition brain_error (err : pyval) : exn :=
  Exn RuntimeError [PStr "Brain error: "; err].

(** [_dispatch]. A sink that raises is ignored by the code, so a call of
    the sink is an event and nothing else. *)
Definition _dispatch (now : Q) (message : pydict) (g : t)
    : result unit * t * list event :=
  let request_id := get_or_none "request_id" message in
  let msg_type := get_or "type" (PStr "response") message in
  match (if eq_str msg_type "stream_chunk"
         then lookup_key request_id (_stream_callbacks g) else Ok None) with
  | Raise e => (Raise e, g, [])
  | Ok (Some (_, sink)) =>
      (Ok tt, g, [SinkCalled sink (get_or "content" (PStr "") message)])
  | Ok None =>
      match (if truthy request_id
             then lookup_key request_id (_pending g) else Ok None) with
      | Raise e => (Raise e, g, [])
      | Ok (Some (rid, pending)) =>
          if future_done rid g then (Ok tt, g, [])
          else
            let latency := (now - PendingRequest.sent_at pending)%Q in
            let g1 := with_metrics (_messages_sent g) (_messages_received g)
                        (_last_send_at g) (_last_recv_at g)
                        (_total_latency g + latency)%Q
                        (_latency_samples g + 1)%Z g in
            let err := get_or_none "error" message in
            if truthy err then
              (Ok tt,
               with_tables (_pending g1) (_stream_callbacks g1)
                 (<[rid := FException (brain_error err)]> (futures g1)) g1,
               [SetException rid (brain_error err)])
            else
              (Ok tt,
               with_tables (_pending g1) (_stream_callbacks g1)
                 (<[rid := FResult message]> (futures g1)) g1,
               [SetResult rid message])
      | Ok None => (Ok tt, g, [Unsolicited msg_type])
      end
  end.

(** One frame read by [_read_loop]: the clock when it arrives, the clock
    when it is dispatched, and its text, decoded or not decodable
    ([JSONDecodeError]). A text on which the decoder raises anything else
    ends the reader under [except Exception], as a decoded value that is
    no object does. *)
Inductive frame_body := NotJson | Json (v : pyval).
Record frame := mk_frame {
  fr_recv_at : Q;
  fr_now : Q;
  fr_body : frame_body
}.

Definition reader_running (g : t) : bool :=
  match _reader_task g with Some TaskRunning => true | _ => false end.

(** The reader ends with an exception: it is logged and, unless the
    gateway was disconnected, a reconnection is started. *)
Definition reader_failed (g : t) : t * list event :=
  (with_conn (_ws g) (_status g) (_reconnect_attempt g) (Some TaskDone)
             (_health_task g) g,
   if status_eqb (_status g) DISCONNECTED then [] else [SpawnReconnect]).

(** One turn of the loop of [_read_loop]. A message that is no dict has
    no [get], which ends the reader like any exception of [_dispatch]. *)
Definition _read_step (f : frame) (g : t) : t * list event :=
  if negb (reader_running g) then (g, [])
  else
    let g1 := with_metrics (_messages_sent g) (_messages_received g + 1)
                (_last_send_at g) (Some (fr_recv_at f)) (_total_latency g)
                (_latency_samples g) g in
    match fr_body f with
    | NotJson => (g1, [])
    | Json (PDict message) =>
        let '(r, g2, ev) := _dispatch (fr_now f) message g1 in
        match r with
        | Ok _ => (g2, ev)
        | Raise _ => let '(g3, ev3) := reader_failed g2 in (g3, ev ++ ev3)
        end
    | Json _ => reader_failed g1
    end.

Fixpoint _read_loop (frames : list frame) (g : t) : t * list event :=
  match frames with
  | [] => (g, [])
  | f :: frames' =>
      let '(g1, ev1) := _read_step f g in
      let '(g2, ev2) := _read_loop frames' g1 in
      (g2, ev1 ++ ev2)
  end.

(** What happens while [send] waits for its future. *)
Inductive wait_event :=
| Inbound (f : frame)
| Disconnect.

Definition wait_step (w : wait_event) (g : t) : t * list event :=
  match w with
  | Inbound f => _read_step f g
  | Disconnect => disconnect g
  end.

Fixpoint wait_all (ws : list wait_event) (g : t) : t * list event :=
  match ws with
  | [] => (g, [])
  | w :: ws' =>
      let '(g1, ev1) := wait_step w g in
      let '(g2, ev2) := wait_all ws' g1 in
      (g2, ev1 ++ ev2)
  end.

(** The environment of one call of [send]: the outcome of [connect] if it
    is called, the uuid drawn, the clock when the request is created, the
    outcome of the transmission, and what happens before the call returns;
    when that leaves the future pending, the timeout has elapsed. *)
Record send_env := mk_send_env {
  se_connect : connect_outcome;
  se_uid : string;
  se_now : Q;
  se_ws_send : ws_send_outcome;
  se_wait : list wait_event
}.

Definition timeout_error (timeout : Q) : exn :=
  Exn TimeoutError
      [PStr "Brain did not respond within "; PFloat timeout; PStr "s"].

(** [await asyncio.wait_for(future, timeout)] and the [except] clause
    around it. *)
Definition await_future (rid : string) (timeout : Q) (g : t)
    : result pydict * t :=
  match futures g !! rid with
  | Some (FResult m) => (Ok m, g)
  | Some (FException e) => (Raise e, g)
  | Some FPending =>
      (Raise (timeout_error timeout),
       with_tables (_pending g) (_stream_callbacks g)
                   (<[rid := FCancelled]> (futures g)) g)
  | Some FCancelled | None =>
      (Raise (Exn CancelledError []), g)
  end.

(** [send] *)
Definition send (env : send_env) (payload : pydict) (timeout : option Q)
    (stream_callback : option nat) (g : t)
    : result pydict * t * list event :=
  let '(r0, g0, ev0) :=
    if status_eqb (_status g) CONNECTED then (Ok tt, g, [])
    else connect (se_connect env) g in
  match r0 with
  | Raise e => (Raise e, g0, ev0)
  | Ok _ =>
      let request_id := se_uid env in
      let timeout :=
        match timeout with
        | Some t => if Qeq_bool t 0
                    then GatewayConfig.response_timeout (config g0) else t
        | None => GatewayConfig.response_timeout (config g0)
        end in
      let message :=
        PyDict.update
          [("request_id", PStr request_id); ("type", PStr "conversation")]
          payload in
      let pending :=
        PendingRequest.mk request_id message (se_now env) timeout in
      let g1 :=
        with_tables
          (<[request_id := pending]> (_pending g0))
          (match stream_callback with
           | Some cb => <[request_id := cb]> (_stream_callbacks g0)
           | None => _stream_callbacks g0
           end)
          (<[request_id := FPending]> (futures g0)) g0 in
      (* try *)
      let '(r2, g2, ev2) := _raw_send (se_ws_send env) message g1 in
      let '(r3, g3, ev3) :=
        match r2 with
        | Raise e => (Raise e, g2, [])
        | Ok _ =>
            let '(g', ev') := wait_all (se_wait env) g2 in
            let '(r, g'') := await_future request_id timeout g' in
            (r, g'', ev')
        end in
      (* finally *)
      (r3,
       with_tables (delete request_id (_pending g3))
                   (delete request_id (_stream_callbacks g3))
                   (futures g3) g3,
       ev0 ++ ev2 ++ ev3)
  end.
End Gateway.
Abbreviation OpenClawGateway := Gateway.t.

(* ===================================================================== *)
(** * engine.py *)
(* ===================================================================== *)

Module BrainResponse.
Record t := mk {
  text : pyval;
  intent : pyval;
  state : option ConversationState;
  entities : pyval;
  suggested_actions : pyval;
  follow_up : pyval;
  confidence : pyval;
  needs_clarification : pyval;
  context_summary_update : pyval;
  raw : pydict;
  latency_ms : Q
}.

(** [cls(text=..., raw=..., latency_ms=...)]: the other fields at the
    defaults of the dataclass. *)
Definition plain (text : pyval) (raw : pydict) (latency_ms : Q) : t :=
  mk text PNone None (PList []) (PList []) PNone (PFloat 1) (PBool false)
     PNone raw latency_ms.

(** [BrainResponse.error(message)] *)
Definition error (message : string) : t :=
  mk (PStr message) (PStr "error") (Some ERROR_RECOVERY) (PList [])
     (PList []) PNone (PFloat 0) (PBool false) PNone [] 0.

Section Parse.
(** [json.loads] *)
Variable json_loads : string -> loads_outcome.

(** [from_gateway_response]. The [except] clause around [json.loads]
    names [JSONDecodeError] and lets any other exception of the decoder
    through. Content that is not a dict after decoding has no [get]. *)
Definition from_gateway_response (data : pydict) (latency_ms : Q)
    : result t :=
  let content := get_or "content" (PDict data) data in
  let decoded :=
    match content with
    | PStr s => match json_loads s with
                | Decoded v => inr v
                | JSONDecodeError => inl (Ok (plain content data latency_ms))
                | LoadsRaises e => inl (Raise (loads_exn e))
                end
    | v => inr v
    end in
  match decoded with
  | inl r => r
  | inr (PDict c) =>
      let raw_state := get_or_none "inferred_state" c in
      let state := if truthy raw_state then state_of_value raw_state
                   else None in
      Ok (mk (get_or "response_text" (PStr "") c)
             (get_or_none "inferred_intent" c)
             state
             (get_or "entities_detected" (PList []) c)
             (get_or "suggested_actions" (PList []) c)
             (get_or_none "follow_up_prompt" c)
             (get_or "confidence" (PFloat 1) c)
             (get_or "needs_clarification" (PBool false) c)
             (get_or_none "context_summary_update" c)
             data latency_ms)
  | inr _ =>
      Raise (Exn AttributeError [PStr "object has no attribute 'get'"])
  end.
End Parse.
End BrainResponse.
Abbreviation BrainResponse := BrainResponse.t.

Module EngineConfig.
(** A callback is known by what a call of it does: it returns ([None]) or
    raises. *)
Record t := mk {
  gateway : GatewayConfig;
  context_window_size : Z;
  max_entities : Z;
  auto_compress_at : Z;
  response_timeout : Q;
  system_prompt_override : option string;
  on_response : option (BrainResponse -> option exn);
  on_action : option (pyval -> option exn);
  on_error : option (exn -> option exn)
}.

Definition default : t :=
  mk GatewayConfig.default 20 200 30 60 None None None None.
End EngineConfig.
Abbreviation EngineConfig := EngineConfig.t.

(** Iterating a value with [for x in v]. *)
Definition py_iter (v : pyval) : result (list pyval) :=
  match v with
  | PList l => Ok l
  | PStr s => Ok (map (fun c => PStr (String c EmptyString))
                      (list_ascii_of_string s))
  | PDict d => Ok (map (fun kv => PStr (fst kv)) d)
  | _ => Raise (Exn TypeError [PStr "object is not iterable"])
  end.

(** [v.get(k, default)] on a value that should be a dict. *)
Definition py_get (k : string) (default : pyval) (v : pyval) : result pyval :=
  match v with
  | PDict d => Ok (get_or k default d)
  | _ => Raise (Exn AttributeError [PStr "object has no attribute 'get'"])
  end.

Fixpoint traverse {A B} (f : A -> result B) (l : list A) : result (list B) :=
  match l with
  | [] => Ok []
  | x :: l' =>
      match f x with
      | Raise e => Raise e
      | Ok y => match traverse f l' with
                | Raise e => Raise e
                | Ok ys => Ok (y :: ys)
                end
      end
  end.

(** The payload as the dict that is sent. *)
Definition role_value (r : Role) : string :=
  match r with USER => "user" | BRAIN => "brain" | SYSTEM => "system" end.

Definition opt_py (o : option pyval) : pyval :=
  match o with Some v => v | None => PNone end.

Definition turn_view_py (v : Context.turn_view) : pyval :=
  PDict [("role", PStr (role_value (Context.tv_role v)));
         ("content", Context.tv_content v);
         ("timestamp", PFloat (Context.tv_timestamp v));
         ("intent", Context.tv_intent v);
         ("entities", PList (Context.tv_entities v))].

Definition entity_view_py (v : Context.entity_view) : pyval :=
  PDict [("id", PStr (Context.ev_id v));
         ("name", PStr (Context.ev_name v));
         ("type", Context.ev_type v);
         ("aliases", PList (map PStr (Context.ev_aliases v)));
         ("metadata", PDict (Context.ev_metadata v));
         ("ref_count", PInt (Context.ev_ref_count v))].

Definition brain_context_py (b : Context.brain_context) : pyval :=
  PDict [("session_id", PStr (Context.bc_session_id b));
         ("session_summary", Context.bc_session_summary b);
         ("current_topic", opt_py (Context.bc_current_topic b));
         ("topic_history", PList (Context.bc_topic_history b));
         ("turns", PList (map turn_view_py (Context.bc_turns b)));
         ("tracked_entities",
          PList (map entity_view_py (Context.bc_tracked_entities b)));
         ("turn_count", PInt (Context.bc_turn_count b));
         ("session_age_seconds", PFloat (Context.bc_session_age_seconds b))].

Module Engine.
Inductive event :=
| GatewayEvent (e : Gateway.event)
| StateEvent (e : StateTracker.event)
| OnResponse (r : BrainResponse)
| OnAction (a : pyval)
| OnError (e : exn).

Record t := mk {
  config : EngineConfig;
  context : ConversationContext;
  gateway : OpenClawGateway;
  state : StateTracker;
  _started : bool;
  _processing : bool
}.

Definition with_context (c : ConversationContext) (e : t) : t :=
  mk (config e) c (gateway e) (state e) (_started e) (_processing e).
Definition with_gateway (g : OpenClawGateway) (e : t) : t :=
  mk (config e) (context e) g (state e) (_started e) (_processing e).
Definition with_state (s : StateTracker) (e : t) : t :=
  mk (config e) (context e) (gateway e) s (_started e) (_processing e).
Definition with_started (b : bool) (e : t) : t :=
  mk (config e) (context e) (gateway e) (state e) b (_processing e).
Definition with_processing (b : bool) (e : t) : t :=
  mk (config e) (context e) (gateway e) (state e) (_started e) b.

(** [ConversationEngine(config)]: the uuid of the session and the clock
    readings of the two constructors. *)
Definition init (config : EngineConfig) (uid : string) (now_ctx now_st : Q)
    : t :=
  mk config
     (Context.init uid now_ctx (EngineConfig.context_window_size config)
                   (EngineConfig.max_entities config))
     (Gateway.init (EngineConfig.gateway config))
     (StateTracker.init now_st)
     false false.

(** [new_session] *)
Definition new_session (uid : string) (now_ctx now_st : Q) (e : t)
    : string * t :=
  let ctx := Context.init uid now_ctx
               (EngineConfig.context_window_size (config e))
               (EngineConfig.max_entities (config e)) in
  let e' := with_state (StateTracker.init now_st) (with_context ctx e) in
  (Context.session_id (context e'), e').

(** [start] *)
Definition start (o : connect_outcome) (e : t)
    : result unit * t * list event :=
  if _started e then (Ok tt, e, [])
  else
    let '(r, g, ev) := Gateway.connect o (gateway e) in
    match r with
    | Raise x => (Raise x, with_gateway g e, map GatewayEvent ev)
    | Ok _ => (Ok tt, with_started true (with_gateway g e),
               map GatewayEvent ev)
    end.

(** [stop] *)
Definition stop (e : t) : t * list event :=
  let '(g, ev) := Gateway.disconnect (gateway e) in
  (with_started false (with_gateway g e), map GatewayEvent ev).

(** The environment of one call of [process]: the outcome of the network
    calls, and the uuid and clock reading of each step that draws them. *)
Record process_env := mk_process_env {
  pe_start : connect_outcome;
  pe_start_time : Q;
  pe_user_turn : string * Q;
  pe_compress_time : Q;
  pe_compress : Gateway.send_env;
  pe_context_time : Q;
  pe_send : Gateway.send_env;
  pe_end_time : Q;
  pe_brain_turn : string * Q;
  pe_entities : nat -> string * Q;
  pe_transition_time : Q;
  pe_error_turn : string * Q;
  pe_error_transition_time : Q
}.

Section Process.
Variable json_loads : string -> loads_outcome.
(** [str(x)] *)
Variable py_str : pyval -> string.
(** The text of [prompts.BRAIN_SYSTEM_PROMPT]. *)
Variable BRAIN_SYSTEM_PROMPT : string.

(** [prompts.build_brain_payload], as called without a user profile. *)
Definition build_brain_payload (user_message : string)
    (context : Context.brain_context)
    (system_prompt_override : option string) : pydict :=
  [("system_prompt",
    PStr (match system_prompt_override with
          | Some p => if (p =? "")%string then BRAIN_SYSTEM_PROMPT else p
          | None => BRAIN_SYSTEM_PROMPT
          end));
   ("user_message", PStr user_message);
   ("context", brain_context_py context)].

Definition compress_prompt : string :=
  "Summarize this conversation history into a concise paragraph. "
  ++ "Preserve: all entity names, key decisions, action items, "
  ++ "unresolved questions, and the current topic. "
  ++ "Respond with ONLY the summary text, no JSON.".

(** [_maybe_compress_context]: an exception of the request is swallowed
    when [except Exception] catches it. *)
Definition _maybe_compress_context (env : process_env) (e : t)
    : result unit * t * list event :=
  let n := Context.turn_count (context e) in
  if (n <? EngineConfig.auto_compress_at (config e))%Z then (Ok tt, e, [])
  else if negb (n mod 10 =? 0)%Z then (Ok tt, e, [])
  else
    let compress_payload :=
      [("type", PStr "context_compress");
       ("system_prompt", PStr compress_prompt);
       ("user_message", PStr "Please compress the conversation context.");
       ("context",
        brain_context_py
          (Context.get_brain_context (pe_compress_time env) (context e)))]
    in
    let '(r, g, ev) :=
      Gateway.send (pe_compress env) compress_payload (Some 30%Q) None
                   (gateway e) in
    let e1 := with_gateway g e in
    match r with
    | Raise x =>
        if is_Exception x then (Ok tt, e1, map GatewayEvent ev)
        else (Raise x, e1, map GatewayEvent ev)
    | Ok raw =>
        let summary := get_or "content" (PStr "") raw in
        let summary :=
          match summary with
          | PDict d => get_or "response_text" (PStr (py_str summary)) d
          | _ => summary
          end in
        (Ok tt,
         if truthy summary
         then with_context
                (Context.update_session_summary summary (context e1)) e1
         else e1,
         map GatewayEvent ev)
    end.

(** The [aliases] of a detected entity are handed to [track_entity]
    unchecked. [track_entity] declares them [Optional[list[str]]], and
    the registry of this embedding holds lists of strings. A falsy
    value counts as no aliases there ([if aliases:], [aliases or []]),
    and a list of strings is passed on as it is. Any other value is
    beyond this embedding: the code stores it in a new entity as it is
    and meets it when the aliases are next read. The embedding ends the
    call there with a type error, which the code does not; the
    properties of [_process_entities] and of [process] that cover
    replies with entities are stated for aliases of the declared type
    ([typed_aliases]). *)
Definition decode_aliases (v : pyval) : result (option (list string)) :=
  if negb (truthy v) then Ok None
  else
    match v with
    | PList l =>
        match traverse (fun a => match a with
                                 | PStr s => Ok s
                                 | _ => Raise (Exn TypeError
                                                   [PStr "aliases"])
                                 end) l with
        | Ok al => Ok (Some al)
        | Raise x => Raise x
        end
    | _ => Raise (Exn TypeError [PStr "aliases"])
    end.

(** [_process_entities]; the [i]-th call of [track_entity] draws
    [oracle i]. A name that is no [str] has no [lower]. *)
Fixpoint _process_entities (oracle : nat -> string * Q) (i : nat)
    (entities : list pyval) (c : ConversationContext)
    : result unit * ConversationContext :=
  match entities with
  | [] => (Ok tt, c)
  | PDict entity_data :: rest =>
      let name := get_or_none "name" entity_data in
      if negb (truthy name) then _process_entities oracle i rest c
      else
        match name with
        | PStr canonical_name =>
            match decode_aliases
                    (get_or "aliases" (PList []) entity_data) with
            | Raise x => (Raise x, c)
            | Ok aliases =>
                let metadata :=
                  List.filter
                    (fun kv =>
                       negb (existsb (String.eqb (fst kv))
                                     ["name"; "type"; "aliases"]))
                    entity_data in
                let '(_, c') :=
                  Context.track_entity (fst (oracle i)) (snd (oracle i))
                    canonical_name
                    (get_or "type" (PStr "other") entity_data)
                    aliases (Some metadata) c in
                _process_entities oracle (S i) rest c'
            end
        | _ => (Raise (Exn AttributeError [PStr "no attribute 'lower'"]), c)
        end
  | _ :: _ =>
      (Raise (Exn AttributeError [PStr "object has no attribute 'get'"]), c)
  end.

(** A guarded callback: [try: cb(x) except Exception: log]. *)
Definition guarded {A} (cb : A -> option exn) (x : A) : result unit :=
  match cb x with
  | Some ex => if is_Exception ex then Ok tt else Raise ex
  | None => Ok tt
  end.

Fixpoint fire_actions (cb : pyval -> option exn) (actions : list pyval)
    : result unit * list event :=
  match actions with
  | [] => (Ok tt, [])
  | a :: rest =>
      match guarded cb a with
      | Raise x => (Raise x, [OnAction a])
      | Ok _ => let '(r, ev) := fire_actions cb rest in (r, OnAction a :: ev)
      end
  end.

(** Steps 5 to 11 of [process]. *)
Definition process_response (env : process_env) (user_turn : Turn)
    (raw_response : pydict) (e : t)
    : result BrainResponse * t * list event :=
  let latency_ms := ((pe_end_time env - pe_start_time env) * 1000)%Q in
  match BrainResponse.from_gateway_response json_loads raw_response
                                            latency_ms with
  | Raise x => (Raise x, e, [])
  | Ok response =>
  match py_iter (BrainResponse.entities response) with
  | Raise x => (Raise x, e, [])
  | Ok entity_list =>
  match traverse (py_get "name" (PStr "")) entity_list with
  | Raise x => (Raise x, e, [])
  | Ok names =>
  let '(_, c6) :=
    Context.add_brain_turn (fst (pe_brain_turn env)) (snd (pe_brain_turn env))
      (BrainResponse.text response) (BrainResponse.intent response)
      (Some names)
      (Some [("confidence", BrainResponse.confidence response);
             ("latency_ms", PFloat (BrainResponse.latency_ms response));
             ("actions", BrainResponse.suggested_actions response)])
      (context e) in
  let '(r7, c7) := _process_entities (pe_entities env) 0 entity_list c6 in
  let e7 := with_context c7 e in
  match r7 with
  | Raise x => (Raise x, e7, [])
  | Ok _ =>
  let '(s8, ev8) :=
    match BrainResponse.state response with
    | Some new_state =>
        let '(_, s, ev) :=
          StateTracker.transition (pe_transition_time env) new_state
            (Some (Turn.id user_turn))
            (Some [("intent", BrainResponse.intent response)])
            (state e7) in
        (s, map StateEvent ev)
    | None => (state e7, [])
    end in
  let c9 :=
    if truthy (BrainResponse.context_summary_update response)
    then Context.update_session_summary
           (BrainResponse.context_summary_update response) c7
    else c7 in
  let c10 :=
    if truthy (BrainResponse.intent response)
    then Context.push_topic (BrainResponse.intent response) c9 else c9 in
  let e10 := with_state s8 (with_context c10 e7) in
  let '(r11, ev11) :=
    match EngineConfig.on_response (config e) with
    | Some cb => (guarded cb response, [OnResponse response])
    | None => (Ok tt, [])
    end in
  match r11 with
  | Raise x => (Raise x, e10, ev8 ++ ev11)
  | Ok _ =>
  match EngineConfig.on_action (config e) with
  | Some cb =>
      if truthy (BrainResponse.suggested_actions response) then
        match py_iter (BrainResponse.suggested_actions response) with
        | Raise x => (Raise x, e10, ev8 ++ ev11)
        | Ok actions =>
            let '(r12, ev12) := fire_actions cb actions in
            match r12 with
            | Raise x => (Raise x, e10, ev8 ++ ev11 ++ ev12)
            | Ok _ => (Ok response, e10, ev8 ++ ev11 ++ ev12)
            end
        end
      else (Ok response, e10, ev8 ++ ev11)
  | None => (Ok response, e10, ev8 ++ ev11)
  end end end end end end.

(** Steps 1 to 3 of [process]: the user turn, the optional compression,
    and the payload. *)
Definition process_prepare (env : process_env) (user_input : string)
    (metadata : option pydict) (e : t)
    : result (Turn * pydict) * t * list event :=
  let '(user_turn, c1) :=
    Context.add_user_turn (fst (pe_user_turn env)) (snd (pe_user_turn env))
                          user_input metadata (context e) in
  let e1 := with_context c1 e in
  let '(r2, e2, ev2) :=
    if (EngineConfig.auto_compress_at (config e1)
        <? Context.turn_count (context e1))%Z
    then _maybe_compress_context env e1 else (Ok tt, e1, []) in
  match r2 with
  | Raise x => (Raise x, e2, ev2)
  | Ok _ =>
      let brain_context :=
        Context.get_brain_context (pe_context_time env) (context e2) in
      (Ok (user_turn,
           build_brain_payload user_input brain_context
             (EngineConfig.system_prompt_override (config e2))),
       e2, ev2)
  end.

(** The body of the [try] of [process]. *)
Definition process_body (env : process_env) (user_input : string)
    (metadata : option pydict) (stream_callback : option nat) (e : t)
    : result BrainResponse * t * list event :=
  let '(r3, e3, ev3) := process_prepare env user_input metadata e in
  match r3 with
  | Raise x => (Raise x, e3, ev3)
  | Ok (user_turn, payload) =>
      let '(r4, g4, ev4) :=
        Gateway.send (pe_send env) payload
          (Some (EngineConfig.response_timeout (config e3)))
          stream_callback (gateway e3) in
      let e4 := with_gateway g4 e3 in
      match r4 with
      | Raise x => (Raise x, e4, ev3 ++ map GatewayEvent ev4)
      | Ok raw_response =>
          let '(r, e', ev) := process_response env user_turn raw_response e4
          in (r, e', ev3 ++ map GatewayEvent ev4 ++ ev)
      end
  end.

Definition timeout_apology : string :=
  "I'm having trouble connecting to my brain right now. "
  ++ "Could you repeat that in a moment?".
Definition connection_apology : string :=
  "I've lost my connection. Give me a second to reconnect.".
Definition generic_apology : string :=
  "Something went wrong on my end. Let me try again.".

(** The body shared by the three [except] clauses of [process]; the
    error callback is called as it is. *)
Definition recover (env : process_env) (apology : string) (reported : exn)
    (e : t) : result BrainResponse * t * list event :=
  let error_resp := BrainResponse.error apology in
  let '(_, c) :=
    Context.add_brain_turn (fst (pe_error_turn env)) (snd (pe_error_turn env))
      (BrainResponse.text error_resp) (PStr "error") None None (context e)
  in
  let '(_, s, evs) :=
    StateTracker.transition (pe_error_transition_time env) ERROR_RECOVERY
                            None None (state e) in
  let e' := with_state s (with_context c e) in
  match EngineConfig.on_error (config e) with
  | Some cb =>
      match cb reported with
      | Some x => (Raise x, e', map StateEvent evs ++ [OnError reported])
      | None => (Ok error_resp, e', map StateEvent evs ++ [OnError reported])
      end
  | None => (Ok error_resp, e', map StateEvent evs)
  end.

(** [process] *)
Definition process (env : process_env) (user_input : string)
    (metadata : option pydict) (stream_callback : option nat) (e : t)
    : result BrainResponse * t * list event :=
  let '(r0, e0, ev0) := start (pe_start env) e in
  match r0 with
  | Raise x => (Raise x, e0, ev0)
  | Ok _ =>
      let e1 := with_processing true e0 in
      let '(r, e2, ev) :=
        process_body env user_input metadata stream_callback e1 in
      let '(r', e3, ev') :=
        match r with
        | Ok response => (Ok response, e2, [])
        | Raise x =>
            if is_class TimeoutError x then
              recover env timeout_apology
                      (Exn TimeoutError [PStr "Brain timeout"]) e2
            else if is_class ConnectionError x then
              recover env connection_apology x e2
            else if is_Exception x then
              recover env generic_apology x e2
            else (Raise x, e2, [])
        end in
      (* finally *)
      (r', with_processing false e3, ev0 ++ ev ++ ev')
  end.
End Process.
End Engine.
Abbreviation ConversationEngine := Engine.t.

(* ===================================================================== *)
(** * Sequences of calls *)
(* ===================================================================== *)

(** One call of [track_entity], with the uuid and the clock it would draw. *)
Record track_call := mk_track_call {
  tc_uid : string;
  tc_now : Q;
  tc_name : string;
  tc_type : pyval;
  tc_aliases : option (list string);
  tc_metadata : option pydict
}.

Definition apply_call (c : ConversationContext) (k : track_call)
    : ConversationContext :=
  snd (Context.track_entity (tc_uid k) (tc_now k) (tc_name k) (tc_type k)
                            (tc_aliases k) (tc_metadata k) c).

Definition run_calls (calls : list track_call) (c : ConversationContext)
    : ConversationContext :=
  fold_left apply_call calls c.

(** The entity that a call creates when the name is not known yet. *)
Definition new_entity (k : track_call) : Entity :=
  Entity.mk (tc_uid k) (tc_name k) (tc_type k)
            (match tc_aliases k with Some al => al | None => [] end)
            (match tc_metadata k with Some md => md | None => [] end)
            (tc_now k) 1.

(** The registry with the entities of [gone] taken out. *)
Definition without (gone : list Entity) (d : list Entity) : list Entity :=
  List.filter
    (fun e => negb (existsb (fun x => (Entity.id x =? Entity.id e)%string) gone))
    d.

(** The registry respects the dict discipline and its capacity. *)
Definition registry_ok (cap : Z) (c : ConversationContext) : Prop :=
  Context.max_entities c = cap
  /\ NoDup (Registry.ids (Context._entities c))
  /\ (Z.of_nat (length (Context._entities c)) <= cap)%Z.

(** The entity that a call updates when the name is already known. *)
Definition updated_entity (k : track_call) (existing : Entity) : Entity :=
  Entity.mk (Entity.id existing) (Entity.canonical_name existing)
    (Entity.entity_type existing)
    (match tc_aliases k with
     | Some al => Context.merge_aliases (Entity.aliases existing) al
     | None => Entity.aliases existing
     end)
    (match tc_metadata k with
     | Some md => PyDict.update (Entity.metadata existing) md
     | None => Entity.metadata existing
     end)
    (tc_now k) (Entity.reference_count existing + 1).


(** A name written without surrounding whitespace. *)
Definition unpadded (s : string) : Prop := strip s = s.

(** [name] is the canonical name of [e] in some casing, or one of its
    aliases in some casing. *)
Definition names (e : Entity) (name : string) : Prop :=
  lower name = lower (Entity.canonical_name e)
  \/ exists a, a ∈ Entity.aliases e /\ lower a = lower name.

(** Every call of the list mentions, by an unpadded name, the entity as the
    calls before it have left it. *)
Fixpoint mentions (e : Entity) (calls : list track_call) : Prop :=
  match calls with
  | [] => True
  | k :: rest =>
      unpadded (tc_name k) /\ names e (tc_name k)
      /\ mentions (updated_entity k e) rest
  end.

Definition final_entity (e : Entity) (calls : list track_call) : Entity :=
  fold_left (fun e k => updated_entity k e) calls e.

(* ===================================================================== *)
(** * Reading the traces of the gateway *)
(* ===================================================================== *)

(** The frame is a JSON object that carries the request id [rid]. *)
Definition refers_to (rid : string) (f : Gateway.frame) : Prop :=
  exists m, Gateway.fr_body f = Gateway.Json (PDict m)
            /\ PyDict.get "request_id" m = Some (PStr rid).

Definition message_of (f : Gateway.frame) : pydict :=
  match Gateway.fr_body f with
  | Gateway.Json (PDict m) => m
  | _ => []
  end.

(** The message is a streaming chunk. *)
Definition is_chunk (m : pydict) : bool :=
  eq_str (get_or "type" (PStr "response") m) "stream_chunk".

Definition chunk_of (m : pydict) : pyval := get_or "content" (PStr "") m.

(** How a terminal message settles a future. *)
Definition outcome (m : pydict) : future_state :=
  let err := get_or_none "error" m in
  if truthy err then FException (Gateway.brain_error err) else FResult m.

(** The settlements of the future of [rid] in a trace, in order. *)
Definition settlements (rid : string) (evs : list Gateway.event)
    : list future_state :=
  flat_map
    (fun ev =>
       match ev with
       | Gateway.SetResult r m => if (r =? rid)%string then [FResult m] else []
       | Gateway.SetException r e =>
           if (r =? rid)%string then [FException e] else []
       | _ => []
       end) evs.

(** The calls of sinks in a trace, in order. *)
Definition sink_calls (evs : list Gateway.event) : list (nat * pyval) :=
  flat_map
    (fun ev =>
       match ev with
       | Gateway.SinkCalled s c => [(s, c)]
       | _ => []
       end) evs.

(** The frames of a list that the gateway does not hand to a sink: all of
    them without a sink, the ones that are no chunks with a sink. *)
Definition not_routed (sink : option nat) (frames : list Gateway.frame)
    : list Gateway.frame :=
  match sink with
  | Some _ => List.filter (fun f => negb (is_chunk (message_of f))) frames
  | None => frames
  end.

Definition routed_chunks (sink : option nat) (frames : list Gateway.frame)
    : list (nat * pyval) :=
  match sink with
  | Some s =>
      map (fun f => (s, chunk_of (message_of f)))
          (List.filter (fun f => is_chunk (message_of f)) frames)
  | None => []
  end.

(** The request [rid] is in the pending table, the reader task runs, and
    the sink registered for [rid], if any, is [sink]. *)
Definition tracked (rid : string) (req : PendingRequest) (sink : option nat)
    (g : OpenClawGateway) : Prop :=
  Gateway.reader_running g = true
  /\ Gateway._pending g !! rid = Some req
  /\ Gateway._stream_callbacks g !! rid = sink.

(** Whether an event during the wait of [send] can settle the future of
    [rid]: a disconnection can, and so can an inbound message that carries
    [rid], unless it is a chunk for a request with a sink. *)
Definition may_settle (rid : string) (has_sink : bool) (w : Gateway.wait_event)
    : bool :=
  match w with
  | Gateway.Disconnect => true
  | Gateway.Inbound f =>
      match Gateway.fr_body f with
      | Gateway.Json (PDict m) =>
          match get_or_none "request_id" m with
          | PStr s => (s =? rid)%string && negb (has_sink && is_chunk m)
          | _ => false
          end
      | _ => false
      end
  end.

(** [send] gets as far as transmitting: the gateway is connected, or the
    connection it opens succeeds. *)
Definition can_transmit (env : Gateway.send_env) (g : OpenClawGateway) : Prop :=
  (Gateway._status g = CONNECTED /\ Gateway._ws g <> None)
  \/ (Gateway._status g <> CONNECTED
      /\ exists ws, Gateway.se_connect env = ConnectOk ws).

Definition disconnected_error : exn :=
  Exn ConnectionError [PStr "Gateway disconnected"].

(** ** Sample values *)

Definition sample_request : PendingRequest :=
  PendingRequest.mk "r1"
    [("request_id", PStr "r1"); ("type", PStr "conversation");
     ("user_message", PStr "hello")]
    100 60.

(** A connected gateway with one request in flight, whose caller gave the
    sink 7. *)
Definition sample_gateway : OpenClawGateway :=
  Gateway.mk GatewayConfig.default (Some 1%nat) CONNECTED 0
    {[ "r1" := sample_request ]} {[ "r1" := 7%nat ]} [] 1 0 (Some 100%Q) None
    0 0 (Some TaskRunning) (Some TaskRunning) {[ "r1" := FPending ]}.

Definition sample_frame (now : Z) (m : pydict) : Gateway.frame :=
  Gateway.mk_frame (inject_Z now) (inject_Z now) (Gateway.Json (PDict m)).

(** The timeout that a call of [send] waits for. *)
Definition effective_timeout (timeout : option Q) (g : OpenClawGateway) : Q :=
  match timeout with
  | Some t => if Qeq_bool t 0
              then GatewayConfig.response_timeout (Gateway.config g) else t
  | None => GatewayConfig.response_timeout (Gateway.config g)
  end.


(** A gateway configured to retry without limit, after its connection
    dropped with one request in flight. *)
Definition unlimited_config : GatewayConfig :=
  GatewayConfig.mk "ws://127.0.0.1:18789" 1 30 0 20 10 60 (10 * 1024 * 1024) 10.

Definition dropped_gateway : OpenClawGateway :=
  Gateway.mk unlimited_config (Some 1%nat) CONNECTED 0
    {[ "r1" := sample_request ]} ∅ [] 1 0 (Some 100%Q) None
    0 0 (Some TaskDone) (Some TaskRunning) {[ "r1" := FPending ]}.

Definition failed_attempt : Gateway.attempt_env :=
  Gateway.mk_attempt_env ConnectFails 0 WsClosed.

(** Every connection attempt of the script fails. *)
Definition all_fail (script : list Gateway.attempt_env) : Prop :=
  Forall (fun a => Gateway.ae_connect a = ConnectFails) script.

Definition sleeps (evs : list Gateway.event) : list (Z * Q) :=
  flat_map (fun ev => match ev with
                      | Gateway.Sleep n d => [(n, d)]
                      | _ => []
                      end) evs.

(* ===================================================================== *)
(** * Reading the results of the engine *)
(* ===================================================================== *)

(** The apology of [process] for a failed request, and the exception that
    it hands to the error callback. *)
Definition apology_for (x : exn) : string :=
  if is_class TimeoutError x then Engine.timeout_apology
  else if is_class ConnectionError x then Engine.connection_apology
  else Engine.generic_apology.

Definition reported_for (x : exn) : exn :=
  if is_class TimeoutError x then Exn TimeoutError [PStr "Brain timeout"]
  else x.

(** The error callback, if there is one, returns when it is called with
    [x]. *)
Definition on_error_returns (c : EngineConfig) (x : exn) : Prop :=
  match EngineConfig.on_error c with
  | Some cb => cb x = None
  | None => True
  end.

(** [n] opening brackets. *)
Fixpoint brackets (n : nat) : string :=
  match n with
  | O => EmptyString
  | S n' => String "[" (brackets n')
  end.

(** A [json.loads] for the texts of the examples: it decodes the empty
    object, gives up on a thousand opening brackets with a
    [RecursionError], as CPython does, and rejects everything else. *)
Definition json_loads_sample (s : string) : loads_outcome :=
  if (s =? "{}")%string then Decoded (PDict [])
  else if (s =? brackets 1000)%string then LoadsRaises LoadsRecursionError
  else JSONDecodeError.

(** A started engine on [sample_gateway] whose error callback divides by
    zero. *)
Definition raising_config : EngineConfig :=
  EngineConfig.mk GatewayConfig.default 20 200 30 60 None None None
    (Some (fun _ => Some (Exn (UserError "ZeroDivisionError")
                              [PStr "division by zero"]))).

Definition sample_engine (config : EngineConfig) : ConversationEngine :=
  Engine.mk config (Context.init "s" 0 20 200) sample_gateway
            (StateTracker.init 0) true false.

(** A gateway that gives up after three attempts. *)
Definition three_attempts_config : GatewayConfig :=
  GatewayConfig.mk "ws://127.0.0.1:18789" 1 30 3 20 10 60 (10 * 1024 * 1024) 10.

Definition three_attempts_gateway : OpenClawGateway :=
  Gateway.mk three_attempts_config (Some 1%nat) CONNECTED 0
    {[ "r1" := sample_request ]} ∅ [] 1 0 (Some 100%Q) None
    0 0 (Some TaskDone) (Some TaskRunning) {[ "r1" := FPending ]}.

(** An environment in which the request of [process] is sent and never
    answered. *)
Definition silent_env : Engine.process_env :=
  let unanswered uid := Gateway.mk_send_env ConnectFails uid 10 (WsSent 11) [] in
  Engine.mk_process_env (ConnectOk 2) 1 ("t1", 2%Q) 3 (unanswered "c1") 4
    (unanswered "r2") 5 ("t2", 6%Q) (fun i => ("e", 7%Q)) 8 ("t3", 9%Q) 10.

(* ===================================================================== *)
(** * More readings of the registry *)
(* ===================================================================== *)

(** The order of the tuples [(reference_count, last_referenced_at)], as
    the specification words it: a smaller count first, and among equal
    counts the older reference first. *)
Definition tuple_le (a b : Entity) : Prop :=
  (Entity.reference_count a < Entity.reference_count b)%Z
  \/ (Entity.reference_count a = Entity.reference_count b
      /\ (Entity.last_referenced_at a <= Entity.last_referenced_at b)%Q).

(** Text within ASCII. There [lower] and [strip] of this embedding are the
    methods of [str]: [lower] changes the letters A to Z and nothing else,
    and [isspace] holds of the characters 9 to 13, 28 to 31 and 32. *)
Definition is_ascii (s : string) : bool :=
  forallb (fun c => (nat_of_ascii c <? 128)%nat) (list_ascii_of_string s).

(** The names and aliases that a call brings are within ASCII. *)
Definition ascii_call (k : track_call) : Prop :=
  is_ascii (tc_name k) = true
  /\ forall al, tc_aliases k = Some al -> Forall (fun a => is_ascii a = true) al.

(** The names and aliases that the registry holds are within ASCII. *)
Definition ascii_registry (c : ConversationContext) : Prop :=
  Forall (fun e => is_ascii (Entity.canonical_name e) = true
                   /\ Forall (fun a => is_ascii a = true) (Entity.aliases e))
         (Context._entities c).

(** The call appends to no list of aliases: its name is new to the
    registry, or it brings no alias that the entity lacks. The entities of
    the code hold their aliases by reference, and two of them may hold the
    same list; a call that appends nothing leaves every such list as it is,
    so that the records of this embedding describe the registry after the
    call as well as before it. *)
Definition appends_nothing (k : track_call) (c : ConversationContext) : Prop :=
  forall existing,
    Context.find_entity (tc_name k) c = Some existing ->
    Entity.aliases (updated_entity k existing) = Entity.aliases existing.

(* ===================================================================== *)
(** * Sequences of topic and ledger operations *)
(* ===================================================================== *)

(** An operation on the topic stack. *)
Inductive topic_op :=
| PushTopic (topic : pyval)
| PopTopic.

Definition apply_topic_op (c : ConversationContext) (op : topic_op)
    : ConversationContext :=
  match op with
  | PushTopic topic => Context.push_topic topic c
  | PopTopic => snd (Context.pop_topic c)
  end.

Definition run_topic_ops (ops : list topic_op) (c : ConversationContext)
    : ConversationContext :=
  fold_left apply_topic_op ops c.

(** An operation on the state ledger. *)
Inductive ledger_op :=
| Transition (now : Q) (new_state : ConversationState)
             (trigger_turn_id : option string) (metadata : option pydict)
| Listen (callback : nat).

Definition apply_ledger_op (s : StateTracker) (op : ledger_op) : StateTracker :=
  match op with
  | Transition now new_state trigger metadata =>
      snd (fst (StateTracker.transition now new_state trigger metadata s))
  | Listen callback => StateTracker.on_transition callback s
  end.

Definition run_ledger (ops : list ledger_op) (s : StateTracker) : StateTracker :=
  fold_left apply_ledger_op ops s.

(** Each snapshot of the list ends when the next one begins. *)
Fixpoint abutting (h : list StateSnapshot) : Prop :=
  match h with
  | a :: (b :: _) as rest =>
      StateSnapshot.exited_at a = Some (StateSnapshot.entered_at b)
      /\ abutting rest
  | _ => True
  end.

(** The ledger is well formed: the history ends with the current snapshot,
    which is open; it holds at most 500 snapshots, and they abut. *)
Definition ledger_ok (s : StateTracker) : Prop :=
  (exists past, StateTracker._history s = past ++ [StateTracker._current s])
  /\ StateSnapshot.exited_at (StateTracker._current s) = None
  /\ (length (StateTracker._history s) <= 500)%nat
  /\ abutting (StateTracker._history s).

(* ===================================================================== *)
(** * More readings of the traces of the gateway *)
(* ===================================================================== *)

(** The frame is a JSON object whose request id is no key of either table
    of the gateway: no string, or a string that neither table holds. *)
Definition unknown_id (g : OpenClawGateway) (f : Gateway.frame) : Prop :=
  exists m, Gateway.fr_body f = Gateway.Json (PDict m)
            /\ match get_or_none "request_id" m with
               | PStr s => Gateway._pending g !! s = None
                           /\ Gateway._stream_callbacks g !! s = None
               | PList _ | PDict _ => False
               | _ => True
               end.

(** The number of futures settled in a trace. *)
Definition settled (evs : list Gateway.event) : nat :=
  length (List.filter (fun ev => match ev with
                                 | Gateway.SetResult _ _
                                 | Gateway.SetException _ _ => true
                                 | _ => false
                                 end) evs).

(** The messages transmitted in a trace, in order. *)
Definition ws_sends (evs : list Gateway.event) : list pydict :=
  flat_map (fun ev => match ev with
                      | Gateway.WsSend _ m => [m]
                      | _ => []
                      end) evs.

(** The condition under which [_reconnect] sends a pending request again:
    [now - req.sent_at < req.timeout and not req.future.done()]. *)
Definition still_waiting (now : Q) (g : OpenClawGateway)
    (kv : string * PendingRequest) : bool :=
  negb (Qle_bool (PendingRequest.timeout (snd kv))
                 (now - PendingRequest.sent_at (snd kv))%Q)
  && negb (Gateway.future_done (fst kv) g).

(** The classes of exception that [send] documents or passes on from the
    brain. *)
Definition send_error (e : exn) : Prop :=
  exn_of e = ConnectionError \/ exn_of e = TimeoutError
  \/ exn_of e = RuntimeError.

(** What the awaited future of a request may hold while [send] waits. *)
Definition awaited (o : option future_state) : Prop :=
  match o with
  | Some FPending | Some (FResult _) => True
  | Some (FException e) =>
      exn_of e = ConnectionError \/ exn_of e = RuntimeError
  | Some FCancelled | None => False
  end.

(** The result that a future holds, if any, is the message of a frame of
    the list. *)
Definition result_among (ws : list Gateway.wait_event)
    (o : option future_state) : Prop :=
  forall m, o = Some (FResult m) ->
            exists f, Gateway.Inbound f ∈ ws /\ m = message_of f.

(** The message that [send] builds around a payload. *)
Definition framed (request_id : string) (payload : pydict) : pydict :=
  PyDict.update
    [("request_id", PStr request_id); ("type", PStr "conversation")] payload.

(* ===================================================================== *)
(** * More readings of the results of the engine *)
(* ===================================================================== *)

(** The response and action callbacks raise nothing but what
    [except Exception] catches. *)
Definition callbacks_contained (c : EngineConfig) : Prop :=
  (forall cb r x, EngineConfig.on_response c = Some cb -> cb r = Some x ->
                  is_Exception x = true)
  /\ (forall cb a x, EngineConfig.on_action c = Some cb -> cb a = Some x ->
                     is_Exception x = true).

(** [process] gets past its automatic [start]: the engine is started, or
    its gateway is connected, or the connection is granted. *)
Definition can_start (env : Engine.process_env) (e : ConversationEngine)
    : Prop :=
  Engine._started e = true
  \/ Gateway._status (Engine.gateway e) = CONNECTED
  \/ exists ws, Engine.pe_start env = ConnectOk ws.

(** The turn that [process] records for the utterance. *)
Definition user_turn_of (env : Engine.process_env) (user_input : string)
    (metadata : option pydict) : Turn :=
  Turn.mk (fst (Engine.pe_user_turn env)) USER (PStr user_input)
          (snd (Engine.pe_user_turn env)) [] PNone
          (match metadata with Some m => m | None => [] end).

(** The decoded body of a response: the value under [content], decoded
    when it is a string of JSON, or the response itself when it has no
    [content]. *)
Definition carries (json_loads : string -> loads_outcome) (data : pydict)
    (c : pydict) : Prop :=
  PyDict.get "content" data = Some (PDict c)
  \/ (exists s, PyDict.get "content" data = Some (PStr s)
                /\ json_loads s = Decoded (PDict c))
  \/ (PyDict.get "content" data = None /\ c = data).

(** The turn that [process] records for a reply. *)
Definition brain_turn_of (env : Engine.process_env) (r : BrainResponse)
    (names : list pyval) : Turn :=
  Turn.mk (fst (Engine.pe_brain_turn env)) BRAIN (BrainResponse.text r)
          (snd (Engine.pe_brain_turn env)) names (BrainResponse.intent r)
          [("confidence", BrainResponse.confidence r);
           ("latency_ms", PFloat (BrainResponse.latency_ms r));
           ("actions", BrainResponse.suggested_actions r)].

(** The calls of the callbacks of the engine in a trace, in order. *)
Definition callbacks_fired (evs : list Engine.event) : list Engine.event :=
  List.filter (fun ev => match ev with
                         | Engine.OnResponse _ | Engine.OnAction _
                         | Engine.OnError _ => true
                         | _ => false
                         end) evs.

(** The aliases of a detected entity have the type that [track_entity]
    declares: a list of strings, or a falsy value, which counts as none. *)
Definition typed_aliases (v : pyval) : Prop :=
  truthy v = false \/ exists al, v = PList (map PStr al).

(** The entities of a response that are objects have typed aliases. *)
Definition typed_entities (r : BrainResponse) : Prop :=
  forall l d,
    py_iter (BrainResponse.entities r) = Ok l -> PDict d ∈ l ->
    typed_aliases (get_or "aliases" (PList []) d).

(** Whichever message of the wait of the request is parsed as the reply,
    its entities have typed aliases. *)
Definition typed_replies (json_loads : string -> loads_outcome)
    (env : Engine.process_env) : Prop :=
  forall f latency_ms r,
    Gateway.Inbound f ∈ Gateway.se_wait (Engine.pe_send env) ->
    BrainResponse.from_gateway_response json_loads (message_of f) latency_ms
    = Ok r ->
    typed_entities r.

(** ** More sample values *)

(** An environment in which the request of [process] is answered by a
    message with [body] as its content. *)
Definition answering_env (body : pydict) : Engine.process_env :=
  let reply := [("request_id", PStr "r2"); ("content", PDict body)] in
  let unanswered uid := Gateway.mk_send_env ConnectFails uid 10 (WsSent 11) [] in
  Engine.mk_process_env (ConnectOk 2) 1 ("t1", 2%Q) 3 (unanswered "c1") 4
    (Gateway.mk_send_env ConnectFails "r2" 10 (WsSent 11)
       [Gateway.Inbound (sample_frame 12 reply)])
    13 ("t2", 14%Q) (fun i => ("e", 15%Q)) 16 ("t3", 17%Q) 18.

(** A configuration whose response callback raises a [ValueError] and
    whose action and error callbacks return. *)
Definition noisy_config : EngineConfig :=
  EngineConfig.mk GatewayConfig.default 20 200 30 60 None
    (Some (fun _ => Some (Exn (UserError "ValueError") [PStr "bad response"])))
    (Some (fun _ => None)) (Some (fun _ => None)).

(** A reply that logs a call. *)
Definition sample_body : pydict :=
  [("response_text", PStr "Logged.");
   ("inferred_intent", PStr "log_call");
   ("inferred_state", PStr "debriefing");
   ("suggested_actions", PList [PStr "crm.update"; PStr "notify"])].

(** A reply that names an entity. *)
Definition entity_body : pydict :=
  [("response_text", PStr "Noted.");
   ("entities_detected",
    PList [PDict [("name", PStr "Marcus"); ("type", PStr "person");
                  ("aliases", PList [PStr "Marc"]); ("role", PStr "buyer")]])].

(** An environment in which the gateway cannot be reached. *)
Definition offline_env : Engine.process_env :=
  let unanswered uid := Gateway.mk_send_env ConnectFails uid 10 (WsSent 11) [] in
  Engine.mk_process_env ConnectFails 1 ("t1", 2%Q) 3 (unanswered "c1") 4
    (unanswered "r2") 5 ("t2", 6%Q) (fun i => ("e", 7%Q)) 8 ("t3", 9%Q) 10.

(** The response that [sample_body] parses to when it answers the request
    of [answering_env]. *)
Definition sample_response : BrainResponse :=
  BrainResponse.mk (PStr "Logged.") (PStr "log_call") (Some DEBRIEFING)
    (PList []) (PList [PStr "crm.update"; PStr "notify"]) PNone (PFloat 1)
    (PBool false) PNone
    [("request_id", PStr "r2"); ("content", PDict sample_body)]
    ((13 - 1) * 1000).
(* ===================================================================== *)
(** * Properties of the memory store *)
(* ===================================================================== *)

(** ** Slices *)

Lemma slice_from_neg_length {A} (w : Z) (l : list A) :
  (0 < w)%Z ->
  length (slice_from (- w) l) = Z.to_nat (Z.min w (Z.of_nat (length l))).
Proof.
  intros Hw. unfold slice_from.
  destruct (Z.ltb_spec (- w) 0) as [_|H]; [|lia].
  rewrite length_drop. lia.
Qed.

Lemma slice_from_neg_suffix {A} (w : Z) (l : list A) :
  (0 < w)%Z ->
  slice_from (- w) l = drop (length l - Z.to_nat w) l.
Proof.
  intros Hw. unfold slice_from.
  destruct (Z.ltb_spec (- w) 0) as [_|H]; [|lia].
  f_equal. lia.
Qed.

Lemma slice_from_zero {A} (l : list A) : slice_from (- 0) l = l.
Proof.
  unfold slice_from. change (- 0)%Z with 0%Z.
  destruct (Z.ltb_spec 0 0) as [H|_]; [lia|].
  replace (Z.to_nat (Z.min 0 (Z.of_nat (length l)))) with 0%nat by lia.
  reflexivity.
Qed.

Lemma slice_to_take {A} (k : Z) (l : list A) :
  (0 <= k)%Z -> slice_to k l = take (Z.to_nat k) l.
Proof.
  intros Hk. unfold slice_to.
  destruct (Z.ltb_spec k 0) as [H|_]; [lia|].
  destruct (Z.le_ge_cases k (Z.of_nat (length l))) as [H|H].
  - now rewrite Z.min_l.
  - rewrite Z.min_r by lia. rewrite !take_ge; [reflexivity|lia..].
Qed.

(** ** The stable sort *)

Section SortedFacts.
Context {A : Type} (le : A -> A -> bool).
Hypothesis le_total : forall a b, le a b = true \/ le b a = true.
Hypothesis le_trans :
  forall a b c, le a b = true -> le b c = true -> le a c = true.

Lemma insert_sorted_perm x l : insert_sorted le x l ≡ₚ x :: l.
Proof.
  induction l as [|y l IH]; cbn; [reflexivity|].
  destruct (le x y); [reflexivity|].
  rewrite IH. apply Permutation_swap.
Qed.

Lemma sorted_perm l : sorted le l ≡ₚ l.
Proof.
  induction l as [|x l IH]; cbn; [reflexivity|].
  rewrite insert_sorted_perm. now rewrite IH.
Qed.

Lemma insert_sorted_strongly x l :
  StronglySorted (fun a b => le a b = true) l ->
  StronglySorted (fun a b => le a b = true) (insert_sorted le x l).
Proof.
  induction 1 as [|y l Hs IH Hy]; cbn.
  - repeat constructor.
  - destruct (le x y) eqn:E.
    + constructor; [now constructor|].
      constructor; [exact E|].
      eapply Forall_impl; [exact Hy|]. intros z Hz. cbn in Hz. eauto.
    + constructor; [exact IH|].
      rewrite (insert_sorted_perm x l).
      constructor; [|exact Hy].
      destruct (le_total x y) as [H|H]; [congruence|exact H].
Qed.

Lemma sorted_strongly l :
  StronglySorted (fun a b => le a b = true) (sorted le l).
Proof.
  induction l as [|x l IH]; cbn; [constructor|].
  now apply insert_sorted_strongly.
Qed.

(** A prefix of the sorted list lies below the rest of it. *)
Lemma sorted_take_below n l x y :
  x ∈ take n (sorted le l) -> y ∈ drop n (sorted le l) -> le x y = true.
Proof.
  intros Hx Hy.
  pose proof (sorted_strongly l) as Hs.
  rewrite <- (take_drop n (sorted le l)) in Hs.
  eapply StronglySorted_app_1_elem_of in Hs; eauto.
Qed.

Lemma sorted_take_strongly n l :
  StronglySorted (fun a b => le a b = true) (take n (sorted le l)).
Proof.
  pose proof (sorted_strongly l) as Hs.
  rewrite <- (take_drop n (sorted le l)) in Hs.
  now apply StronglySorted_app_1_l in Hs.
Qed.
End SortedFacts.

(** ** The eviction order *)

Lemma evict_key_le_total a b :
  Context.evict_key_le a b = true \/ Context.evict_key_le b a = true.
Proof.
  unfold Context.evict_key_le.
  destruct (Z.lt_trichotomy (Entity.reference_count a) (Entity.reference_count b))
    as [H|[H|H]].
  - left. apply orb_true_iff. left. now apply Z.ltb_lt.
  - rewrite H, Z.eqb_refl, Z.ltb_irrefl. cbn.
    destruct (Qlt_le_dec (Entity.last_referenced_at a) (Entity.last_referenced_at b))
      as [Hq|Hq].
    + left. apply Qle_bool_iff. now apply Qlt_le_weak.
    + right. now apply Qle_bool_iff.
  - right. apply orb_true_iff. left. now apply Z.ltb_lt.
Qed.

Lemma evict_key_le_trans a b c :
  Context.evict_key_le a b = true -> Context.evict_key_le b c = true ->
  Context.evict_key_le a c = true.
Proof.
  unfold Context.evict_key_le.
  rewrite !orb_true_iff, !andb_true_iff, !Z.ltb_lt, !Z.eqb_eq, !Qle_bool_iff.
  intros [H1|[H1 Q1]] [H2|[H2 Q2]]; try (left; lia).
  right. split; [lia|]. eapply Qle_trans; eauto.
Qed.

(** ** The registry as a dict *)

Lemma registry_set_ids e d :
  Registry.ids (Registry.set e d)
  = if bool_decide (Entity.id e ∈ Registry.ids d) then Registry.ids d
    else Registry.ids d ++ [Entity.id e].
Proof.
  unfold Registry.ids. induction d as [|x d IH]; cbn.
  - rewrite bool_decide_eq_false_2; [reflexivity|]. apply not_elem_of_nil.
  - destruct (String.eqb_spec (Entity.id x) (Entity.id e)) as [E|E]; cbn.
    + rewrite bool_decide_eq_true_2 by (rewrite E; left). now rewrite E.
    + rewrite IH.
      destruct (bool_decide (Entity.id e ∈ map Entity.id d)) eqn:B.
      * apply bool_decide_eq_true in B.
        rewrite bool_decide_eq_true_2 by now right. reflexivity.
      * apply bool_decide_eq_false in B.
        rewrite bool_decide_eq_false_2; [reflexivity|].
        rewrite elem_of_cons. intros [H|H]; [congruence|contradiction].
Qed.

Lemma registry_set_nodup e d :
  NoDup (Registry.ids d) -> NoDup (Registry.ids (Registry.set e d)).
Proof.
  intros H. rewrite registry_set_ids. case_bool_decide as B; [exact H|].
  apply NoDup_app. split; [exact H|]. split.
  - intros x Hx Hx'. apply list_elem_of_singleton in Hx'. congruence.
  - apply NoDup_singleton.
Qed.

Lemma registry_set_length e d :
  length (Registry.set e d)
  = if bool_decide (Entity.id e ∈ Registry.ids d) then length d
    else S (length d).
Proof.
  rewrite <- (length_map Entity.id (Registry.set e d)).
  fold (Registry.ids (Registry.set e d)). rewrite registry_set_ids.
  case_bool_decide; unfold Registry.ids.
  - apply length_map.
  - rewrite length_app, length_map. cbn. lia.
Qed.

Lemma filter_permutation {A} (p : A -> bool) (l l' : list A) :
  l ≡ₚ l' -> List.filter p l ≡ₚ List.filter p l'.
Proof.
  induction 1 as [|x l l' _ IH|x y l|l l' l'' _ IH1 _ IH2]; cbn.
  - reflexivity.
  - destruct (p x); [now constructor|exact IH].
  - destruct (p x), (p y); try reflexivity. apply Permutation_swap.
  - now rewrite IH1.
Qed.

Lemma fold_del_without (gone d : list Entity) :
  fold_left (fun d e => Registry.del (Entity.id e) d) gone d = without gone d.
Proof.
  revert d. induction gone as [|g gone IH]; intros d; cbn.
  - unfold without. cbn. induction d as [|x d IHd]; cbn; congruence.
  - rewrite IH. unfold without, Registry.del.
    induction d as [|x d IHd]; cbn; [reflexivity|].
    destruct (String.eqb_spec (Entity.id x) (Entity.id g)) as [E|E]; cbn.
    + rewrite E, String.eqb_refl. cbn. exact IHd.
    + rewrite IHd.
      destruct (String.eqb_spec (Entity.id g) (Entity.id x)) as [E'|_];
        [congruence|]. reflexivity.
Qed.

Lemma existsb_id_elem (gone : list Entity) (e : Entity) :
  existsb (fun x => (Entity.id x =? Entity.id e)%string) gone = true
  <-> Entity.id e ∈ Registry.ids gone.
Proof.
  rewrite existsb_exists. unfold Registry.ids. rewrite list_elem_of_fmap.
  split.
  - intros (x & Hx & E). apply String.eqb_eq in E. exists x. split; [easy|].
    now apply list_elem_of_In.
  - intros (x & E & Hx). exists x. split; [now apply list_elem_of_In|].
    apply String.eqb_eq. easy.
Qed.

Lemma filter_none {A} (p : A -> bool) (l : list A) :
  (forall x, x ∈ l -> p x = false) -> List.filter p l = [].
Proof.
  induction l as [|x l IH]; intros H; cbn; [reflexivity|].
  rewrite (H x) by left. apply IH. intros y Hy. apply H. now right.
Qed.

(** Taking out a part of a registry with distinct ids leaves the rest. *)
Lemma without_app (gone rest : list Entity) :
  NoDup (Registry.ids (gone ++ rest)) -> without gone (gone ++ rest) = rest.
Proof.
  intros Hnd. unfold Registry.ids in Hnd. rewrite map_app in Hnd.
  apply NoDup_app in Hnd as (_ & Hdisj & _).
  unfold without. rewrite List.filter_app.
  replace (List.filter _ gone) with (@nil Entity); cbn.
  - induction rest as [|x rest IH]; cbn; [reflexivity|].
    destruct (existsb _ gone) eqn:E; cbn.
    + apply existsb_id_elem in E. exfalso. apply (Hdisj _ E). left.
    + f_equal. apply IH. intros y Hy Hy'. apply (Hdisj y Hy). now right.
  - symmetry. clear Hdisj.
    assert (H : forall e, e ∈ gone ->
      negb (existsb (fun x => (Entity.id x =? Entity.id e)%string) gone) = false).
    { intros e He. apply negb_false_iff, existsb_id_elem.
      unfold Registry.ids. apply list_elem_of_fmap. eauto. }
    apply filter_none. exact H.
Qed.

Lemma evicted_take (c : ConversationContext) :
  (Context.max_entities c <= Z.of_nat (length (Context._entities c)))%Z ->
  Context.evicted c
  = take (length (Context._entities c) - Z.to_nat (Context.max_entities c))
         (sorted Context.evict_key_le (Context._entities c)).
Proof.
  intros H. unfold Context.evicted. rewrite slice_to_take by lia.
  destruct (Z.le_gt_cases 0 (Context.max_entities c)) as [H0|H0].
  - f_equal. lia.
  - rewrite !take_ge; [reflexivity| |];
      rewrite (Permutation_length (sorted_perm _ _)); lia.
Qed.

(** What [_evict_stale_entities] does to a registry with distinct ids that
    is over capacity. *)
Lemma evict_spec (c : ConversationContext) :
  NoDup (Registry.ids (Context._entities c)) ->
  (Context.max_entities c < Z.of_nat (length (Context._entities c)))%Z ->
  let gone := Context.evicted c in
  let kept := Context._entities (Context._evict_stale_entities c) in
  kept = without gone (Context._entities c)
  /\ gone ++ kept ≡ₚ Context._entities c
  /\ StronglySorted (fun a b => Context.evict_key_le a b = true) gone
  /\ (forall x y, x ∈ gone -> y ∈ kept -> Context.evict_key_le x y = true).
Proof.
  intros Hnd Hlen gone kept.
  assert (Hk : kept = without gone (Context._entities c)).
  { subst kept gone. unfold Context._evict_stale_entities. cbn.
    apply fold_del_without. }
  set (n := (length (Context._entities c)
             - Z.to_nat (Context.max_entities c))%nat).
  set (s := sorted Context.evict_key_le (Context._entities c)).
  assert (Hg : gone = take n s) by (apply evicted_take; lia).
  assert (Hp : Context._entities c ≡ₚ take n s ++ drop n s).
  { rewrite take_drop. symmetry. apply sorted_perm. }
  assert (Hr : kept ≡ₚ drop n s).
  { rewrite Hk, Hg. unfold without. rewrite (filter_permutation _ _ _ Hp).
    fold (without (take n s) (take n s ++ drop n s)).
    rewrite without_app; [reflexivity|].
    unfold Registry.ids. rewrite <- Hp. exact Hnd. }
  split; [exact Hk|]. split; [now rewrite Hr, Hg, Hp|]. split.
  - rewrite Hg. apply sorted_take_strongly;
      [apply evict_key_le_total|apply evict_key_le_trans].
  - intros x y Hx Hy. rewrite Hg in Hx. rewrite Hr in Hy.
    eapply sorted_take_below; eauto;
      [apply evict_key_le_total|apply evict_key_le_trans].
Qed.

(** ** [track_entity] and the capacity *)

Lemma find_entity_elem name c e :
  Context.find_entity name c = Some e -> e ∈ Context._entities c.
Proof.
  unfold Context.find_entity. intros H. apply List.find_some in H as [H _].
  now apply list_elem_of_In.
Qed.

Lemma filter_ids_nodup (p : Entity -> bool) (d : list Entity) :
  NoDup (Registry.ids d) -> NoDup (Registry.ids (List.filter p d)).
Proof.
  unfold Registry.ids. induction d as [|x d IH]; cbn; [easy|].
  rewrite NoDup_cons. intros [Hx Hd]. destruct (p x); cbn; [|now apply IH].
  apply NoDup_cons. split; [|now apply IH].
  intros H. apply Hx. apply list_elem_of_fmap in H as (y & E & Hy).
  apply list_elem_of_fmap. exists y. split; [exact E|].
  apply list_elem_of_In, List.filter_In in Hy as [Hy _].
  now apply list_elem_of_In.
Qed.

Lemma evicted_length (c : ConversationContext) :
  (0 <= Context.max_entities c)%Z ->
  (Context.max_entities c <= Z.of_nat (length (Context._entities c)))%Z ->
  Z.of_nat (length (Context.evicted c))
  = (Z.of_nat (length (Context._entities c)) - Context.max_entities c)%Z.
Proof.
  intros H0 H. rewrite evicted_take by exact H.
  rewrite length_take, (Permutation_length (sorted_perm _ _)). lia.
Qed.

Lemma apply_call_found c k existing :
  Context.find_entity (tc_name k) c = Some existing ->
  apply_call c k
  = Context.with_entities
      (Registry.set (updated_entity k existing) (Context._entities c)) c.
Proof.
  intros H. unfold apply_call, Context.track_entity. rewrite H.
  unfold updated_entity. destruct (tc_aliases k), (tc_metadata k); reflexivity.
Qed.

Lemma apply_call_new c k :
  Context.find_entity (tc_name k) c = None ->
  apply_call c k
  = let inserted :=
      Context.with_entities (Registry.set (new_entity k) (Context._entities c)) c
    in
    if (Context.max_entities c
        <? Z.of_nat (length (Context._entities inserted)))%Z
    then Context._evict_stale_entities inserted else inserted.
Proof.
  intros H. unfold apply_call, Context.track_entity. rewrite H. cbn.
  fold (new_entity k). now destruct (_ <? _)%Z.
Qed.

Lemma apply_call_ok cap c k :
  (0 <= cap)%Z -> registry_ok cap c -> registry_ok cap (apply_call c k).
Proof.
  intros Hcap (Hm & Hnd & Hlen).
  destruct (Context.find_entity (tc_name k) c) as [existing|] eqn:F.
  - rewrite (apply_call_found _ _ _ F). unfold registry_ok. cbn.
    assert (Hin : Entity.id (updated_entity k existing)
                  ∈ Registry.ids (Context._entities c)).
    { cbn. apply list_elem_of_fmap. exists existing. split; [easy|].
      eapply find_entity_elem; eauto. }
    split; [exact Hm|]. split; [now apply registry_set_nodup|].
    rewrite registry_set_length, bool_decide_eq_true_2 by exact Hin. exact Hlen.
  - rewrite (apply_call_new _ _ F). cbn zeta.
    set (inserted := Context.with_entities _ c).
    assert (Hnd' : NoDup (Registry.ids (Context._entities inserted)))
      by (cbn; now apply registry_set_nodup).
    destruct (Z.ltb_spec (Context.max_entities c)
                         (Z.of_nat (length (Context._entities inserted))))
      as [Hover|Hfits].
    + assert (Hm' : Context.max_entities inserted = cap) by exact Hm.
      destruct (evict_spec inserted Hnd') as (Hk & Hp & _ & _);
        [rewrite Hm'; lia|].
      split; [exact Hm|]. split.
      * rewrite Hk. now apply filter_ids_nodup.
      * pose proof (evicted_length inserted) as Hl.
        apply Permutation_length in Hp. rewrite length_app in Hp.
        rewrite Hm' in Hl. lia.
    + split; [exact Hm|]. split; [exact Hnd'|]. lia.
Qed.

Lemma run_calls_ok cap calls c :
  (0 <= cap)%Z -> registry_ok cap c -> registry_ok cap (run_calls calls c).
Proof.
  intros Hcap. revert c. induction calls as [|k calls IH]; intros c H; cbn.
  - exact H.
  - apply IH. now apply apply_call_ok.
Qed.

Lemma init_ok sid t0 window cap :
  (0 <= cap)%Z -> registry_ok cap (Context.init sid t0 window cap).
Proof.
  intros H. split; [reflexivity|]. split; [constructor|]. cbn. lia.
Qed.

Lemma strongly_sorted_weaken {A} (R S : A -> A -> Prop) (l : list A) :
  (forall a b, R a b -> S a b) -> StronglySorted R l -> StronglySorted S l.
Proof.
  intros HRS. induction 1 as [|a l Hs IH Hall]; constructor; [exact IH|].
  eapply List.Forall_impl; [|exact Hall]. intros b. apply HRS.
Qed.

(** The sort key of the eviction compares entities as the tuples
    [(reference_count, last_referenced_at)] compare. *)
Lemma evict_key_le_tuple a b :
  Context.evict_key_le a b = true <-> tuple_le a b.
Proof.
  unfold Context.evict_key_le, tuple_le.
  now rewrite orb_true_iff, andb_true_iff, Z.ltb_lt, Z.eqb_eq, Qle_bool_iff.
Qed.

(** A new entity that fits is added and nothing is evicted. *)
Lemma apply_call_fits c k :
  Context.find_entity (tc_name k) c = None ->
  let present := Registry.set (new_entity k) (Context._entities c) in
  (Z.of_nat (length present) <= Context.max_entities c)%Z ->
  Context._entities (apply_call c k) = present.
Proof.
  intros F present Hfit. rewrite (apply_call_new _ _ F). cbn zeta.
  fold present.
  destruct (Z.ltb_spec (Context.max_entities c)
              (Z.of_nat (length (Context._entities
                                   (Context.with_entities present c)))))
    as [H|_]; [cbn in H; lia|reflexivity].
Qed.

(** C3, for a capacity that is not negative. Whatever calls of
    [track_entity] a session has seen, the registry holds at most
    [capacity] entities. A further call that mentions a known entity, or
    that creates one that fits, evicts nothing. A further call that
    creates an entity that takes the registry over capacity evicts as many
    entities as the excess, and these are the ones with the lowest tuples
    (reference count, last-referenced timestamp) of the registry, the new
    entity included: they are deleted in ascending order of their tuples,
    the registry keeps exactly the others, and no evicted entity has a
    tuple above that of an entity that is kept. *)
Theorem registry_capacity_and_eviction :
  forall (sid : string) (t0 : Q) (window capacity : Z)
         (calls : list track_call),
    (0 <= capacity)%Z ->
    let c := run_calls calls (Context.init sid t0 window capacity) in
    (Z.of_nat (length (Context._entities c)) <= capacity)%Z
    /\ (forall k : track_call,
          Z.of_nat (length (Context._entities (apply_call c k))) <= capacity)%Z
    /\ (forall (k : track_call) (existing : Entity),
          Context.find_entity (tc_name k) c = Some existing ->
          map Entity.id (Context._entities (apply_call c k))
          = map Entity.id (Context._entities c))
    /\ forall k : track_call,
         Context.find_entity (tc_name k) c = None ->
         let present := Registry.set (new_entity k) (Context._entities c) in
         ((Z.of_nat (length present) <= capacity)%Z ->
          Context._entities (apply_call c k) = present)
         /\ ((capacity < Z.of_nat (length present))%Z ->
             let gone := Context.evicted (Context.with_entities present c) in
             let kept := Context._entities (apply_call c k) in
             Z.of_nat (length gone) = (Z.of_nat (length present) - capacity)%Z
             /\ StronglySorted tuple_le gone
             /\ gone ++ kept ≡ₚ present
             /\ kept = without gone present
             /\ (forall x y, x ∈ gone -> y ∈ kept -> tuple_le x y)).
Proof.
  intros sid t0 window capacity calls Hcap c.
  pose proof (run_calls_ok capacity calls _ Hcap
                (init_ok sid t0 window capacity Hcap)) as Hok.
  fold c in Hok. pose proof Hok as (Hm & Hnd & Hlen).
  split; [exact Hlen|]. split; [|split].
  - intros k. apply (apply_call_ok capacity c k Hcap Hok).
  - intros k existing F. rewrite (apply_call_found _ _ _ F). cbn.
    fold (Registry.ids (Registry.set (updated_entity k existing)
                                     (Context._entities c))).
    rewrite registry_set_ids, bool_decide_eq_true_2; [reflexivity|].
    cbn. apply list_elem_of_fmap. exists existing. split; [reflexivity|].
    eapply find_entity_elem, F.
  - intros k F present. split.
    { intros Hfit. apply apply_call_fits; [exact F|]. now rewrite Hm. }
    intros Hover gone kept.
    set (inserted := Context.with_entities present c).
    assert (E : apply_call c k = Context._evict_stale_entities inserted).
    { rewrite (apply_call_new _ _ F). cbn zeta. fold present. fold inserted.
      rewrite Hm. destruct (Z.ltb_spec capacity
        (Z.of_nat (length (Context._entities inserted)))) as [_|H]; [easy|].
      cbn in H. lia. }
    assert (Hnd' : NoDup (Registry.ids (Context._entities inserted)))
      by (cbn; now apply registry_set_nodup).
    assert (Hm' : Context.max_entities inserted = capacity) by exact Hm.
    destruct (evict_spec inserted Hnd') as (Hk & Hp & Hs & Hb);
      [rewrite Hm'; exact Hover|].
    subst kept. rewrite E. split.
    + pose proof (evicted_length inserted) as Hl. rewrite Hm' in Hl.
      apply Hl; [exact Hcap|]. cbn. lia.
    + split; [|split; [exact Hp|split; [exact Hk|]]].
      * eapply strongly_sorted_weaken; [|exact Hs].
        intros a b. apply evict_key_le_tuple.
      * intros x y Hx Hy. apply evict_key_le_tuple. now apply Hb.
Qed.

(** Capacity 3. A, B and C are mentioned in this order and A is mentioned
    once more; then D is inserted. The tuples are A (2, 4), B (1, 2),
    C (1, 3) and D (1, 5): B is evicted, although A is the oldest entry of
    the registry, and A, C and D are kept. *)
Lemma registry_capacity_and_eviction_witness :
  let mention i name := mk_track_call name (inject_Z i) name (PStr "company")
                                      None None in
  let calls := [mention 1 "A"; mention 2 "B"; mention 3 "C"; mention 4 "A"]%Z in
  let c := run_calls calls (Context.init "s" 0 20 3) in
  let k := mention 5%Z "D" in
  let present := Registry.set (new_entity k) (Context._entities c) in
  let gone := Context.evicted (Context.with_entities present c) in
  let kept := Context._entities (apply_call c k) in
  (0 <= 3)%Z
  /\ Context.find_entity "D" c = None
  /\ (3 < Z.of_nat (length present))%Z
  /\ map Entity.canonical_name present = ["A"; "B"; "C"; "D"]
  /\ map Entity.canonical_name gone = ["B"]
  /\ map Entity.canonical_name kept = ["A"; "C"; "D"]
  /\ (Z.of_nat (length (Context._entities c)) <= 3)%Z
  /\ Z.of_nat (length gone) = (Z.of_nat (length present) - 3)%Z
  /\ gone ++ kept ≡ₚ present
  /\ (forall x y, x ∈ gone -> y ∈ kept -> tuple_le x y).
Proof.
  intros mention calls c k present gone kept.
  assert (H0 : (0 <= 3)%Z) by lia.
  assert (HF : Context.find_entity (tc_name k) c = None) by reflexivity.
  assert (HL : (3 < Z.of_nat (length present))%Z) by (vm_compute; reflexivity).
  destruct (registry_capacity_and_eviction "s" 0 20 3 calls H0)
    as (Hsize & _ & _ & Hev).
  destruct (Hev k HF) as [_ Hover].
  destruct (Hover HL) as (Hn & _ & Hp & _ & Hb).
  split; [exact H0|]. split; [exact HF|]. split; [exact HL|].
  split; [reflexivity|]. split; [reflexivity|]. split; [reflexivity|].
  split; [exact Hsize|]. split; [exact Hn|]. split; [exact Hp|exact Hb].
Defined.

(** The scenario of the specification: capacity 3, A, B and C are inserted,
    C is mentioned ten more times, D is inserted. A and B have the lowest
    count; A is the older of the two and is evicted. *)
Lemma eviction_scenario_example :
  let mention i name := mk_track_call name (inject_Z i) name (PStr "company")
                                      None None in
  let calls := [mention 1 "A"; mention 2 "B"; mention 3 "C"]%Z
               ++ map (fun i => mention i "C") [4; 5; 6; 7; 8; 9; 10; 11; 12; 13]%Z
               ++ [mention 14%Z "D"] in
  let c := run_calls calls (Context.init "s" 0 20 3) in
  map (fun e => (Entity.canonical_name e, Entity.reference_count e))
      (Context._entities c)
  = [("B", 1%Z); ("C", 11%Z); ("D", 1%Z)].
Proof. vm_compute. reflexivity. Qed.

(** C3 as it is stated fails for a negative capacity. With
    [max_entities = -1] the first entity takes the registry over capacity;
    the eviction computes an excess of 2, deletes the one entity there is,
    and leaves an empty registry, whose size 0 is still above the
    capacity. *)
Lemma negative_capacity_is_exceeded :
  let k := mk_track_call "u1" 1 "Acme" (PStr "company") None None in
  let c0 := Context.init "s" 0 20 (-1) in
  let c := run_calls [k] c0 in
  let present := Registry.set (new_entity k) (Context._entities c0) in
  let gone := Context.evicted (Context.with_entities present c0) in
  Context.max_entities c = (-1)%Z
  /\ Context._entities c = []
  /\ ~ (Z.of_nat (length (Context._entities c)) <= Context.max_entities c)%Z
  /\ gone = [new_entity k]
  /\ Z.of_nat (length gone)
     <> (Z.of_nat (length present) - Context.max_entities c)%Z.
Proof.
  vm_compute. split; [reflexivity|]. split; [reflexivity|].
  split; [intros H; apply H; reflexivity|]. split; [reflexivity|].
  discriminate.
Qed.

(** ** The window of turns *)

(** With a positive window the payload carries the last [window_size]
    turns, oldest first, and the history is the same list as before. *)
Lemma window_positive (now : Q) (c : ConversationContext) :
  (0 < Context.window_size c)%Z ->
  let b := Context.get_brain_context now c in
  Z.of_nat (length (Context.bc_turns b))
  = Z.min (Context.window_size c) (Context.turn_count c)
  /\ Context.bc_turns b
     = map Context.view_turn
           (drop (length (Context._turns c)
                  - Z.to_nat (Context.window_size c))
                 (Context._turns c))
  /\ Context.bc_turn_count b = Context.turn_count c.
Proof.
  intros Hw b. subst b. unfold Context.get_brain_context, Context.turn_count.
  cbn. rewrite length_map, slice_from_neg_length by exact Hw.
  rewrite slice_from_neg_suffix by exact Hw. repeat split. lia.
Qed.

(** Twenty turns and a window of five, as in the test of the rolling
    window. *)
Lemma window_positive_example :
  let c := fold_left
             (fun c i => snd (Context.add_user_turn "t" (inject_Z (Z.of_nat i))
                                                    "Message" None c))
             (seq 0 20) (Context.init "s" 0 5 200) in
  let b := Context.get_brain_context 30 c in
  length (Context.bc_turns b) = 5%nat
  /\ map Context.tv_timestamp (Context.bc_turns b)
     = [15%Q; 16%Q; 17%Q; 18%Q; 19%Q]
  /\ Context.bc_turn_count b = 20%Z.
Proof.
  intros c b.
  destruct (window_positive 30 c) as (Hl & Ht & Hn); [reflexivity|].
  fold b in Hl, Ht, Hn. split; [|split].
  - apply Nat2Z.inj. rewrite Hl. reflexivity.
  - rewrite Ht. reflexivity.
  - rewrite Hn. reflexivity.
Qed.

(** With a window of 0 the slice [_turns[-0:]] is the whole history. *)
Lemma window_zero (now : Q) (c : ConversationContext) :
  Context.window_size c = 0%Z ->
  Context.bc_turns (Context.get_brain_context now c)
  = map Context.view_turn (Context._turns c).
Proof.
  intros Hw. unfold Context.get_brain_context. cbn. rewrite Hw.
  now rewrite slice_from_zero.
Qed.

(** C5 fails for a window of 0. A context with [window_size = 0] that has
    recorded two turns builds a payload with both turns, where the claim
    asks for [min(0, 2) = 0] turns. *)
Theorem window_zero_sends_whole_history :
  let c0 := Context.init "s" 0 0 200 in
  let c1 := snd (Context.add_user_turn "t1" 1 "first" None c0) in
  let c2 := snd (Context.add_brain_turn "t2" 2 (PStr "second") PNone None None c1)
  in
  Context.window_size c2 = 0%Z
  /\ Context.turn_count c2 = 2%Z
  /\ map Context.tv_content
         (Context.bc_turns (Context.get_brain_context 3 c2))
     = [PStr "first"; PStr "second"]
  /\ Z.of_nat (length (Context.bc_turns (Context.get_brain_context 3 c2)))
     <> Z.min (Context.window_size c2) (Context.turn_count c2).
Proof.
  cbn. repeat split. discriminate.
Qed.

(** ** Re-mentions of one entity *)

Lemma is_space_lower_char c : is_space (lower_char c) = is_space c.
Proof.
  destruct c as [[] [] [] [] [] [] [] []]; reflexivity.
Qed.

Lemma lstrip_lower s : lstrip (lower s) = lower (lstrip s).
Proof.
  induction s as [|c s IH]; cbn; [reflexivity|].
  rewrite is_space_lower_char. now destruct (is_space c).
Qed.

Lemma rstrip_lower s : rstrip (lower s) = lower (rstrip s).
Proof.
  induction s as [|c s IH]; cbn; [reflexivity|].
  rewrite IH, is_space_lower_char.
  destruct (rstrip s); cbn; [now destruct (is_space c)|reflexivity].
Qed.

Lemma strip_lower s : strip (lower s) = lower (strip s).
Proof. unfold strip. now rewrite lstrip_lower, rstrip_lower. Qed.

Lemma find_entity_single c e name :
  Context._entities c = [e] -> unpadded name -> names e name ->
  Context.find_entity name c = Some e.
Proof.
  intros Hc Hu Hn. unfold Context.find_entity. rewrite Hc, strip_lower, Hu.
  cbn. replace (Context.matches (lower name) e) with true; [reflexivity|].
  symmetry. unfold Context.matches. apply orb_true_iff.
  destruct Hn as [E|(a & Ha & E)].
  - left. apply String.eqb_eq. congruence.
  - right. apply existsb_exists. exists a. split; [now apply list_elem_of_In|].
    now apply String.eqb_eq.
Qed.

Lemma final_entity_count e calls :
  Entity.reference_count (final_entity e calls)
  = (Entity.reference_count e + Z.of_nat (length calls))%Z.
Proof.
  revert e. induction calls as [|k calls IH]; intros e; cbn; [lia|].
  unfold final_entity in IH. rewrite IH. cbn. lia.
Qed.

Lemma final_entity_identity e calls :
  Entity.id (final_entity e calls) = Entity.id e
  /\ Entity.canonical_name (final_entity e calls) = Entity.canonical_name e.
Proof.
  revert e. induction calls as [|k calls IH]; intros e; cbn; [easy|].
  unfold final_entity in IH. now rewrite !(proj1 (IH _)), !(proj2 (IH _)).
Qed.

Lemma run_calls_single c e calls :
  Context._entities c = [e] -> mentions e calls ->
  Context._entities (run_calls calls c) = [final_entity e calls].
Proof.
  revert c e. induction calls as [|k calls IH]; intros c e Hc Hm; cbn.
  - exact Hc.
  - destruct Hm as (Hu & Hn & Hm).
    apply (IH _ (updated_entity k e)); [|exact Hm].
    rewrite (apply_call_found _ _ e) by now apply find_entity_single.
    cbn. rewrite Hc. cbn. now rewrite String.eqb_refl.
Qed.

(** When the first call creates the entity and every later call mentions it
    by an unpadded name, one entity persists and it counts the calls. *)
Lemma remention_counts sid t0 window capacity first rest :
  (1 <= capacity)%Z ->
  mentions (new_entity first) rest ->
  let c := run_calls (first :: rest) (Context.init sid t0 window capacity) in
  exists e,
    Context._entities c = [e]
    /\ Entity.id e = tc_uid first
    /\ Entity.canonical_name e = tc_name first
    /\ Entity.reference_count e = Z.of_nat (length (first :: rest)).
Proof.
  intros Hcap Hm c. exists (final_entity (new_entity first) rest).
  split.
  - subst c. cbn [run_calls fold_left]. apply run_calls_single; [|exact Hm].
    rewrite apply_call_new by reflexivity. cbn.
    change (Z.of_nat 1) with 1%Z.
    destruct (Z.ltb_spec capacity 1); [lia|reflexivity].
  - rewrite final_entity_count.
    destruct (final_entity_identity (new_entity first) rest) as [-> ->].
    cbn. repeat split. lia.
Qed.

(** The scenario of the specification: "Marcus" is registered, then
    mentioned again in another casing with the alias "Marc". *)
Lemma remention_counts_example :
  let first := mk_track_call "u1" 1 "Marcus" (PStr "person") None None in
  let again := mk_track_call "u2" 2 "MARCUS" (PStr "person") (Some ["Marc"])
                             None in
  let c := run_calls [first; again] (Context.init "s" 0 20 200) in
  exists e,
    Context._entities c = [e]
    /\ Entity.canonical_name e = "Marcus"
    /\ Entity.reference_count e = 2%Z
    /\ Entity.aliases e = ["Marc"].
Proof.
  intros first again c.
  destruct (remention_counts "s" 0 20 200 first [again]) as (e & He & _ & Hn & Hc).
  - lia.
  - cbn. split; [reflexivity|]. split; [left; reflexivity|exact I].
  - exists e. fold c in He. split; [exact He|]. split; [exact Hn|].
    split; [exact Hc|].
    assert (E : [e] = Context._entities c) by (symmetry; exact He).
    vm_compute in E. now inversion E.
Qed.

(** *** Aliases and metadata on a re-mention *)

Lemma merge_aliases_extends existing new :
  exists added, Context.merge_aliases existing new = existing ++ added.
Proof.
  unfold Context.merge_aliases. revert existing.
  induction new as [|a new IH]; intros existing; cbn.
  - exists []. now rewrite app_nil_r.
  - destruct (existsb _ existing).
    + apply IH.
    + destruct (IH (existing ++ [a])) as [added E]. exists (a :: added).
      rewrite E. now rewrite <- app_assoc.
Qed.

Lemma merge_aliases_covers existing new a :
  a ∈ existing ++ new ->
  exists b, b ∈ Context.merge_aliases existing new /\ lower b = lower a.
Proof.
  unfold Context.merge_aliases. revert existing a.
  induction new as [|x new IH]; intros existing a Ha; cbn.
  - rewrite app_nil_r in Ha. eauto.
  - destruct (existsb _ existing) eqn:E.
    + apply elem_of_app in Ha as [Ha|Ha].
      * apply IH. apply elem_of_app. now left.
      * apply elem_of_cons in Ha as [->|Ha].
        -- apply existsb_exists in E as (b & Hb & Eb).
           apply String.eqb_eq in Eb.
           destruct (IH existing b) as (b' & Hb' & Eb').
           { apply elem_of_app. left. now apply list_elem_of_In. }
           exists b'. split; [exact Hb'|congruence].
        -- apply IH. apply elem_of_app. now right.
    + apply IH. rewrite <- app_assoc. exact Ha.
Qed.

Lemma merge_aliases_unique existing new :
  NoDup (map lower existing) ->
  NoDup (map lower (Context.merge_aliases existing new)).
Proof.
  unfold Context.merge_aliases. revert existing.
  induction new as [|x new IH]; intros existing Hnd; cbn; [exact Hnd|].
  destruct (existsb _ existing) eqn:E; [now apply IH|].
  apply IH. rewrite map_app. apply NoDup_app. split; [exact Hnd|]. split.
  - intros y Hy Hy'. apply list_elem_of_singleton in Hy'. subst y.
    apply list_elem_of_fmap in Hy as (b & Eb & Hb).
    assert (existsb (fun a => (lower a =? lower x)%string) existing = true);
      [|congruence].
    apply existsb_exists. exists b. split; [now apply list_elem_of_In|].
    now apply String.eqb_eq.
  - apply NoDup_singleton.
Qed.

Lemma pydict_get_set {V} k k' (v : V) d :
  PyDict.get k' (PyDict.set k v d)
  = if (k =? k')%string then Some v else PyDict.get k' d.
Proof.
  induction d as [|[k0 v0] d IH]; cbn.
  - reflexivity.
  - destruct (String.eqb_spec k0 k) as [->|N]; cbn.
    + destruct (String.eqb_spec k k'); reflexivity.
    + rewrite IH. destruct (String.eqb_spec k0 k') as [->|N'];
        [|reflexivity].
      destruct (String.eqb_spec k k'); [congruence|reflexivity].
Qed.

(** [update] with a dict: its keys win, the other keys stay. *)
Lemma pydict_get_update {V} k (d other : list (string * V)) :
  NoDup (map fst other) ->
  PyDict.get k (PyDict.update d other)
  = match PyDict.get k other with
    | Some v => Some v
    | None => PyDict.get k d
    end.
Proof.
  unfold PyDict.update. revert d.
  induction other as [|[k0 v0] other IH]; intros d Hnd; cbn; [reflexivity|].
  apply NoDup_cons in Hnd as [Hk Hnd]. rewrite IH by exact Hnd.
  rewrite pydict_get_set.
  destruct (String.eqb_spec k0 k) as [->|N]; [|reflexivity].
  destruct (PyDict.get k other) eqn:G; [|reflexivity].
  exfalso. apply Hk. clear -G. induction other as [|[k1 v1] other IH];
    cbn in *; [discriminate|].
  destruct (String.eqb_spec k1 k) as [->|N]; [left|right; auto].
Qed.

(** C4 fails for a name with surrounding whitespace. [find_entity] strips
    the name it looks for but not the names it compares with, so an entity
    registered as [" Bob"] is not found under [" Bob"]: two calls leave two
    entities, each with reference count 1. *)
Theorem padded_name_is_registered_twice :
  let k1 := mk_track_call "u1" 1 " Bob" (PStr "person") None None in
  let k2 := mk_track_call "u2" 2 " Bob" (PStr "person") None None in
  let c1 := run_calls [k1] (Context.init "s" 0 20 200) in
  let c2 := run_calls [k1; k2] (Context.init "s" 0 20 200) in
  Context.find_entity " Bob" c1 = None
  /\ map (fun e => (Entity.id e, Entity.canonical_name e,
                    Entity.reference_count e))
         (Context._entities c2)
     = [("u1", " Bob", 1%Z); ("u2", " Bob", 1%Z)].
Proof. split; reflexivity. Qed.

(* ===================================================================== *)
(** * Properties of the gateway *)
(* ===================================================================== *)

(** ** Dispatching inbound messages *)

Section Dispatch.
Variables (rid : string) (req : PendingRequest) (g : OpenClawGateway).
Variables (now : Q) (m : pydict).
Hypothesis rid_ne : rid <> "".
Hypothesis Hpending : Gateway._pending g !! rid = Some req.
Hypothesis Hrid : PyDict.get "request_id" m = Some (PStr rid).

Lemma request_id_of_message : get_or_none "request_id" m = PStr rid.
Proof. unfold get_or_none. now rewrite Hrid. Qed.

Lemma truthy_rid : truthy (PStr rid) = true.
Proof.
  cbn. apply negb_true_iff. now apply String.eqb_neq.
Qed.

(** A chunk for a request with a sink goes to the sink and nowhere else. *)
Lemma dispatch_chunk sink :
  is_chunk m = true -> Gateway._stream_callbacks g !! rid = Some sink ->
  Gateway._dispatch now m g
  = (Ok tt, g, [Gateway.SinkCalled sink (chunk_of m)]).
Proof.
  intros Hc Hs. unfold Gateway._dispatch.
  rewrite request_id_of_message. unfold is_chunk in Hc. rewrite Hc.
  cbn [Gateway.lookup_key]. now rewrite Hs.
Qed.

(** Any other message reaches the settlement of the request. *)
Lemma dispatch_terminal :
  is_chunk m = false \/ Gateway._stream_callbacks g !! rid = None ->
  Gateway._dispatch now m g
  = if Gateway.future_done rid g then (Ok tt, g, [])
    else
      let g1 := Gateway.with_metrics
                  (Gateway._messages_sent g) (Gateway._messages_received g)
                  (Gateway._last_send_at g) (Gateway._last_recv_at g)
                  (Gateway._total_latency g
                   + (now - PendingRequest.sent_at req))%Q
                  (Gateway._latency_samples g + 1)%Z g in
      (Ok tt,
       Gateway.with_tables (Gateway._pending g) (Gateway._stream_callbacks g)
         (<[rid := outcome m]> (Gateway.futures g)) g1,
       match outcome m with
       | FException e => [Gateway.SetException rid e]
       | _ => [Gateway.SetResult rid m]
       end).
Proof.
  intros Hc. unfold Gateway._dispatch.
  rewrite request_id_of_message.
  assert (E : (if eq_str (get_or "type" (PStr "response") m) "stream_chunk"
               then Gateway.lookup_key (PStr rid) (Gateway._stream_callbacks g)
               else Ok None) = Ok None).
  { destruct Hc as [Hc|Hc].
    - unfold is_chunk in Hc. now rewrite Hc.
    - destruct (eq_str _ _); [|reflexivity]. cbn. now rewrite Hc. }
  rewrite E, truthy_rid. cbn [Gateway.lookup_key]. rewrite Hpending.
  destruct (Gateway.future_done rid g); [reflexivity|].
  unfold outcome. cbn zeta. now destruct (truthy (get_or_none "error" m)).
Qed.
End Dispatch.

Lemma outcome_done m : done (outcome m) = true.
Proof. unfold outcome. now destruct (truthy _). Qed.

Lemma settlements_outcome rid m :
  settlements rid
    match outcome m with
    | FException e => [Gateway.SetException rid e]
    | _ => [Gateway.SetResult rid m]
    end
  = [outcome m].
Proof.
  unfold outcome. destruct (truthy _); cbn; now rewrite String.eqb_refl.
Qed.

Lemma sink_calls_outcome rid m :
  sink_calls
    match outcome m with
    | FException e => [Gateway.SetException rid e]
    | _ => [Gateway.SetResult rid m]
    end
  = [].
Proof. unfold outcome. now destruct (truthy _). Qed.

Section ReadLoop.
Variables (rid : string) (req : PendingRequest) (sink : option nat).
Hypothesis rid_ne : rid <> "".

(** One frame that refers to [rid]: it is handed to the sink, or it
    settles the future if that is still pending, or it changes nothing. *)
Lemma read_step_spec f g fs :
  tracked rid req sink g -> Gateway.futures g !! rid = Some fs ->
  refers_to rid f ->
  exists g' ev,
    Gateway._read_step f g = (g', ev)
    /\ tracked rid req sink g'
    /\ match sink, is_chunk (message_of f) with
       | Some s, true =>
           Gateway.futures g' !! rid = Some fs
           /\ settlements rid ev = []
           /\ sink_calls ev = [(s, chunk_of (message_of f))]
       | _, _ =>
           Gateway.futures g' !! rid
           = Some (if done fs then fs else outcome (message_of f))
           /\ settlements rid ev
              = (if done fs then [] else [outcome (message_of f)])
           /\ sink_calls ev = []
       end.
Proof.
  intros (Hrun & Hp & Hs) Hf (m & Hbody & Hrid).
  unfold Gateway._read_step, message_of. rewrite Hrun, Hbody. cbn [negb].
  set (g1 := Gateway.with_metrics _ _ _ _ _ _ g).
  assert (Hp1 : Gateway._pending g1 !! rid = Some req) by exact Hp.
  assert (Hs1 : Gateway._stream_callbacks g1 !! rid = sink) by exact Hs.
  assert (Hf1 : Gateway.futures g1 !! rid = Some fs) by exact Hf.
  assert (Hrun1 : Gateway.reader_running g1 = true) by exact Hrun.
  destruct sink as [s|] eqn:Es; [destruct (is_chunk m) eqn:Ec|].
  - rewrite (dispatch_chunk rid g1 (Gateway.fr_now f) m Hrid s Ec Hs1).
    exists g1, [Gateway.SinkCalled s (chunk_of m)].
    repeat split; assumption.
  - rewrite (dispatch_terminal rid req g1 (Gateway.fr_now f) m rid_ne Hp1 Hrid)
      by now left.
    unfold Gateway.future_done. rewrite Hf1.
    destruct (done fs) eqn:Ed.
    + exists g1, []. repeat split; assumption.
    + eexists _, _. split; [reflexivity|]. split; [repeat split; assumption|].
      split; [cbn; apply lookup_insert_eq|].
      split; [apply settlements_outcome|apply sink_calls_outcome].
  - rewrite (dispatch_terminal rid req g1 (Gateway.fr_now f) m rid_ne Hp1 Hrid)
      by now right.
    unfold Gateway.future_done. rewrite Hf1.
    destruct (done fs) eqn:Ed.
    + exists g1, []. split; [reflexivity|]. split; [repeat split; assumption|].
      repeat split; assumption.
    + eexists _, _. split; [reflexivity|]. split; [repeat split; assumption|].
      split; [cbn; apply lookup_insert_eq|].
      split; [apply settlements_outcome|apply sink_calls_outcome].
Qed.

Lemma settlements_app evs evs' :
  settlements rid (evs ++ evs') = settlements rid evs ++ settlements rid evs'.
Proof. apply flat_map_app. Qed.

Lemma sink_calls_app evs evs' :
  sink_calls (evs ++ evs') = sink_calls evs ++ sink_calls evs'.
Proof. apply flat_map_app. Qed.

(** Any run of frames that refer to [rid]. *)
Lemma read_loop_spec frames : forall g fs,
  tracked rid req sink g -> Gateway.futures g !! rid = Some fs ->
  Forall (refers_to rid) frames ->
  exists g' evs,
    Gateway._read_loop frames g = (g', evs)
    /\ tracked rid req sink g'
    /\ Gateway.futures g' !! rid
       = Some (if done fs then fs
               else match not_routed sink frames with
                    | [] => fs
                    | f :: _ => outcome (message_of f)
                    end)
    /\ settlements rid evs
       = (if done fs then []
          else match not_routed sink frames with
               | [] => []
               | f :: _ => [outcome (message_of f)]
               end)
    /\ sink_calls evs = routed_chunks sink frames.
Proof.
  induction frames as [|f frames IH]; intros g fs Ht Hf Hall.
  - exists g, []. cbn. split; [reflexivity|]. split; [exact Ht|].
    destruct sink; cbn; destruct (done fs); repeat split; assumption.
  - apply Forall_cons in Hall as [Hrf Hall].
    destruct (read_step_spec f g fs Ht Hf Hrf) as (g1 & ev1 & E1 & Ht1 & H1).
    cbn [Gateway._read_loop]. rewrite E1.
    destruct sink as [s|] eqn:Es; [destruct (is_chunk (message_of f)) eqn:Ec|].
    + destruct H1 as (Hf1 & Hs1 & Hc1).
      destruct (IH g1 fs Ht1 Hf1 Hall) as (g' & evs & E & Ht' & Hf' & Hs' & Hc').
      rewrite E. exists g', (ev1 ++ evs). split; [reflexivity|].
      split; [exact Ht'|]. cbn [not_routed routed_chunks List.filter] in *.
      rewrite Ec. cbn [negb map].
      rewrite settlements_app, sink_calls_app, Hs1, Hc1, Hs', Hc'.
      repeat split; assumption.
    + destruct H1 as (Hf1 & Hs1 & Hc1).
      destruct (IH g1 _ Ht1 Hf1 Hall) as (g' & evs & E & Ht' & Hf' & Hs' & Hc').
      rewrite E. exists g', (ev1 ++ evs). split; [reflexivity|].
      split; [exact Ht'|]. cbn [not_routed routed_chunks List.filter] in *.
      rewrite Ec. cbn [negb].
      rewrite settlements_app, sink_calls_app, Hs1, Hc1, Hs', Hc', Hf'.
      destruct (done fs) eqn:Ed.
      * rewrite Ed. repeat split.
      * rewrite outcome_done. repeat split.
    + destruct H1 as (Hf1 & Hs1 & Hc1).
      destruct (IH g1 _ Ht1 Hf1 Hall) as (g' & evs & E & Ht' & Hf' & Hs' & Hc').
      rewrite E. exists g', (ev1 ++ evs). split; [reflexivity|].
      split; [exact Ht'|]. cbn [not_routed routed_chunks] in *.
      rewrite settlements_app, sink_calls_app, Hs1, Hc1, Hs', Hc', Hf'.
      destruct (done fs) eqn:Ed.
      * rewrite Ed. repeat split.
      * rewrite outcome_done. repeat split.
Qed.
End ReadLoop.

(** Settlement happens at most once. Take a request [rid] in the pending
    table whose future is pending, and any sequence of inbound messages
    that refer to it. With a sink registered for [rid], every chunk is
    handed to the sink, in order, and settles nothing. The future is
    settled once, by the first message that is not handed to the sink,
    with its error or with the message itself; no later message settles it
    again; and the pending table still holds the request. Without a sink
    no message is handed on, so the first message settles the request,
    chunk or not. *)
Lemma settlement_is_exactly_once :
  forall (rid : string) (req : PendingRequest) (sink : option nat)
         (g : OpenClawGateway) (frames : list Gateway.frame),
    rid <> "" ->
    tracked rid req sink g ->
    Gateway.futures g !! rid = Some FPending ->
    Forall (refers_to rid) frames ->
    let g' := fst (Gateway._read_loop frames g) in
    let evs := snd (Gateway._read_loop frames g) in
    sink_calls evs = routed_chunks sink frames
    /\ (length (settlements rid evs) <= 1)%nat
    /\ match not_routed sink frames with
       | [] => settlements rid evs = []
               /\ Gateway.futures g' !! rid = Some FPending
       | f :: _ => settlements rid evs = [outcome (message_of f)]
                   /\ Gateway.futures g' !! rid = Some (outcome (message_of f))
       end
    /\ Gateway._pending g' !! rid = Some req.
Proof.
  intros rid req sink g frames Hne Ht Hf Hall g' evs.
  destruct (read_loop_spec rid req sink Hne frames g FPending Ht Hf Hall)
    as (g1 & evs1 & E & Ht' & Hf' & Hs' & Hc').
  subst g' evs. rewrite E. cbn [fst snd done] in *.
  split; [exact Hc'|]. split.
  - rewrite Hs'. destruct (not_routed sink frames); cbn; lia.
  - split; [|apply Ht'].
    destruct (not_routed sink frames); split; assumption.
Qed.

(** Two chunks, a stream end and a terminal response for the request of
    [sample_gateway]: the chunks reach sink 7, the stream end settles the
    future, the terminal response does not settle it again. *)
Lemma settlement_is_exactly_once_example :
  let chunk s := [("type", PStr "stream_chunk"); ("request_id", PStr "r1");
                  ("content", PStr s)] in
  let stream_end := [("type", PStr "stream_end"); ("request_id", PStr "r1");
                     ("content", PStr "Hello")] in
  let terminal := [("request_id", PStr "r1"); ("content", PStr "Hello")] in
  let frames := [sample_frame 101 (chunk "Hel"); sample_frame 102 (chunk "lo");
                 sample_frame 103 stream_end; sample_frame 104 terminal] in
  let evs := snd (Gateway._read_loop frames sample_gateway) in
  "r1" <> ""
  /\ tracked "r1" sample_request (Some 7%nat) sample_gateway
  /\ Gateway.futures sample_gateway !! "r1" = Some FPending
  /\ Forall (refers_to "r1") frames
  /\ sink_calls evs = [(7%nat, PStr "Hel"); (7%nat, PStr "lo")]
  /\ settlements "r1" evs = [FResult stream_end]
  /\ Gateway.futures (fst (Gateway._read_loop frames sample_gateway)) !! "r1"
     = Some (FResult stream_end).
Proof.
  intros chunk stream_end terminal frames evs.
  assert (H1 : "r1" <> "") by discriminate.
  assert (H2 : tracked "r1" sample_request (Some 7%nat) sample_gateway)
    by (repeat split; vm_compute; reflexivity).
  assert (H3 : Gateway.futures sample_gateway !! "r1" = Some FPending)
    by (vm_compute; reflexivity).
  assert (H4 : Forall (refers_to "r1") frames)
    by (repeat constructor; eexists; split; reflexivity).
  destruct (settlement_is_exactly_once "r1" sample_request (Some 7%nat)
              sample_gateway frames H1 H2 H3 H4) as (Hc & _ & Hs & _).
  split; [exact H1|]. split; [exact H2|]. split; [exact H3|].
  split; [exact H4|]. split; [exact Hc|]. exact Hs.
Qed.

(** Without a sink a chunk is not set apart: it settles the request like a
    terminal response. *)
Lemma chunk_without_sink_settles :
  forall (rid : string) (req : PendingRequest) (g : OpenClawGateway)
         (f : Gateway.frame),
    rid <> "" -> tracked rid req None g ->
    Gateway.futures g !! rid = Some FPending -> refers_to rid f ->
    Gateway.futures (fst (Gateway._read_loop [f] g)) !! rid
    = Some (outcome (message_of f)).
Proof.
  intros rid req g f Hne Ht Hf Hr.
  destruct (read_loop_spec rid req None Hne [f] g FPending Ht Hf)
    as (g1 & evs1 & E & _ & Hf' & _); [now constructor|].
  rewrite E. exact Hf'.
Qed.

(** C2 fails for a request that was sent without a stream callback.
    [_dispatch] sets a chunk apart only when the table of stream callbacks
    holds its request id; otherwise the chunk falls through to the
    settlement. Here [send] is called without a callback on a connected
    gateway, and the brain answers with a chunk and then with the response:
    the chunk settles the request, [send] returns the chunk as the response
    of the brain, and the response that follows settles nothing. *)
Theorem chunk_settles_request_without_sink :
  let chunk := [("type", PStr "stream_chunk"); ("request_id", PStr "r2");
                ("content", PStr "Hel")] in
  let response := [("request_id", PStr "r2"); ("content", PStr "Hello")] in
  let env := Gateway.mk_send_env ConnectFails "r2" 200 (WsSent 201)
               [Gateway.Inbound (sample_frame 202 chunk);
                Gateway.Inbound (sample_frame 203 response)] in
  let res := Gateway.send env [("user_message", PStr "hi")] None None
                          sample_gateway in
  is_chunk chunk = true
  /\ Gateway._status sample_gateway = CONNECTED
  /\ Gateway._stream_callbacks sample_gateway !! "r2" = None
  /\ fst (fst res) = Ok chunk
  /\ settlements "r2" (snd res) = [FResult chunk]
  /\ sink_calls (snd res) = [].
Proof. vm_compute. repeat split. Qed.

(** ** Disconnecting *)

Lemma fail_all_pending_lookup e g rid :
  Gateway.fail_all_pending e g !! rid
  = match Gateway._pending g !! rid with
    | Some _ => Gateway.fail_future e <$> Gateway.futures g !! rid
    | None => Gateway.futures g !! rid
    end.
Proof.
  unfold Gateway.fail_all_pending. revert rid.
  apply (map_fold_weak_ind
           (fun (r : gmap string future_state) (m : gmap string PendingRequest) =>
              forall rid, r !! rid
                          = match m !! rid with
                            | Some _ => Gateway.fail_future e
                                          <$> Gateway.futures g !! rid
                            | None => Gateway.futures g !! rid
                            end)).
  - intros rid. now rewrite lookup_empty.
  - intros i x m r Hi IH rid. destruct (decide (i = rid)) as [->|N].
    + rewrite lookup_alter_eq, lookup_insert_eq, IH, Hi. reflexivity.
    + rewrite lookup_alter_ne, lookup_insert_ne by exact N. apply IH.
Qed.

Lemma set_status_fields st g :
  let g' := fst (Gateway._set_status st g) in
  Gateway._status g' = st
  /\ Gateway._pending g' = Gateway._pending g
  /\ Gateway._stream_callbacks g' = Gateway._stream_callbacks g
  /\ Gateway.futures g' = Gateway.futures g
  /\ Gateway._ws g' = Gateway._ws g
  /\ Gateway.config g' = Gateway.config g.
Proof. cbn. repeat split. Qed.

(** What [disconnect] leaves behind. *)
Lemma disconnect_spec g :
  let g' := fst (Gateway.disconnect g) in
  Gateway._pending g' = ∅
  /\ Gateway._status g' = DISCONNECTED
  /\ Gateway._ws g' = None
  /\ Gateway._stream_callbacks g' = Gateway._stream_callbacks g
  /\ Gateway.futures g' = Gateway.fail_all_pending disconnected_error g.
Proof. cbn. repeat split. Qed.

Lemma status_eqb_eq a b : status_eqb a b = true <-> a = b.
Proof. destruct a, b; cbn; split; intros H; congruence. Qed.

Lemma status_eqb_neq a b : status_eqb a b = false <-> a <> b.
Proof. destruct a, b; cbn; split; intros H; congruence. Qed.

(** ** Sending *)

(** A [send] on a gateway that is not connected opens the connection
    itself; when that fails, so does the call, before anything is sent. *)
Lemma send_connect_fails env payload timeout cb g :
  Gateway._status g <> CONNECTED ->
  Gateway.se_connect env = ConnectFails ->
  exists e g' evs,
    Gateway.send env payload timeout cb g = (Raise e, g', evs)
    /\ exn_of e = ConnectionError
    /\ Gateway._status g' = DISCONNECTED
    /\ Gateway._pending g' = Gateway._pending g.
Proof.
  intros Hs Hc. apply status_eqb_neq in Hs.
  unfold Gateway.send, Gateway.connect. rewrite Hs, Hc.
  eexists _, _, _. split; [reflexivity|]. repeat split.
Qed.

Lemma send_ok_connected env payload timeout cb g r :
  Gateway._status g <> CONNECTED ->
  fst (fst (Gateway.send env payload timeout cb g)) = Ok r ->
  exists ws, Gateway.se_connect env = ConnectOk ws.
Proof.
  intros Hs Hr. destruct (Gateway.se_connect env) as [ws|] eqn:Hc; [eauto|].
  destruct (send_connect_fails env payload timeout cb g Hs Hc)
    as (e & g' & evs & E & _).
  rewrite E in Hr. discriminate.
Qed.

(** C6 as it is stated fails: after a disconnection, a [send] whose own
    connection attempt succeeds returns the brain's response although the
    caller has not called [connect]. *)
Lemma send_after_disconnect_succeeds :
  let g' := fst (Gateway.disconnect sample_gateway) in
  let reply := [("request_id", PStr "r2"); ("content", PStr "hello")] in
  let env := Gateway.mk_send_env (ConnectOk 2) "r2" 200 (WsSent 201)
               [Gateway.Inbound (sample_frame 202 reply)] in
  Gateway._status g' = DISCONNECTED
  /\ fst (fst (Gateway.send env [("user_message", PStr "hi")] None None g'))
     = Ok reply.
Proof. vm_compute. split; reflexivity. Qed.

(** ** Waiting for a response *)

(** [_dispatch] writes no table but the heap of futures, and there only the
    future of the request that the message carries. *)
Lemma dispatch_frame now m g :
  let g' := snd (fst (Gateway._dispatch now m g)) in
  Gateway._pending g' = Gateway._pending g
  /\ Gateway._stream_callbacks g' = Gateway._stream_callbacks g
  /\ Gateway._reader_task g' = Gateway._reader_task g
  /\ Gateway._status g' = Gateway._status g
  /\ forall rid,
       get_or_none "request_id" m <> PStr rid
       \/ (is_chunk m = true /\ is_Some (Gateway._stream_callbacks g !! rid)) ->
       Gateway.futures g' !! rid = Gateway.futures g !! rid.
Proof.
  unfold Gateway._dispatch, is_chunk, Gateway.lookup_key.
  repeat case_match; cbn; repeat split; intros rid Hrid; simplify_eq;
    try reflexivity.
  all: match goal with
       | |- <[?k := _]> _ !! ?r = _ =>
           destruct (decide (k = r)) as [->|N]; [|now rewrite lookup_insert_ne]
       end.
  all: destruct Hrid as [Hrid|[Hc [x Hx]]]; try congruence.
Qed.

Lemma read_step_keeps rid (has_sink : bool) f g :
  (has_sink = true -> is_Some (Gateway._stream_callbacks g !! rid)) ->
  may_settle rid has_sink (Gateway.Inbound f) = false ->
  let g' := fst (Gateway._read_step f g) in
  Gateway.futures g' !! rid = Gateway.futures g !! rid
  /\ Gateway._pending g' = Gateway._pending g
  /\ Gateway._stream_callbacks g' = Gateway._stream_callbacks g.
Proof.
  intros Hsink Hm. unfold Gateway._read_step.
  destruct (Gateway.reader_running g); cbn [negb]; [|now repeat split].
  unfold may_settle in Hm.
  destruct (Gateway.fr_body f) as [|v]; [now repeat split|].
  destruct v as [|b|z|q|s|l|m]; try (now repeat split).
  set (g1 := Gateway.with_metrics _ _ _ _ _ _ g).
  destruct (dispatch_frame (Gateway.fr_now f) m g1) as (Hp & Hc & _ & _ & Hf).
  assert (Hkeep : Gateway.futures (snd (fst (Gateway._dispatch (Gateway.fr_now f) m g1)))
                    !! rid = Gateway.futures g !! rid).
  { apply Hf. destruct (get_or_none "request_id" m) as [|b|z|q|s|l|d];
      try (left; discriminate).
    apply andb_false_iff in Hm as [Hm|Hm].
    - left. apply String.eqb_neq in Hm. congruence.
    - right. apply negb_false_iff, andb_true_iff in Hm as [-> Hm].
      split; [exact Hm|]. now apply Hsink. }
  destruct (Gateway._dispatch (Gateway.fr_now f) m g1) as [[r g2] ev].
  cbn [fst snd] in *. destruct r; cbn; repeat split; assumption.
Qed.

Lemma wait_all_keeps rid (has_sink : bool) ws : forall g,
  (has_sink = true -> is_Some (Gateway._stream_callbacks g !! rid)) ->
  Forall (fun w => may_settle rid has_sink w = false) ws ->
  let g' := fst (Gateway.wait_all ws g) in
  Gateway.futures g' !! rid = Gateway.futures g !! rid
  /\ Gateway._pending g' = Gateway._pending g
  /\ Gateway._stream_callbacks g' = Gateway._stream_callbacks g.
Proof.
  induction ws as [|w ws IH]; intros g Hsink Hall; cbn.
  - now repeat split.
  - apply Forall_cons in Hall as [Hw Hall].
    destruct w as [f|]; [|discriminate]. cbn [Gateway.wait_step].
    destruct (read_step_keeps rid has_sink f g Hsink Hw) as (Hf & Hp & Hc).
    destruct (Gateway._read_step f g) as [g1 ev1]. cbn [fst] in *.
    destruct (IH g1) as (Hf' & Hp' & Hc'); [now rewrite Hc|exact Hall|].
    destruct (Gateway.wait_all ws g1) as [g2 ev2]. cbn [fst] in *.
    repeat split; congruence.
Qed.

(** A [send] that transmits its request waits in a state where the request
    is registered with a pending future; its result is read off the future
    after the wait, and the [finally] clause drops the registrations. *)
Lemma send_waits env payload timeout cb g sent :
  can_transmit env g ->
  Gateway.se_ws_send env = WsSent sent ->
  let uid := Gateway.se_uid env in
  exists g2 ev2,
    Gateway.futures g2 !! uid = Some FPending
    /\ is_Some (Gateway._pending g2 !! uid)
    /\ ((match cb with Some _ => true | None => false end) = true ->
        is_Some (Gateway._stream_callbacks g2 !! uid))
    /\ Gateway.send env payload timeout cb g
       = let '(g3, ev3) := Gateway.wait_all (Gateway.se_wait env) g2 in
         let '(r, g4) :=
           Gateway.await_future uid (effective_timeout timeout g) g3 in
         (r,
          Gateway.with_tables (delete uid (Gateway._pending g4))
            (delete uid (Gateway._stream_callbacks g4)) (Gateway.futures g4) g4,
          ev2 ++ ev3).
Proof.
  intros Hcan Hsent uid. unfold Gateway.send. fold uid.
  assert (Hconn : exists g0 ev0 ws,
    (if status_eqb (Gateway._status g) CONNECTED then (Ok tt, g, [])
     else Gateway.connect (Gateway.se_connect env) g) = (Ok tt, g0, ev0)
    /\ Gateway._ws g0 = Some ws /\ Gateway.config g0 = Gateway.config g).
  { destruct Hcan as [[Hs Hws]|[Hs [ws Hc]]].
    - apply status_eqb_eq in Hs. rewrite Hs.
      destruct (Gateway._ws g) as [ws|] eqn:E; [|congruence].
      eexists _, _, ws. now repeat split.
    - apply status_eqb_neq in Hs. rewrite Hs. unfold Gateway.connect.
      rewrite Hs, Hc. eexists _, _, ws. now repeat split. }
  destruct Hconn as (g0 & ev0 & ws & -> & Hws & Hcfg).
  fold (effective_timeout timeout g0).
  replace (effective_timeout timeout g0) with (effective_timeout timeout g)
    by (unfold effective_timeout; now rewrite Hcfg).
  set (T := effective_timeout timeout g).
  set (message := PyDict.update _ payload).
  set (g1 := Gateway.with_tables _ _ _ g0).
  unfold Gateway._raw_send.
  replace (Gateway._ws g1) with (Some ws) by (symmetry; exact Hws).
  rewrite Hsent.
  set (g2 := Gateway.with_metrics _ _ _ _ _ _ g1).
  exists g2, (ev0 ++ [Gateway.WsSend ws message]).
  split; [cbn; apply lookup_insert_eq|].
  split; [cbn; rewrite lookup_insert_eq; eauto|].
  split.
  - destruct cb; [|discriminate]. intros _. cbn. rewrite lookup_insert_eq.
    eauto.
  - destruct (Gateway.wait_all (Gateway.se_wait env) g2) as [g3 ev3].
    destruct (Gateway.await_future uid T g3) as [r g4].
    now rewrite <- app_assoc.
Qed.



Lemma wait_all_app ws ws' g :
  Gateway.wait_all (ws ++ ws') g
  = let '(g1, ev1) := Gateway.wait_all ws g in
    let '(g2, ev2) := Gateway.wait_all ws' g1 in
    (g2, ev1 ++ ev2).
Proof.
  revert g. induction ws as [|w ws IH]; intros g; cbn.
  - now destruct (Gateway.wait_all ws' g).
  - destruct (Gateway.wait_step w g) as [g1 ev1]. rewrite IH.
    destruct (Gateway.wait_all ws g1) as [g2 ev2].
    destruct (Gateway.wait_all ws' g2) as [g3 ev3].
    now rewrite app_assoc.
Qed.

(** No caller is left waiting by a disconnection: a [send] that is waiting
    when the gateway is disconnected fails with the connection error. *)
Lemma waiting_send_fails_on_disconnect env payload timeout cb g sent ws :
  can_transmit env g ->
  Gateway.se_ws_send env = WsSent sent ->
  Gateway.se_wait env = ws ++ [Gateway.Disconnect] ->
  Forall (fun w => may_settle (Gateway.se_uid env)
                              (match cb with Some _ => true | None => false end)
                              w = false) ws ->
  fst (fst (Gateway.send env payload timeout cb g)) = Raise disconnected_error.
Proof.
  intros Hcan Hsent Hw Hall.
  destruct (send_waits env payload timeout cb g sent Hcan Hsent)
    as (g2 & ev2 & Hf2 & [req Hp2] & Hs2 & ->).
  rewrite Hw, wait_all_app.
  destruct (wait_all_keeps _ _ ws g2 Hs2 Hall) as (Hf & Hp & _).
  destruct (Gateway.wait_all ws g2) as [g3 ev3]. cbn [fst] in Hf, Hp.
  cbn [Gateway.wait_all Gateway.wait_step].
  destruct (disconnect_spec g3) as (_ & _ & _ & _ & Hfd).
  destruct (Gateway.disconnect g3) as [g4 ev4]. cbn [fst] in Hfd.
  unfold Gateway.await_future.
  rewrite Hfd, fail_all_pending_lookup, Hp, Hp2, Hf, Hf2. reflexivity.
Qed.

(** ** Reconnecting *)

(** The delay before attempt [n], as long as [2 ** (n - 1)] fits a double. *)
Lemma reconnect_delay_formula (c : GatewayConfig) (n : Z) :
  (1 <= n <= 1024)%Z ->
  Gateway.reconnect_delay c n
  = Ok (Qmin (GatewayConfig.reconnect_delay_base c * inject_Z (2 ^ (n - 1)))
             (GatewayConfig.reconnect_delay_max c)).
Proof.
  intros Hn. unfold Gateway.reconnect_delay.
  destruct (Z.ltb_spec (n - 1) 0); [lia|].
  destruct (Z.ltb_spec (n - 1) 1024); [reflexivity|lia].
Qed.

Lemma reconnect_delay_overflow (c : GatewayConfig) (n : Z) :
  (1025 <= n)%Z ->
  Gateway.reconnect_delay c n
  = Raise (Exn OverflowError [PStr "int too large to convert to float"]).
Proof.
  intros Hn. unfold Gateway.reconnect_delay.
  destruct (Z.ltb_spec (n - 1) 0); [lia|].
  destruct (Z.ltb_spec (n - 1) 1024); [lia|reflexivity].
Qed.

Lemma connect_keeps o g :
  let g' := snd (fst (Gateway.connect o g)) in
  Gateway.config g' = Gateway.config g
  /\ Gateway._pending g' = Gateway._pending g
  /\ Gateway.futures g' = Gateway.futures g
  /\ sleeps (snd (Gateway.connect o g)) = [].
Proof.
  unfold Gateway.connect, Gateway._set_status.
  destruct (status_eqb (Gateway._status g) CONNECTED); [now repeat split|].
  destruct o; cbn; repeat split; unfold sleeps;
    rewrite ?flat_map_app; repeat case_match; cbn;
    rewrite ?app_nil_r;
    repeat match goal with
           | |- context [flat_map _ (map _ ?l)] =>
               induction l; cbn; congruence
           end; reflexivity.
Qed.

Lemma resend_keeps now o reqs : forall g,
  let g' := snd (fst (Gateway.resend now o reqs g)) in
  Gateway.config g' = Gateway.config g
  /\ Gateway._pending g' = Gateway._pending g
  /\ Gateway.futures g' = Gateway.futures g
  /\ Gateway._status g' = Gateway._status g
  /\ Gateway._reconnect_attempt g' = Gateway._reconnect_attempt g
  /\ sleeps (snd (Gateway.resend now o reqs g)) = [].
Proof.
  induction reqs as [|[rid req] reqs IH]; intros g; cbn; [now repeat split|].
  destruct (_ && _); [|apply IH].
  unfold Gateway._raw_send. destruct (Gateway._ws g); [|now repeat split].
  destruct o; [|now repeat split|now repeat split].
  set (g1 := Gateway.with_metrics _ _ _ _ _ _ g).
  specialize (IH g1). destruct (Gateway.resend now (WsSent now0) reqs g1)
    as [[r g2] ev]. cbn in *. exact IH.
Qed.

Lemma reconnect_loop_unfold script g :
  Gateway._reconnect_loop script g
  = let g1 := Gateway.with_attempt (Gateway._reconnect_attempt g + 1) g in
    let max_attempts :=
      GatewayConfig.reconnect_max_attempts (Gateway.config g1) in
    if (0 <? max_attempts)%Z && (max_attempts <? Gateway._reconnect_attempt g1)%Z
    then
      let '(g2, ev) := Gateway._set_status FATAL g1 in
      (Gateway.Exhausted,
       Gateway.with_tables ∅ (Gateway._stream_callbacks g2)
         (Gateway.fail_all_pending Gateway.exhausted_error g2) g2,
       ev)
    else
      match Gateway.reconnect_delay (Gateway.config g1)
                                    (Gateway._reconnect_attempt g1) with
      | Raise e => (Gateway.Crashed e, g1, [])
      | Ok delay =>
          let ev0 := [Gateway.Sleep (Gateway._reconnect_attempt g1) delay] in
          match script with
          | [] => (Gateway.Retrying, g1, ev0)
          | a :: script' =>
              let '(r, g2, ev2) := Gateway.connect (Gateway.ae_connect a) g1 in
              match r with
              | Raise _ =>
                  let '(r', g', ev') := Gateway._reconnect_loop script' g2 in
                  (r', g', ev0 ++ ev2 ++ ev')
              | Ok _ =>
                  let '(r3, g3, ev3) :=
                    Gateway.resend (Gateway.ae_now a) (Gateway.ae_resend a)
                                   (map_to_list (Gateway._pending g2)) g2 in
                  match r3 with
                  | Ok _ => (Gateway.Reconnected, g3, ev0 ++ ev2 ++ ev3)
                  | Raise e =>
                      if is_class ConnectionError e then
                        let '(r', g', ev') :=
                          Gateway._reconnect_loop script' g3 in
                        (r', g', ev0 ++ ev2 ++ ev3 ++ ev')
                      else (Gateway.Crashed e, g3, ev0 ++ ev2 ++ ev3)
                  end
              end
          end
      end.
Proof. destruct script; reflexivity. Qed.

Lemma sleeps_app evs evs' : sleeps (evs ++ evs') = sleeps evs ++ sleeps evs'.
Proof. apply flat_map_app. Qed.

Lemma sleeps_status_listeners old new (ls : list nat) :
  sleeps (map (fun l => Gateway.StatusListener l old new) ls) = [].
Proof. unfold sleeps. induction ls as [|l ls IH]; cbn; [reflexivity|exact IH]. Qed.

(** Every wait of the loop has the delay of its attempt, and a loop that
    ends in exhaustion leaves the gateway FATAL with an empty pending table
    and with every pending future failed. *)
Lemma reconnect_loop_spec script : forall g,
  let r := fst (fst (Gateway._reconnect_loop script g)) in
  let g' := snd (fst (Gateway._reconnect_loop script g)) in
  let evs := snd (Gateway._reconnect_loop script g) in
  Forall (fun nd => Gateway.reconnect_delay (Gateway.config g) (fst nd)
                    = Ok (snd nd)) (sleeps evs)
  /\ (r = Gateway.Exhausted ->
      Gateway._status g' = FATAL
      /\ Gateway._pending g' = ∅
      /\ forall rid req,
           Gateway._pending g !! rid = Some req ->
           Gateway.futures g !! rid = Some FPending ->
           Gateway.futures g' !! rid
           = Some (FException Gateway.exhausted_error)).
Proof.
  induction script as [|a script IH]; intros g; cbn zeta;
    rewrite reconnect_loop_unfold; cbn zeta;
    set (g1 := Gateway.with_attempt _ g);
    (destruct (_ && _) eqn:Hex;
     [ cbn; split;
       [ destruct (status_eqb _ _); cbn;
         rewrite ?sleeps_status_listeners; constructor
       | intros _; split; [reflexivity|]; split; [reflexivity|];
         intros rid req Hp Hf;
         rewrite fail_all_pending_lookup; cbn; now rewrite Hp, Hf ]
     | ]).
  - destruct (Gateway.reconnect_delay _ _) eqn:Hd; cbn.
    + split; [repeat constructor; exact Hd|discriminate].
    + split; [constructor|discriminate].
  - destruct (Gateway.reconnect_delay _ _) eqn:Hd; cbn;
      [|split; [constructor|discriminate]].
    destruct (connect_keeps (Gateway.ae_connect a) g1) as (Hc & Hp & Hf & Hs).
    destruct (Gateway.connect (Gateway.ae_connect a) g1) as [[r g2] ev2].
    cbn [fst snd] in *. destruct r as [[]|e].
    + destruct (resend_keeps (Gateway.ae_now a) (Gateway.ae_resend a)
                  (map_to_list (Gateway._pending g2)) g2)
        as (Hc3 & Hp3 & Hf3 & _ & _ & Hs3).
      destruct (Gateway.resend _ _ _ g2) as [[r3 g3] ev3].
      cbn [fst snd] in *. destruct r3 as [[]|e3].
      * cbn. rewrite !sleeps_app, Hs, Hs3. cbn.
        split; [repeat constructor; exact Hd|discriminate].
      * change (match exn_of e3 with ConnectionError => true | _ => false end)
          with (is_class ConnectionError e3).
        destruct (is_class ConnectionError e3).
        2:{ cbn. rewrite !sleeps_app, Hs, Hs3. cbn.
            split; [repeat constructor; exact Hd|discriminate]. }
        specialize (IH g3).
        destruct (Gateway._reconnect_loop script g3) as [[r' g'] ev'].
        cbn [fst snd] in *. destruct IH as [IHs IHe]. split.
        -- cbn [sleeps flat_map app]. rewrite !sleeps_app, Hs, Hs3. cbn.
           constructor; [exact Hd|]. rewrite Hc3, Hc in IHs. exact IHs.
        -- intros ->. destruct (IHe eq_refl) as (H1 & H2 & H3).
           split; [exact H1|]. split; [exact H2|].
           intros rid req Hpr Hfr.
           apply (H3 rid req); [rewrite Hp3, Hp|rewrite Hf3, Hf]; assumption.
    + specialize (IH g2).
      destruct (Gateway._reconnect_loop script g2) as [[r' g'] ev'].
      cbn [fst snd] in *. destruct IH as [IHs IHe]. split.
      * cbn [sleeps flat_map app]. rewrite !sleeps_app, Hs. cbn.
        constructor; [exact Hd|]. rewrite Hc in IHs. exact IHs.
      * intros ->. destruct (IHe eq_refl) as (H1 & H2 & H3).
        split; [exact H1|]. split; [exact H2|].
        intros rid req Hpr Hfr.
        apply (H3 rid req); [rewrite Hp|rewrite Hf]; assumption.
Qed.

Lemma connect_fails_spec g :
  Gateway._status g <> CONNECTED ->
  exists e g' evs,
    Gateway.connect ConnectFails g = (Raise e, g', evs)
    /\ Gateway._status g' = DISCONNECTED
    /\ Gateway._reconnect_attempt g' = Gateway._reconnect_attempt g
    /\ Gateway.config g' = Gateway.config g.
Proof.
  intros Hs. apply status_eqb_neq in Hs. unfold Gateway.connect. rewrite Hs.
  eexists _, _, _. split; [reflexivity|]. now repeat split.
Qed.

(** With a positive ceiling, as many failed attempts as the ceiling allows
    end the loop in exhaustion. *)
Lemma reconnect_loop_exhausts (k : nat) : forall script g,
  all_fail script -> (k <= length script)%nat ->
  Gateway._status g <> CONNECTED ->
  (0 <= Gateway._reconnect_attempt g)%Z ->
  let max_attempts :=
    GatewayConfig.reconnect_max_attempts (Gateway.config g) in
  (Gateway._reconnect_attempt g + Z.of_nat k = max_attempts)%Z ->
  (0 < max_attempts <= 1024)%Z ->
  fst (fst (Gateway._reconnect_loop script g)) = Gateway.Exhausted.
Proof.
  induction k as [|k IH]; intros script g Hfail Hlen Hst Hatt M Hk HM;
    rewrite reconnect_loop_unfold; cbn zeta;
    set (g1 := Gateway.with_attempt _ g);
    change (Gateway.config g1) with (Gateway.config g);
    change (Gateway._reconnect_attempt g1)
      with (Gateway._reconnect_attempt g + 1)%Z; fold M.
  - replace ((0 <? M)%Z && (M <? Gateway._reconnect_attempt g + 1)%Z)
      with true; [reflexivity|].
    symmetry. apply andb_true_iff. split; apply Z.ltb_lt; lia.
  - replace ((0 <? M)%Z && (M <? Gateway._reconnect_attempt g + 1)%Z)
      with false.
    2:{ symmetry. apply andb_false_iff. right. apply Z.ltb_ge. lia. }
    rewrite reconnect_delay_formula by lia.
    destruct script as [|a script]; [cbn in Hlen; lia|].
    apply Forall_cons in Hfail as [Ha Hfail]. rewrite Ha.
    destruct (connect_fails_spec g1 Hst) as (e & g2 & ev2 & -> & Hs2 & Ha2 & Hc2).
    specialize (IH script g2 Hfail).
    destruct (Gateway._reconnect_loop script g2) as [[r' g'] ev'].
    cbn [fst] in *. apply IH.
    + cbn in Hlen. lia.
    + rewrite Hs2. discriminate.
    + rewrite Ha2. cbn. lia.
    + rewrite Ha2, Hc2. cbn. fold M. lia.
    + rewrite Hc2. exact HM.
Qed.

(** Exhaustion of a positive ceiling: FATAL, every pending future failed
    with a connection error, the pending table empty. *)
Lemma reconnect_exhaustion (g : OpenClawGateway) script :
  let max_attempts :=
    GatewayConfig.reconnect_max_attempts (Gateway.config g) in
  (0 < max_attempts <= 1024)%Z ->
  Gateway._reconnect_attempt g = 0%Z ->
  all_fail script -> (Z.to_nat max_attempts <= length script)%nat ->
  let r := fst (fst (Gateway._reconnect script g)) in
  let g' := snd (fst (Gateway._reconnect script g)) in
  r = Gateway.Exhausted
  /\ Gateway._status g' = FATAL
  /\ Gateway._pending g' = ∅
  /\ forall rid req,
       Gateway._pending g !! rid = Some req ->
       Gateway.futures g !! rid = Some FPending ->
       Gateway.futures g' !! rid = Some (FException Gateway.exhausted_error).
Proof.
  intros M HM Hatt Hfail Hlen. unfold Gateway._reconnect.
  set (g1 := fst (Gateway._set_status RECONNECTING g)).
  replace (Gateway._set_status RECONNECTING g)
    with (g1, snd (Gateway._set_status RECONNECTING g)) by reflexivity.
  cbn iota.
  assert (Hex : fst (fst (Gateway._reconnect_loop script g1))
                = Gateway.Exhausted).
  { apply (reconnect_loop_exhausts (Z.to_nat M)); try assumption.
    - discriminate.
    - cbn. lia.
    - cbn. fold M. lia. }
  destruct (reconnect_loop_spec script g1) as [_ He].
  destruct (Gateway._reconnect_loop script g1) as [[r g2] ev2].
  cbn [fst snd] in *. cbn zeta. cbn [fst snd].
  destruct (He Hex) as (H1 & H2 & H3). repeat split; assumption.
Qed.

(** Three attempts allowed and an endpoint that stays away: delays of 1, 2
    and 4 seconds, then FATAL. *)
Lemma reconnect_exhaustion_example :
  let res := Gateway._reconnect (repeat failed_attempt 3) three_attempts_gateway
  in
  fst (fst res) = Gateway.Exhausted
  /\ Gateway._status (snd (fst res)) = FATAL
  /\ Gateway._pending (snd (fst res)) = ∅
  /\ Gateway.futures (snd (fst res)) !! "r1"
     = Some (FException Gateway.exhausted_error)
  /\ sleeps (snd res) = [(1%Z, 1%Q); (2%Z, 2%Q); (3%Z, 4%Q)].
Proof.
  intros res.
  destruct (reconnect_exhaustion three_attempts_gateway (repeat failed_attempt 3))
    as (H1 & H2 & H3 & H4).
  - cbn. lia.
  - reflexivity.
  - repeat constructor.
  - cbn. lia.
  - split; [exact H1|]. split; [exact H2|]. split; [exact H3|]. split.
    + apply (H4 "r1" sample_request); vm_compute; reflexivity.
    + vm_compute. reflexivity.
Qed.

(** C8 fails at attempt 1025. With the ceiling 0, which the configuration
    documents as "infinite", and a gateway that cannot be reached, the
    delays of attempts 1 to 1024 follow the formula, and at attempt 1025
    the product [base * 2 ** 1024] raises [OverflowError]: the reconnection
    task ends there, without a delay, without FATAL, and with the pending
    request neither failed nor re-sent. *)
Theorem reconnect_overflows_at_attempt_1025 :
  let script := repeat failed_attempt 1030 in
  let res := Gateway._reconnect script dropped_gateway in
  GatewayConfig.reconnect_max_attempts unlimited_config = 0%Z
  /\ fst (fst res)
     = Gateway.Crashed
         (Exn OverflowError [PStr "int too large to convert to float"])
  /\ Gateway._reconnect_attempt (snd (fst res)) = 1025%Z
  /\ length (sleeps (snd res)) = 1024%nat
  /\ nth_error (sleeps (snd res)) 4 = Some (5%Z, 16%Q)
  /\ nth_error (sleeps (snd res)) 5 = Some (6%Z, 30%Q)
  /\ Gateway._status (snd (fst res)) <> FATAL
  /\ Gateway.futures (snd (fst res)) !! "r1" = Some FPending.
Proof.
  vm_compute. repeat split; discriminate.
Qed.

(* ===================================================================== *)
(** * Properties of the engine *)
(* ===================================================================== *)

(** ** Parsing a response *)

(** Content that [json.loads] rejects with [JSONDecodeError] is taken as
    plain text: the response has the whole string as its text, no intent,
    no state, no entities, no actions, no follow-up, no summary update, and
    the clarification flag false. *)
Lemma rejected_content_is_plain_text
    (json_loads : string -> loads_outcome) (data : pydict) (s : string)
    (latency_ms : Q) :
  PyDict.get "content" data = Some (PStr s) ->
  json_loads s = JSONDecodeError ->
  exists r,
    BrainResponse.from_gateway_response json_loads data latency_ms = Ok r
    /\ BrainResponse.text r = PStr s
    /\ BrainResponse.intent r = PNone
    /\ BrainResponse.state r = None
    /\ BrainResponse.entities r = PList []
    /\ BrainResponse.suggested_actions r = PList []
    /\ BrainResponse.follow_up r = PNone
    /\ BrainResponse.context_summary_update r = PNone
    /\ BrainResponse.needs_clarification r = PBool false
    /\ BrainResponse.confidence r = PFloat 1
    /\ BrainResponse.raw r = data.
Proof.
  intros Hc Hj.
  unfold BrainResponse.from_gateway_response, get_or. rewrite Hc, Hj.
  eexists. split; [reflexivity|]. cbn. repeat split.
Qed.

Lemma rejected_content_is_plain_text_example :
  exists r,
    BrainResponse.from_gateway_response json_loads_sample
      [("content", PStr "Just a plain text response")] 0 = Ok r
    /\ BrainResponse.text r = PStr "Just a plain text response"
    /\ BrainResponse.intent r = PNone.
Proof.
  destruct (rejected_content_is_plain_text json_loads_sample
              [("content", PStr "Just a plain text response")] _ 0
              eq_refl eq_refl) as (r & Hr & Ht & Hi & _).
  exists r. repeat split; assumption.
Qed.

(** Whatever else the decoder raises leaves the parser as it is: the
    [except] clause names [JSONDecodeError] only. *)
Lemma decoder_error_escapes_parsing
    (json_loads : string -> loads_outcome) (data : pydict) (s : string)
    (e : loads_error) (latency_ms : Q) :
  PyDict.get "content" data = Some (PStr s) ->
  json_loads s = LoadsRaises e ->
  BrainResponse.from_gateway_response json_loads data latency_ms
  = Raise (loads_exn e).
Proof.
  intros Hc Hj.
  unfold BrainResponse.from_gateway_response, get_or. now rewrite Hc, Hj.
Qed.

(** C9 fails for content that the decoder gives up on. The content of the
    response is a string of a thousand opening brackets. It is no JSON,
    and [json.loads] does not reject it with [JSONDecodeError]: the
    nesting exhausts the recursion limit and the decoder raises
    [RecursionError]. The parser catches [JSONDecodeError] only, so the
    error leaves [from_gateway_response], where the claim has it return
    the string as plain text. *)
Theorem deeply_nested_content_raises :
  let data := [("request_id", PStr "r1"); ("content", PStr (brackets 1000))] in
  PyDict.get "content" data = Some (PStr (brackets 1000))
  /\ json_loads_sample (brackets 1000) = LoadsRaises LoadsRecursionError
  /\ BrainResponse.from_gateway_response json_loads_sample data 0
     = Raise (Exn (UserError "RecursionError")
                  [PStr "maximum recursion depth exceeded"]).
Proof. vm_compute. repeat split. Qed.

(** Content that decodes to something other than an object is not treated
    as text: the parser asks the decoded value for its fields. *)
Lemma decoded_scalar_content_raises (json_loads : string -> loads_outcome)
    (data : pydict) (s : string) (z : Z) (latency_ms : Q) :
  PyDict.get "content" data = Some (PStr s) ->
  json_loads s = Decoded (PInt z) ->
  exists e,
    BrainResponse.from_gateway_response json_loads data latency_ms = Raise e
    /\ exn_of e = AttributeError.
Proof.
  intros Hc Hj. unfold BrainResponse.from_gateway_response, get_or.
  rewrite Hc, Hj. eexists. split; reflexivity.
Qed.

(** ** A new session *)

(** C10. [new_session] returns the session id that was just generated and
    leaves a context with that id and with no turns, no entities, no topics
    and an empty summary, and a state tracker that is idle, whose current
    snapshot has no exit time and is the only entry of its history. The
    gateway and the configuration are the ones of before. *)
Theorem new_session_starts_afresh :
  forall (uid : string) (now_ctx now_st : Q) (e : ConversationEngine),
    let sid := fst (Engine.new_session uid now_ctx now_st e) in
    let e' := snd (Engine.new_session uid now_ctx now_st e) in
    sid = uid
    /\ Context.session_id (Engine.context e') = uid
    /\ Context._turns (Engine.context e') = []
    /\ Context.turn_count (Engine.context e') = 0%Z
    /\ Context._entities (Engine.context e') = []
    /\ Context._topic_stack (Engine.context e') = []
    /\ Context._session_summary (Engine.context e') = PStr ""
    /\ StateTracker.current_state (Engine.state e') = IDLE
    /\ StateSnapshot.exited_at (StateTracker._current (Engine.state e')) = None
    /\ StateTracker._history (Engine.state e')
       = [StateTracker._current (Engine.state e')]
    /\ Engine.gateway e' = Engine.gateway e
    /\ Engine.config e' = Engine.config e.
Proof. intros. cbn. repeat split. Qed.

(** The entities of the old session are gone, whatever they were. *)
Lemma new_session_forgets_entities (uid name : string) (now_ctx now_st : Q)
    (e : ConversationEngine) :
  Context.find_entity name
    (Engine.context (snd (Engine.new_session uid now_ctx now_st e))) = None.
Proof. reflexivity. Qed.

(** ** Failure of the request in [process] *)

Section Recovery.
Variable json_loads : string -> loads_outcome.
Variable py_str : pyval -> string.
Variable BRAIN_SYSTEM_PROMPT : string.

Lemma compress_keeps env e :
  let e' := snd (fst (Engine._maybe_compress_context py_str env e)) in
  Engine.config e' = Engine.config e
  /\ Context._turns (Engine.context e') = Context._turns (Engine.context e)
  /\ Engine.state e' = Engine.state e
  /\ Engine._started e' = Engine._started e
  /\ Engine._processing e' = Engine._processing e.
Proof.
  unfold Engine._maybe_compress_context.
  repeat case_match; cbn; repeat split.
Qed.

(** Steps 1 to 3 record the user turn and touch nothing else of the
    conversation. *)
Lemma prepare_keeps env user_input metadata e :
  let e' := snd (fst (Engine.process_prepare py_str BRAIN_SYSTEM_PROMPT
                        env user_input metadata e)) in
  Engine.config e' = Engine.config e
  /\ Context._turns (Engine.context e')
     = Context._turns (Engine.context e)
       ++ [fst (Context.add_user_turn (fst (Engine.pe_user_turn env))
                  (snd (Engine.pe_user_turn env)) user_input metadata
                  (Engine.context e))]
  /\ Engine.state e' = Engine.state e
  /\ Engine._processing e' = Engine._processing e.
Proof.
  unfold Engine.process_prepare, Context.add_user_turn. cbn zeta iota beta.
  match goal with
  | |- context [Engine._maybe_compress_context py_str env ?E] =>
      set (e1 := E)
  end.
  destruct (_ <? _)%Z.
  - destruct (compress_keeps env e1) as (Hc & Ht & Hs & _ & Hp).
    destruct (Engine._maybe_compress_context py_str env e1) as [[r2 e2] ev2].
    cbn [fst snd] in *. destruct r2; cbn [fst snd];
      (split; [exact Hc|]; split; [rewrite Ht; reflexivity|];
       split; assumption).
  - cbn. repeat split.
Qed.

(** What [process] answers when the request of step 4 fails with a
    timeout or a connection error and the error callback, if any,
    returns: the apology as a well-formed error response, the user turn
    and the apology turn added to the history, the state ledger in
    error_recovery, the callback called with the error, and the
    processing flag down. *)
Lemma process_recovers env user_input metadata stream_callback e
      user_turn payload e3 ev3 x g4 ev4 :
  Engine._started e = true ->
  Engine.process_prepare py_str BRAIN_SYSTEM_PROMPT env user_input metadata
    (Engine.with_processing true e) = (Ok (user_turn, payload), e3, ev3) ->
  Gateway.send (Engine.pe_send env) payload
    (Some (EngineConfig.response_timeout (Engine.config e3)))
    stream_callback (Engine.gateway e3) = (Raise x, g4, ev4) ->
  exn_of x = TimeoutError \/ exn_of x = ConnectionError ->
  on_error_returns (Engine.config e) (reported_for x) ->
  let res := Engine.process json_loads py_str BRAIN_SYSTEM_PROMPT env
               user_input metadata stream_callback e in
  let e' := snd (fst res) in
  fst (fst res) = Ok (BrainResponse.error (apology_for x))
  /\ map Turn.content (Context._turns (Engine.context e'))
     = map Turn.content (Context._turns (Engine.context e))
       ++ [PStr user_input; PStr (apology_for x)]
  /\ StateTracker.current_state (Engine.state e') = ERROR_RECOVERY
  /\ Engine._processing e' = false
  /\ (forall cb, EngineConfig.on_error (Engine.config e) = Some cb ->
                 In (Engine.OnError (reported_for x)) (snd res)).
Proof.
  intros Hst Hprep Hsend Hx Hret res e'. subst res e'.
  destruct (prepare_keeps env user_input metadata
              (Engine.with_processing true e)) as (Hc & Ht & Hs & _).
  rewrite Hprep in Hc, Ht, Hs. cbn [fst snd] in Hc, Ht, Hs.
  unfold Engine.process, Engine.start. rewrite Hst.
  unfold Engine.process_body. rewrite Hprep, Hsend.
  set (e4 := Engine.with_gateway g4 e3).
  assert (Hrec : forall apology reported,
    on_error_returns (Engine.config e) reported ->
    let res := Engine.recover env apology reported e4 in
    fst (fst res) = Ok (BrainResponse.error apology)
    /\ map Turn.content (Context._turns (Engine.context (snd (fst res))))
       = map Turn.content (Context._turns (Engine.context e))
         ++ [PStr user_input; PStr apology]
    /\ StateTracker.current_state (Engine.state (snd (fst res)))
       = ERROR_RECOVERY
    /\ (forall cb, EngineConfig.on_error (Engine.config e) = Some cb ->
                   In (Engine.OnError reported) (snd res))).
  { intros apology reported Hr. unfold Engine.recover, on_error_returns in *.
    cbn zeta. change (Engine.config e4) with (Engine.config e3).
    rewrite Hc. cbn [Engine.with_processing Engine.config].
    destruct (EngineConfig.on_error (Engine.config e)) as [cb|] eqn:Ecb.
    - rewrite Hr. cbn. split; [reflexivity|]. split; [|split; [reflexivity|]].
      + rewrite Ht. cbn. rewrite !map_app. cbn. now rewrite <- app_assoc.
      + intros cb' _. apply in_or_app. right. now left.
    - cbn. split; [reflexivity|]. split; [|split; [reflexivity|]].
      + rewrite Ht. cbn. rewrite !map_app. cbn. now rewrite <- app_assoc.
      + intros cb' H'. discriminate. }
  unfold apology_for, reported_for in *.
  destruct Hx as [Hx|Hx].
  - assert (Hcl : is_class TimeoutError x = true)
      by (unfold is_class; now rewrite Hx).
    rewrite Hcl in *.
    destruct (Hrec Engine.timeout_apology
                (Exn TimeoutError [PStr "Brain timeout"]) Hret)
      as (H1 & H2 & H3 & H4).
    destruct (Engine.recover env Engine.timeout_apology _ e4)
      as [[r e5] ev5]. cbn [fst snd] in *.
    split; [exact H1|]. split; [exact H2|]. split; [exact H3|].
    split; [reflexivity|].
    intros cb Hcb. apply in_or_app. right. apply in_or_app. right.
    eauto.
  - assert (Hcl : is_class TimeoutError x = false)
      by (unfold is_class; now rewrite Hx).
    assert (Hcl' : is_class ConnectionError x = true)
      by (unfold is_class; now rewrite Hx).
    rewrite Hcl, ?Hcl' in *.
    destruct (Hrec Engine.connection_apology x Hret) as (H1 & H2 & H3 & H4).
    destruct (Engine.recover env Engine.connection_apology x e4)
      as [[r e5] ev5]. cbn [fst snd] in *.
    split; [exact H1|]. split; [exact H2|]. split; [exact H3|].
    split; [reflexivity|].
    intros cb Hcb. apply in_or_app. right. apply in_or_app. right.
    eauto.
Qed.
End Recovery.

(** A request that times out on an engine without an error callback. *)
Lemma process_recovers_example :
  let e := sample_engine EngineConfig.default in
  let res := Engine.process json_loads_sample (fun _ => "") "prompt"
               silent_env "Hello?" None None e in
  fst (fst res) = Ok (BrainResponse.error Engine.timeout_apology)
  /\ map Turn.content (Context._turns (Engine.context (snd (fst res))))
     = [PStr "Hello?"; PStr Engine.timeout_apology]
  /\ StateTracker.current_state (Engine.state (snd (fst res)))
     = ERROR_RECOVERY.
Proof.
  intros e res.
  edestruct (process_recovers json_loads_sample (fun _ => "") "prompt"
               silent_env "Hello?" None None e) as (H1 & H2 & H3 & _).
  - reflexivity.
  - reflexivity.
  - reflexivity.
  - left. reflexivity.
  - exact I.
  - split; [exact H1|]. split; [exact H2|exact H3].
Qed.

(** C1 fails when the error callback raises. The request of a started
    engine times out; [process] records the apology turn and the transition
    to error_recovery, calls the error callback, and the exception of the
    callback leaves [process]: the caller gets no response object. The
    response and action callbacks are called under [try ... except
    Exception]; the error callback is not. *)
Theorem raising_error_callback_escapes_process :
  let res := Engine.process json_loads_sample (fun _ => "") "prompt"
               silent_env "Hello?" None None (sample_engine raising_config) in
  let e' := snd (fst res) in
  let prepared :=
    Engine.process_prepare (fun _ => "") "prompt" silent_env "Hello?" None
      (Engine.with_processing true (sample_engine raising_config)) in
  match prepared with
  | (Ok (_, payload), e3, _) =>
      fst (fst (Gateway.send (Engine.pe_send silent_env) payload (Some 60%Q)
                             None (Engine.gateway e3)))
      = Raise (Gateway.timeout_error 60)
  | _ => False
  end
  /\ fst (fst res)
     = Raise (Exn (UserError "ZeroDivisionError") [PStr "division by zero"])
  /\ map Turn.content (Context._turns (Engine.context e'))
     = [PStr "Hello?"; PStr Engine.timeout_apology]
  /\ StateTracker.current_state (Engine.state e') = ERROR_RECOVERY
  /\ In (Engine.OnError (Exn TimeoutError [PStr "Brain timeout"])) (snd res).
Proof.
  vm_compute. repeat split. auto 6.
Qed.

(* ===================================================================== *)
(** * Further properties of the session memory *)
(* ===================================================================== *)

Lemma track_entity_found k c existing :
  Context.find_entity (tc_name k) c = Some existing ->
  Context.track_entity (tc_uid k) (tc_now k) (tc_name k) (tc_type k)
                       (tc_aliases k) (tc_metadata k) c
  = (updated_entity k existing,
     Context.with_entities
       (Registry.set (updated_entity k existing) (Context._entities c)) c).
Proof.
  intros H. unfold Context.track_entity. rewrite H.
  unfold updated_entity. destruct (tc_aliases k), (tc_metadata k); reflexivity.
Qed.

Lemma track_entity_new k c :
  Context.find_entity (tc_name k) c = None ->
  Context.track_entity (tc_uid k) (tc_now k) (tc_name k) (tc_type k)
                       (tc_aliases k) (tc_metadata k) c
  = (new_entity k, apply_call c k).
Proof.
  intros H. unfold apply_call, Context.track_entity. rewrite H. reflexivity.
Qed.

Lemma find_set_new (p : Entity -> bool) e d :
  List.find p d = None -> p e = true ->
  List.find p (Registry.set e d) = Some e.
Proof.
  induction d as [|y d IH]; cbn; intros Hn He.
  - now rewrite He.
  - destruct (p y) eqn:Hy; [discriminate|].
    destruct (Entity.id y =? Entity.id e)%string; cbn.
    + now rewrite He.
    + rewrite Hy. now apply IH.
Qed.

Lemma find_set_found (p : Entity -> bool) e x d :
  List.find p d = Some x -> Entity.id x = Entity.id e -> p e = true ->
  List.find p (Registry.set e d) = Some e.
Proof.
  induction d as [|y d IH]; cbn; intros Hf Hid He; [discriminate|].
  destruct (p y) eqn:Hy.
  - injection Hf as ->. rewrite Hid, String.eqb_refl. cbn. now rewrite He.
  - destruct (Entity.id y =? Entity.id e)%string; cbn.
    + now rewrite He.
    + rewrite Hy. now apply IH.
Qed.

Lemma find_filter {A} (p q : A -> bool) l x :
  List.find p l = Some x -> q x = true ->
  List.find p (List.filter q l) = Some x.
Proof.
  induction l as [|a l IH]; cbn; [discriminate|]. intros Hf Hq.
  destruct (p a) eqn:Hp.
  - injection Hf as ->. rewrite Hq. cbn. now rewrite Hp.
  - destruct (q a); cbn; [rewrite Hp|]; now apply IH.
Qed.

Lemma matches_updated needle k e :
  Context.matches needle e = true ->
  Context.matches needle (updated_entity k e) = true.
Proof.
  unfold Context.matches. cbn. intros H.
  apply orb_true_iff in H as [H|H]; [now rewrite H|].
  apply orb_true_iff. right.
  destruct (tc_aliases k) as [al|]; [|exact H].
  destruct (merge_aliases_extends (Entity.aliases e) al) as [added ->].
  rewrite existsb_app, H. reflexivity.
Qed.

Lemma matches_new k :
  unpadded (tc_name k) ->
  Context.matches (strip (lower (tc_name k))) (new_entity k) = true.
Proof.
  intros Hu. unfold Context.matches. cbn.
  rewrite strip_lower, Hu, String.eqb_refl. reflexivity.
Qed.

(** X1. Within ASCII, where [lower] and [strip] are those of [str], an
    entity handed to [track_entity] under a name without surrounding
    whitespace is what [find_entity] returns for that name afterwards, as
    long as it is still in the registry (a re-mentioned entity always is;
    a new one unless the eviction took it). The call is one that appends
    to no list of aliases: the name is new, or the call brings no alias
    that the entity lacks; lists of aliases that entities share are then
    left as they are. *)
Theorem tracked_entity_is_found (k : track_call) (c : ConversationContext) :
  unpadded (tc_name k) ->
  ascii_call k ->
  ascii_registry c ->
  appends_nothing k c ->
  let e := fst (Context.track_entity (tc_uid k) (tc_now k) (tc_name k)
                  (tc_type k) (tc_aliases k) (tc_metadata k) c) in
  let c' := apply_call c k in
  e ∈ Context._entities c' ->
  Context.find_entity (tc_name k) c' = Some e.
Proof.
  intros Hu _ _ _ e c' Hin. subst e c'.
  destruct (Context.find_entity (tc_name k) c) as [existing|] eqn:Hf.
  - rewrite (apply_call_found _ _ _ Hf), (track_entity_found _ _ _ Hf).
    cbn [fst]. unfold Context.find_entity in *. cbn.
    eapply find_set_found; [exact Hf|reflexivity|].
    apply matches_updated. now apply find_some in Hf as [_ Hf].
  - rewrite (track_entity_new _ _ Hf) in *. cbn [fst] in *.
    rewrite (apply_call_new _ _ Hf) in *. cbn zeta in *.
    unfold Context.find_entity in *.
    pose proof (find_set_new _ (new_entity k) _ Hf (matches_new k Hu)) as Hs.
    destruct (_ <? _)%Z; [|exact Hs].
    unfold Context._evict_stale_entities in *. cbn in Hin |- *.
    rewrite fold_del_without in *. unfold without in *.
    apply find_filter; [exact Hs|].
    apply list_elem_of_In, filter_In in Hin. apply Hin.
Qed.

(** Acme and Clearwater Capital are known, the second also as
    Clearwater. It is mentioned again by its alias in another casing, with
    an alias that it has already: it is found under that name, with one
    more reference. *)
Lemma tracked_entity_is_found_witness :
  let c := run_calls
             [mk_track_call "u1" 1 "Acme" (PStr "company") None None;
              mk_track_call "u2" 2 "Clearwater Capital" (PStr "company")
                            (Some ["Clearwater"]) None]
             (Context.init "s" 0 20 200) in
  let k := mk_track_call "u3" 3 "clearwater" (PStr "company")
                         (Some ["CLEARWATER"]) None in
  let e := fst (Context.track_entity (tc_uid k) (tc_now k) (tc_name k)
                  (tc_type k) (tc_aliases k) (tc_metadata k) c) in
  unpadded (tc_name k)
  /\ ascii_call k
  /\ ascii_registry c
  /\ appends_nothing k c
  /\ e ∈ Context._entities (apply_call c k)
  /\ Entity.canonical_name e = "Clearwater Capital"
  /\ Entity.aliases e = ["Clearwater"]
  /\ Entity.reference_count e = 2%Z
  /\ Context.find_entity "clearwater" (apply_call c k) = Some e.
Proof.
  intros c k e.
  assert (Hu : unpadded (tc_name k)) by reflexivity.
  assert (Ha : ascii_call k).
  { split; [reflexivity|]. intros al H. injection H as <-.
    repeat constructor. }
  assert (Hr : ascii_registry c) by (repeat constructor).
  assert (Hn : appends_nothing k c).
  { intros existing H. vm_compute in H. injection H as <-. reflexivity. }
  assert (Hin : e ∈ Context._entities (apply_call c k))
    by (vm_compute; apply list_elem_of_In; right; left; reflexivity).
  split; [exact Hu|]. split; [exact Ha|]. split; [exact Hr|].
  split; [exact Hn|]. split; [exact Hin|].
  split; [reflexivity|]. split; [reflexivity|]. split; [reflexivity|].
  exact (tracked_entity_is_found k c Hu Ha Hr Hn Hin).
Defined.

(** X2. Mentioning a known entity again keeps its id, canonical name and
    type, counts the mention and stamps it with the time of the call; the
    aliases passed are appended unless one equal up to case is there, the
    metadata passed overrides key by key, and the registry keeps its
    size. *)
Theorem remention_merges (k : track_call) (c : ConversationContext)
    (existing : Entity) :
  Context.find_entity (tc_name k) c = Some existing ->
  let e := fst (Context.track_entity (tc_uid k) (tc_now k) (tc_name k)
                  (tc_type k) (tc_aliases k) (tc_metadata k) c) in
  Entity.id e = Entity.id existing
  /\ Entity.canonical_name e = Entity.canonical_name existing
  /\ Entity.entity_type e = Entity.entity_type existing
  /\ Entity.reference_count e = (Entity.reference_count existing + 1)%Z
  /\ Entity.last_referenced_at e = tc_now k
  /\ (exists added, Entity.aliases e = Entity.aliases existing ++ added)
  /\ (forall al a, tc_aliases k = Some al -> a ∈ al ->
        exists b, b ∈ Entity.aliases e /\ lower b = lower a)
  /\ (NoDup (map lower (Entity.aliases existing)) ->
      NoDup (map lower (Entity.aliases e)))
  /\ (forall md key, tc_metadata k = Some md -> NoDup (map fst md) ->
        PyDict.get key (Entity.metadata e)
        = match PyDict.get key md with
          | Some v => Some v
          | None => PyDict.get key (Entity.metadata existing)
          end)
  /\ (tc_metadata k = None -> Entity.metadata e = Entity.metadata existing)
  /\ length (Context._entities (apply_call c k))
     = length (Context._entities c).
Proof.
  intros Hf e. subst e. rewrite (track_entity_found _ _ _ Hf). cbn [fst].
  cbn. repeat split.
  - destruct (tc_aliases k) as [al|]; [apply merge_aliases_extends|].
    exists []. now rewrite app_nil_r.
  - intros al a -> Ha. apply merge_aliases_covers.
    apply elem_of_app. now right.
  - intros Hnd. destruct (tc_aliases k) as [al|]; [|exact Hnd].
    now apply merge_aliases_unique.
  - intros md key -> Hnd. now apply pydict_get_update.
  - now intros ->.
  - rewrite (apply_call_found _ _ _ Hf). cbn. rewrite registry_set_length.
    rewrite bool_decide_true; [reflexivity|]. cbn.
    apply list_elem_of_fmap. exists existing. split; [reflexivity|].
    eapply find_entity_elem, Hf.
Qed.

Lemma remention_merges_witness :
  let first := mk_track_call "u1" 1 "Marcus" (PStr "person") (Some ["Marc"])
                 (Some [("role", PStr "buyer")]) in
  let c := run_calls [first] (Context.init "s" 0 20 200) in
  let k := mk_track_call "u2" 2 "marc" (PStr "contact")
             (Some ["MARC"; "Mr M"])
             (Some [("role", PStr "champion"); ("city", PStr "Oslo")]) in
  let e := fst (Context.track_entity (tc_uid k) (tc_now k) (tc_name k)
                  (tc_type k) (tc_aliases k) (tc_metadata k) c) in
  Context.find_entity (tc_name k) c = Some (new_entity first)
  /\ Entity.id e = "u1"
  /\ Entity.canonical_name e = "Marcus"
  /\ Entity.entity_type e = PStr "person"
  /\ Entity.reference_count e = 2%Z
  /\ Entity.aliases e = ["Marc"; "Mr M"]
  /\ PyDict.get "role" (Entity.metadata e) = Some (PStr "champion")
  /\ length (Context._entities (apply_call c k)) = 1%nat.
Proof.
  intros first c k e.
  assert (Hf : Context.find_entity (tc_name k) c = Some (new_entity first))
    by reflexivity.
  pose proof (remention_merges k c (new_entity first) Hf)
    as (H1 & H2 & H3 & H4 & _ & _ & _ & _ & _ & _ & H5).
  split; [exact Hf|].
  split; [exact H1|]. split; [exact H2|]. split; [exact H3|].
  split; [exact H4|]. split; [reflexivity|]. split; [reflexivity|exact H5].
Defined.

Lemma registry_set_fresh e d :
  Entity.id e ∉ Registry.ids d -> Registry.set e d = d ++ [e].
Proof.
  induction d as [|y d IH]; cbn; intros Hn; [reflexivity|].
  destruct (String.eqb_spec (Entity.id y) (Entity.id e)) as [Heq|Hne].
  - exfalso. apply Hn. rewrite Heq. apply list_elem_of_here.
  - f_equal. apply IH. intros Hin. apply Hn. now apply list_elem_of_further.
Qed.

Lemma sorted_newcomer {A} (le : A -> A -> bool) x l :
  (forall y, y ∈ l -> le y x = false) ->
  sorted le (l ++ [x]) = x :: sorted le l.
Proof.
  induction l as [|a l IH]; cbn; intros H; [reflexivity|].
  rewrite IH by (intros y Hy; apply H; now apply list_elem_of_further).
  cbn. rewrite (H a) by apply list_elem_of_here. reflexivity.
Qed.

(** X3. When the registry is exactly full and every entity in it has been
    mentioned at least twice, a name that is new is created and evicted in
    the same call: the registry is left as it was, and the name is still
    unknown afterwards. *)
Theorem newcomer_among_veterans_is_evicted (k : track_call)
    (c : ConversationContext) :
  Context.find_entity (tc_name k) c = None ->
  tc_uid k ∉ Registry.ids (Context._entities c) ->
  Z.of_nat (length (Context._entities c)) = Context.max_entities c ->
  (forall e, e ∈ Context._entities c -> (2 <= Entity.reference_count e)%Z) ->
  fst (Context.track_entity (tc_uid k) (tc_now k) (tc_name k) (tc_type k)
         (tc_aliases k) (tc_metadata k) c) = new_entity k
  /\ Context._entities (apply_call c k) = Context._entities c
  /\ Context.find_entity (tc_name k) (apply_call c k) = None.
Proof.
  intros Hf Hfresh Hfull Hvet.
  assert (Hent : Context._entities (apply_call c k) = Context._entities c).
  { rewrite (apply_call_new _ _ Hf). cbn zeta.
    rewrite (registry_set_fresh (new_entity k)) by exact Hfresh.
    cbn [Context._entities Context.with_entities].
    rewrite length_app. cbn [length].
    destruct (Z.ltb_spec (Context.max_entities c)
                (Z.of_nat (length (Context._entities c) + 1))) as [_|Hge];
      [|lia].
    unfold Context._evict_stale_entities, Context.evicted.
    cbn [Context._entities Context.with_entities Context.max_entities].
    rewrite fold_del_without.
    rewrite sorted_newcomer.
    2:{ intros y Hy. specialize (Hvet y Hy). unfold Context.evict_key_le.
        cbn. apply orb_false_iff. split.
        - apply Z.ltb_ge. lia.
        - apply andb_false_iff. left. apply Z.eqb_neq. lia. }
    rewrite length_app. cbn [length].
    rewrite slice_to_take by lia.
    replace (Z.to_nat _) with 1%nat by lia. cbn [take].
    unfold without. cbn [existsb]. rewrite List.filter_app. cbn.
    rewrite String.eqb_refl. cbn. rewrite app_nil_r.
    apply forallb_filter_id. apply forallb_forall. intros y Hy.
    rewrite orb_false_r. apply negb_true_iff.
    apply String.eqb_neq. intros Heq. apply Hfresh. rewrite Heq.
    apply list_elem_of_fmap. exists y. split; [reflexivity|].
    now apply list_elem_of_In. }
  split; [now rewrite (track_entity_new _ _ Hf)|]. split; [exact Hent|].
  unfold Context.find_entity in *. now rewrite Hent.
Qed.

Lemma newcomer_among_veterans_is_evicted_witness :
  let mention i name := mk_track_call name (inject_Z i) name (PStr "company")
                                      None None in
  let c := run_calls [mention 1 "Acme"; mention 2 "Acme"]%Z
                     (Context.init "s" 0 20 1) in
  let k := mention 3%Z "Borealis" in
  Context.find_entity "Borealis" c = None
  /\ map Entity.canonical_name (Context._entities c) = ["Acme"]
  /\ Entity.canonical_name
       (fst (Context.track_entity (tc_uid k) (tc_now k) (tc_name k) (tc_type k)
               (tc_aliases k) (tc_metadata k) c)) = "Borealis"
  /\ Context._entities (apply_call c k) = Context._entities c
  /\ Context.find_entity "Borealis" (apply_call c k) = None.
Proof.
  intros mention c k.
  assert (Hf : Context.find_entity (tc_name k) c = None) by reflexivity.
  assert (Hfresh : tc_uid k ∉ Registry.ids (Context._entities c)).
  { vm_compute. intros H. apply list_elem_of_In in H.
    destruct H as [H|[]]. discriminate H. }
  assert (Hfull : Z.of_nat (length (Context._entities c))
                  = Context.max_entities c) by reflexivity.
  assert (Hvet : forall e, e ∈ Context._entities c ->
                           (2 <= Entity.reference_count e)%Z).
  { intros e He. apply list_elem_of_In in He.
    destruct He as [<-|[]]. vm_compute. discriminate. }
  pose proof (newcomer_among_veterans_is_evicted k c Hf Hfresh Hfull Hvet)
    as (H1 & H2 & H3).
  split; [exact Hf|]. split; [reflexivity|].
  split; [now rewrite H1|]. split; [exact H2|exact H3].
Defined.

Lemma recent_key_le_total a b :
  Context.recent_key_le a b = true \/ Context.recent_key_le b a = true.
Proof.
  unfold Context.recent_key_le.
  destruct (Qlt_le_dec (Entity.last_referenced_at a)
                       (Entity.last_referenced_at b)) as [H|H].
  - right. apply Qle_bool_iff. now apply Qlt_le_weak.
  - left. now apply Qle_bool_iff.
Qed.

Lemma recent_key_le_trans a b c :
  Context.recent_key_le a b = true -> Context.recent_key_le b c = true ->
  Context.recent_key_le a c = true.
Proof.
  unfold Context.recent_key_le. rewrite !Qle_bool_iff. intros H1 H2.
  eapply Qle_trans; eassumption.
Qed.

(** X4. [get_recent_entities] with a limit that is not negative returns at
    most that many entities of the registry, the most recently referenced
    first, and none that it leaves out was referenced later than one it
    returns. *)
Theorem recent_entities_are_the_latest (limit : Z) (c : ConversationContext) :
  (0 <= limit)%Z ->
  let recent := Context.get_recent_entities limit c in
  (Z.of_nat (length recent) <= limit)%Z
  /\ length recent
     = Nat.min (Z.to_nat limit) (length (Context._entities c))
  /\ StronglySorted
       (fun a b => (Entity.last_referenced_at b
                    <= Entity.last_referenced_at a)%Q) recent
  /\ (forall x, x ∈ recent -> x ∈ Context._entities c)
  /\ (forall x y, x ∈ recent -> y ∈ Context._entities c -> y ∉ recent ->
        (Entity.last_referenced_at y <= Entity.last_referenced_at x)%Q).
Proof.
  intros Hl recent. subst recent. unfold Context.get_recent_entities.
  rewrite slice_to_take by exact Hl.
  assert (Hlen : length (take (Z.to_nat limit)
                           (sorted Context.recent_key_le (Context._entities c)))
                 = Nat.min (Z.to_nat limit) (length (Context._entities c))).
  { rewrite length_take.
    now rewrite (Permutation_length (sorted_perm Context.recent_key_le _)). }
  split; [rewrite Hlen; lia|]. split; [exact Hlen|]. split; [|split].
  - eapply strongly_sorted_weaken;
      [|apply (sorted_take_strongly _ recent_key_le_total recent_key_le_trans)].
    intros a b H. now apply Qle_bool_iff.
  - intros x Hx. apply elem_of_take in Hx as (i & Hx & _).
    rewrite <- (sorted_perm Context.recent_key_le).
    eapply list_elem_of_lookup_2, Hx.
  - intros x y Hx Hy Hny.
    apply Qle_bool_iff.
    apply (sorted_take_below _ recent_key_le_total recent_key_le_trans
             (Z.to_nat limit) (Context._entities c) x y Hx).
    rewrite <- (sorted_perm Context.recent_key_le) in Hy.
    rewrite <- (take_drop (Z.to_nat limit)
                  (sorted Context.recent_key_le (Context._entities c))) in Hy.
    apply elem_of_app in Hy as [Hy|Hy]; [contradiction|exact Hy].
Qed.

Lemma recent_entities_are_the_latest_witness :
  let mention i name := mk_track_call name (inject_Z i) name (PStr "company")
                                      None None in
  let c := run_calls [mention 1 "A"; mention 2 "B"; mention 3 "C";
                      mention 4 "A"]%Z
                     (Context.init "s" 0 20 200) in
  let recent := Context.get_recent_entities 2 c in
  (0 <= 2)%Z
  /\ map Entity.canonical_name recent = ["A"; "C"]
  /\ (Z.of_nat (length recent) <= 2)%Z
  /\ (forall x, x ∈ recent -> x ∈ Context._entities c).
Proof.
  intros mention c recent.
  assert (Hl : (0 <= 2)%Z) by lia.
  pose proof (recent_entities_are_the_latest 2 c Hl) as (H1 & _ & _ & H4 & _).
  split; [exact Hl|]. split; [reflexivity|]. split; [exact H1|exact H4].
Defined.

(* ===================================================================== *)
(** * The topic stack and the payload *)
(* ===================================================================== *)

Lemma with_topics_same (c : ConversationContext) :
  Context.with_topics (Context._topic_stack c) c = c.
Proof. now destruct c. Qed.

Lemma push_topic_length topic c :
  (length (Context._topic_stack c) <= 20)%nat ->
  (length (Context._topic_stack (Context.push_topic topic c)) <= 20)%nat.
Proof.
  intros H. unfold Context.push_topic.
  destruct (last (Context._topic_stack c)) as [top|]; [|cbn; lia].
  destruct (py_eq top topic); [exact H|].
  cbn [Context._topic_stack Context.with_topics].
  destruct (Z.ltb_spec 20 (Z.of_nat (length (Context._topic_stack c ++ [topic]))))
    as [Hlt|Hge]; [|lia].
  change (-20)%Z with (Z.opp 20). rewrite slice_from_neg_length by lia. lia.
Qed.

Lemma pop_topic_length c :
  (length (Context._topic_stack (snd (Context.pop_topic c)))
   <= length (Context._topic_stack c))%nat.
Proof.
  unfold Context.pop_topic.
  destruct (last (Context._topic_stack c)) eqn:Hl; cbn; [|lia].
  destruct (Context._topic_stack c) as [|x l] using rev_ind; [discriminate|].
  rewrite removelast_last, length_app. lia.
Qed.

(** X5. The topic stack never holds more than 20 topics, whatever
    sequence of pushes and pops is applied to it. *)
Theorem topic_stack_is_bounded (ops : list topic_op) (c : ConversationContext) :
  (length (Context._topic_stack c) <= 20)%nat ->
  (length (Context._topic_stack (run_topic_ops ops c)) <= 20)%nat.
Proof.
  revert c. induction ops as [|op ops IH]; intros c H; [exact H|].
  cbn. apply IH. destruct op; cbn.
  - now apply push_topic_length.
  - etransitivity; [apply pop_topic_length|exact H].
Qed.

Lemma topic_stack_is_bounded_witness :
  let ops := map (fun i => PushTopic (PInt (Z.of_nat i))) (seq 0 25)
             ++ [PopTopic; PushTopic (PStr "pricing")] in
  let c := Context.init "s" 0 20 200 in
  (length (Context._topic_stack c) <= 20)%nat
  /\ length (Context._topic_stack (run_topic_ops ops c)) = 20%nat
  /\ (length (Context._topic_stack (run_topic_ops ops c)) <= 20)%nat.
Proof.
  intros ops c.
  assert (H : (length (Context._topic_stack c) <= 20)%nat) by (cbn; lia).
  split; [exact H|]. split; [reflexivity|].
  exact (topic_stack_is_bounded ops c H).
Defined.

(** X6. Pushing a topic that differs from the current one makes it the
    current topic. Below the cap of 20 a pop then returns it and restores
    the context; at the cap the push drops the oldest topic. Pushing the
    current topic again changes nothing. *)
Theorem push_topic_then_pop (topic : pyval) (c : ConversationContext) :
  (length (Context._topic_stack c) <= 20)%nat ->
  (forall top, Context.current_topic c = Some top -> py_eq top topic = true ->
     Context.push_topic topic c = c)
  /\ ((forall top, Context.current_topic c = Some top ->
         py_eq top topic = false) ->
      Context.current_topic (Context.push_topic topic c) = Some topic
      /\ Context._topic_stack (Context.push_topic topic c)
         = (if (length (Context._topic_stack c) =? 20)%nat
            then drop 1 (Context._topic_stack c)
            else Context._topic_stack c) ++ [topic]
      /\ ((length (Context._topic_stack c) < 20)%nat ->
          Context.pop_topic (Context.push_topic topic c) = (Some topic, c))).
Proof.
  intros Hlen. unfold Context.current_topic. split.
  - intros top Ht Heq. unfold Context.push_topic. now rewrite Ht, Heq.
  - intros Hne.
    assert (Hst : Context._topic_stack (Context.push_topic topic c)
                  = (if (length (Context._topic_stack c) =? 20)%nat
                     then drop 1 (Context._topic_stack c)
                     else Context._topic_stack c) ++ [topic]).
    { unfold Context.push_topic.
      destruct (last (Context._topic_stack c)) as [top|] eqn:Hl.
      - rewrite (Hne top eq_refl).
        cbn [Context._topic_stack Context.with_topics].
        rewrite length_app. cbn [length].
        destruct (Nat.eqb_spec (length (Context._topic_stack c)) 20) as [He|He].
        + destruct (Z.ltb_spec 20 (Z.of_nat (length (Context._topic_stack c) + 1)))
            as [_|Hge]; [|lia].
          change (-20)%Z with (Z.opp 20). rewrite slice_from_neg_suffix by lia.
          rewrite length_app. cbn [length]. rewrite He.
          replace (20 + 1 - Z.to_nat 20)%nat with 1%nat by lia.
          rewrite drop_app_le by lia. reflexivity.
        + destruct (Z.ltb_spec 20 (Z.of_nat (length (Context._topic_stack c) + 1)))
            as [Hlt|_]; [lia|reflexivity].
      - destruct (Context._topic_stack c) as [|x l] using rev_ind.
        + reflexivity.
        + rewrite last_snoc in Hl. discriminate. }
    split; [rewrite Hst; apply last_snoc|]. split; [exact Hst|].
    intros Hlt.
    destruct (Nat.eqb_spec (length (Context._topic_stack c)) 20) as [He|_];
      [lia|].
    assert (HP : Context.push_topic topic c
                 = Context.with_topics (Context._topic_stack c ++ [topic]) c).
    { rewrite <- Hst. unfold Context.push_topic.
      destruct (last (Context._topic_stack c)) as [top|] eqn:Hl;
        [rewrite (Hne top eq_refl)|]; reflexivity. }
    rewrite HP. unfold Context.pop_topic.
    cbn [Context._topic_stack Context.with_topics].
    rewrite last_snoc, removelast_last. f_equal. now destruct c.
Qed.

Lemma push_topic_then_pop_witness :
  let c := run_topic_ops [PushTopic (PStr "pricing")] (Context.init "s" 0 20 200)
  in
  (length (Context._topic_stack c) <= 20)%nat
  /\ Context.push_topic (PStr "pricing") c = c
  /\ Context.current_topic (Context.push_topic (PStr "renewal") c)
     = Some (PStr "renewal")
  /\ Context.pop_topic (Context.push_topic (PStr "renewal") c)
     = (Some (PStr "renewal"), c).
Proof.
  intros c.
  assert (H : (length (Context._topic_stack c) <= 20)%nat) by (cbn; lia).
  pose proof (push_topic_then_pop (PStr "pricing") c H) as [Hsame _].
  pose proof (push_topic_then_pop (PStr "renewal") c H) as [_ Hnew].
  assert (Hne : forall top, Context.current_topic c = Some top ->
                            py_eq top (PStr "renewal") = false).
  { intros top Ht. injection Ht as <-. reflexivity. }
  destruct (Hnew Hne) as (Hcur & _ & Hpop).
  split; [exact H|]. split; [exact (Hsame (PStr "pricing") eq_refl eq_refl)|].
  split; [exact Hcur|]. apply Hpop. cbn. lia.
Defined.

Lemma slice_from_app_suffix {A} (w : Z) (l : list A) :
  (0 < w)%Z -> exists older, l = older ++ slice_from (- w) l.
Proof.
  intros Hw. rewrite slice_from_neg_suffix by exact Hw.
  exists (take (length l - Z.to_nat w) l). now rewrite take_drop.
Qed.

(** X7. The payload built for the brain is bounded whatever the session
    holds: at most 15 tracked entities and the last 5 topics at most, in
    stack order, the current topic being the last of them; [turn_count]
    counts every turn of the session, and the session age is the time
    since the context was created. *)
Theorem brain_context_is_bounded (now : Q) (c : ConversationContext) :
  let b := Context.get_brain_context now c in
  (length (Context.bc_tracked_entities b) <= 15)%nat
  /\ Context.bc_tracked_entities b
     = map Context.view_entity (Context.get_recent_entities 15 c)
  /\ (length (Context.bc_topic_history b) <= 5)%nat
  /\ (exists older,
        Context._topic_stack c = older ++ Context.bc_topic_history b)
  /\ Context.bc_current_topic b = last (Context.bc_topic_history b)
  /\ Context.bc_turn_count b = Z.of_nat (length (Context._turns c))
  /\ Context.bc_session_age_seconds b = (now - Context._created_at c)%Q
  /\ Context.bc_session_id b = Context.session_id c.
Proof.
  cbn. repeat split.
  - rewrite length_map. unfold Context.get_recent_entities.
    rewrite slice_to_take by lia. rewrite length_take. lia.
  - change (-5)%Z with (Z.opp 5). rewrite slice_from_neg_length by lia. lia.
  - change (-5)%Z with (Z.opp 5). apply slice_from_app_suffix. lia.
  - unfold Context.current_topic.
    destruct (slice_from_app_suffix 5 (Context._topic_stack c)) as [older H];
      [lia|].
    change (-5)%Z with (Z.opp 5).
    destruct (slice_from (Z.opp 5) (Context._topic_stack c)) as [|x l] eqn:Hs
      using rev_ind.
    + rewrite app_nil_r in H.
      assert (Hl : length (slice_from (Z.opp 5) (Context._topic_stack c)) = 0%nat)
        by now rewrite Hs.
      rewrite slice_from_neg_length in Hl by lia.
      destruct (Context._topic_stack c); [reflexivity|cbn in Hl; lia].
    + rewrite H, app_assoc, !last_snoc. reflexivity.
Qed.

(* ===================================================================== *)
(** * The state ledger *)
(* ===================================================================== *)

Lemma set_last_snoc (x y : StateSnapshot) (l : list StateSnapshot) :
  StateTracker.set_last x (l ++ [y]) = l ++ [x].
Proof.
  unfold StateTracker.set_last. rewrite removelast_last.
  now destruct l.
Qed.

Lemma abutting_snoc (l : list StateSnapshot) (a b : StateSnapshot) :
  abutting (l ++ [a]) ->
  StateSnapshot.exited_at a = Some (StateSnapshot.entered_at b) ->
  abutting ((l ++ [a]) ++ [b]).
Proof.
  induction l as [|x l IH]; cbn; intros Hab Ha; [now split|].
  destruct l as [|y l]; cbn in *.
  - destruct Hab as [Hx _]. repeat split; assumption.
  - destruct Hab as [Hx Hab]. split; [exact Hx|]. now apply IH.
Qed.

Lemma abutting_set_last (l : list StateSnapshot) (a : StateSnapshot) (now : Q) :
  abutting (l ++ [a]) -> abutting (l ++ [StateSnapshot.close now a]).
Proof.
  induction l as [|x l IH]; cbn; intros Hab; [exact I|].
  destruct l as [|y l]; cbn in *.
  - destruct Hab as [Hx _]. split; [exact Hx|exact I].
  - destruct Hab as [Hx Hab]. split; [exact Hx|]. now apply IH.
Qed.

Lemma abutting_drop (n : nat) (l : list StateSnapshot) :
  abutting l -> abutting (drop n l).
Proof.
  revert l. induction n as [|n IH]; intros l H; [now rewrite drop_0|].
  destruct l as [|x l]; [exact I|]. cbn. apply IH.
  destruct l; [exact I|]. apply H.
Qed.

Lemma abutting_closed (l : list StateSnapshot) (a x : StateSnapshot) :
  abutting (l ++ [a]) -> x ∈ l -> StateSnapshot.exited_at x <> None.
Proof.
  induction l as [|y l IH]; intros Hab Hx; [now apply not_elem_of_nil in Hx|].
  apply elem_of_cons in Hx as [->|Hx].
  - destruct l; cbn in Hab; destruct Hab as [Hy _]; now rewrite Hy.
  - apply IH; [|exact Hx]. destruct l; [exact I|]. apply Hab.
Qed.

(** The history after a transition, spelled out. *)
Lemma transition_history now new_state trigger metadata s past :
  StateTracker._history s = past ++ [StateTracker._current s] ->
  let snapshot := fst (fst (StateTracker.transition now new_state trigger
                              metadata s)) in
  let s' := snd (fst (StateTracker.transition now new_state trigger
                        metadata s)) in
  let closed := StateSnapshot.close now (StateTracker._current s) in
  StateTracker._current s' = snapshot
  /\ exists n,
       StateTracker._history s' = drop n (past ++ [closed]) ++ [snapshot]
       /\ (length (StateTracker._history s') <= 500)%nat
       /\ (n <= length past)%nat.
Proof.
  intros Hh. cbn. split; [reflexivity|].
  rewrite Hh, set_last_snoc.
  set (closed := StateSnapshot.close now (StateTracker._current s)).
  set (snapshot := StateSnapshot.mk new_state now None trigger _).
  destruct (Z.ltb_spec 500
              (Z.of_nat (length ((past ++ [closed]) ++ [snapshot]))))
    as [Hlt|Hge].
  - change (-500)%Z with (Z.opp 500). rewrite slice_from_neg_suffix by lia.
    rewrite !length_app in *. cbn [length] in *.
    exists (length past + 1 + 1 - Z.to_nat 500)%nat.
    rewrite drop_app_le by (rewrite length_app; cbn; lia).
    split; [reflexivity|]. split; [|lia].
    rewrite length_app, length_drop, length_app. cbn. lia.
  - exists 0%nat. rewrite drop_0. split; [reflexivity|].
    rewrite !length_app in *. cbn [length] in *. lia.
Qed.

Lemma transition_keeps_ledger now new_state trigger metadata s :
  ledger_ok s ->
  ledger_ok (snd (fst (StateTracker.transition now new_state trigger
                         metadata s))).
Proof.
  intros ([past Hh] & Hopen & Hlen & Hab).
  destruct (transition_history now new_state trigger metadata s past Hh)
    as (Hcur & n & Hh' & Hlen' & Hn).
  set (s' := snd (fst (StateTracker.transition now new_state trigger
                         metadata s))) in *.
  unfold ledger_ok. rewrite Hh', Hcur. repeat split.
  - eexists. reflexivity.
  - now rewrite <- Hh'.
  - rewrite Hh in Hab.
    pose proof (abutting_set_last _ _ now Hab) as Hab1.
    pose proof (abutting_snoc past _
                  (fst (fst (StateTracker.transition now new_state trigger
                               metadata s))) Hab1 eq_refl) as Hab2.
    apply (abutting_drop n) in Hab2.
    rewrite drop_app_le in Hab2 by (rewrite length_app; cbn; lia).
    exact Hab2.
Qed.

(** X8. The ledger stays well formed under any sequence of transitions and
    listener registrations, from its creation on: the history ends with
    the current snapshot, which is the only open one; it never holds more
    than 500 snapshots; and each snapshot ends at the instant the next one
    begins. *)
Theorem ledger_is_well_formed (created : Q) (ops : list ledger_op) :
  let s := run_ledger ops (StateTracker.init created) in
  ledger_ok s
  /\ (forall past x,
        StateTracker._history s = past ++ [StateTracker._current s] ->
        x ∈ past -> StateSnapshot.exited_at x <> None).
Proof.
  assert (H : forall s, ledger_ok s -> ledger_ok (run_ledger ops s)).
  { induction ops as [|op ops IH]; intros s Hs; [exact Hs|].
    cbn. apply IH. destruct op; cbn.
    - now apply transition_keeps_ledger.
    - exact Hs. }
  intros s.
  assert (Hok : ledger_ok s).
  { apply H. split; [exists []; reflexivity|]. cbn. repeat split. lia. }
  split; [exact Hok|].
  intros past x Hh Hx. destruct Hok as (_ & _ & _ & Hab).
  rewrite Hh in Hab. eapply abutting_closed; eassumption.
Qed.

(** X9. A transition calls every registered listener once, in the order
    of registration, with the snapshot that was current, now closed at the
    time of the transition, and the new snapshot; the new snapshot is open,
    carries the state asked for and becomes the current one. *)
Theorem transition_notifies_each_listener (now : Q)
    (new_state : ConversationState) (trigger : option string)
    (metadata : option pydict) (s : StateTracker) :
  ledger_ok s ->
  let snapshot := fst (fst (StateTracker.transition now new_state trigger
                              metadata s)) in
  let s' := snd (fst (StateTracker.transition now new_state trigger
                        metadata s)) in
  let evs := snd (StateTracker.transition now new_state trigger metadata s) in
  evs = map (fun l => StateTracker.Notified l
                        (StateSnapshot.close now (StateTracker._current s))
                        snapshot)
            (StateTracker._listeners s)
  /\ StateSnapshot.state snapshot = new_state
  /\ StateSnapshot.entered_at snapshot = now
  /\ StateSnapshot.exited_at snapshot = None
  /\ StateSnapshot.trigger_turn_id snapshot = trigger
  /\ StateTracker.current_state s' = new_state
  /\ StateTracker._listeners s' = StateTracker._listeners s.
Proof.
  intros ([past Hh] & _) snapshot s' evs.
  destruct (transition_history now new_state trigger metadata s past Hh)
    as (_ & n & Hh' & _ & Hn).
  split; [|cbn; repeat split].
  subst evs. unfold StateTracker.transition in *. cbn [fst snd] in *.
  cbn [StateTracker._history] in Hh'. rewrite Hh'.
  rewrite drop_app_le by lia.
  rewrite !rev_app_distr. cbn. reflexivity.
Qed.

Lemma transition_notifies_each_listener_witness :
  let s := run_ledger [Listen 1%nat; Transition 5 GREETING None None;
                       Listen 2%nat]
                      (StateTracker.init 0) in
  let evs := snd (StateTracker.transition 9 QUERYING (Some "t1") None s) in
  ledger_ok s
  /\ map (fun ev => match ev with
                    | StateTracker.Notified l old new =>
                        (l, StateSnapshot.state old, StateSnapshot.exited_at old,
                         StateSnapshot.state new)
                    end) evs
     = [(1%nat, GREETING, Some 9%Q, QUERYING);
        (2%nat, GREETING, Some 9%Q, QUERYING)]
  /\ evs = map (fun l => StateTracker.Notified l
                           (StateSnapshot.close 9 (StateTracker._current s))
                           (fst (fst (StateTracker.transition 9 QUERYING
                                        (Some "t1") None s))))
               (StateTracker._listeners s).
Proof.
  intros s evs.
  assert (Hok : ledger_ok s).
  { split; [exists [StateSnapshot.mk IDLE 0 (Some 5%Q) None []]; reflexivity|].
    split; [reflexivity|]. split; [vm_compute; lia|].
    vm_compute. split; [reflexivity|exact I]. }
  split; [exact Hok|]. split; [reflexivity|].
  exact (proj1 (transition_notifies_each_listener 9 QUERYING (Some "t1") None
                  s Hok)).
Defined.

Lemma state_of_value_value s : state_of_value (PStr (state_value s)) = Some s.
Proof. now destruct s. Qed.

Lemma state_of_value_inv v s :
  state_of_value v = Some s -> v = PStr (state_value s).
Proof.
  intros H. destruct v; try discriminate. unfold state_of_value in H.
  apply find_some in H as [_ H]. apply String.eqb_eq in H. now rewrite H.
Qed.

(** X10. The value of a conversation state names that state and no other:
    [ConversationState(s.value)] is [s], and a value accepted as a state
    is the value of the state returned. *)
Theorem state_value_round_trip :
  (forall s, state_of_value (PStr (state_value s)) = Some s)
  /\ (forall v s, state_of_value v = Some s -> v = PStr (state_value s))
  /\ (forall s s', state_value s = state_value s' -> s = s').
Proof.
  split; [exact state_of_value_value|]. split; [exact state_of_value_inv|].
  intros s s' H. pose proof (state_of_value_value s) as Hs.
  rewrite H, state_of_value_value in Hs. congruence.
Qed.

(* ===================================================================== *)
(** * Further properties of the gateway *)
(* ===================================================================== *)

Lemma future_done_false rid g :
  Gateway.future_done rid g = false -> Gateway.futures g !! rid = Some FPending.
Proof.
  unfold Gateway.future_done.
  destruct (Gateway.futures g !! rid) as [[]|]; cbn; congruence.
Qed.

(** [_dispatch] touches the future of a request only to settle it, and
    only while it is pending; it samples the latency once per settlement. *)
Lemma dispatch_effect now m g :
  let g' := snd (fst (Gateway._dispatch now m g)) in
  let evs := snd (Gateway._dispatch now m g) in
  (forall rid,
     Gateway.futures g' !! rid = Gateway.futures g !! rid
     \/ (Gateway.futures g !! rid = Some FPending
         /\ Gateway.futures g' !! rid = Some (outcome m)))
  /\ Gateway._latency_samples g'
     = (Gateway._latency_samples g + Z.of_nat (settled evs))%Z
  /\ Gateway._ws g' = Gateway._ws g
  /\ Gateway.config g' = Gateway.config g
  /\ Gateway._messages_received g' = Gateway._messages_received g.
Proof.
  unfold Gateway._dispatch, Gateway.lookup_key, outcome.
  repeat case_match; cbn; repeat split; try lia; try (intros rid; now left);
    simplify_eq.
  all: intros rid;
    match goal with
    | |- <[?k := _]> _ !! _ = _ \/ _ =>
        destruct (decide (k = rid)) as [->|N];
          [right|left; now rewrite lookup_insert_ne]
    end.
  all: split; [now apply future_done_false|now rewrite lookup_insert_eq].
Qed.

Lemma read_step_effect f g :
  let g' := fst (Gateway._read_step f g) in
  let evs := snd (Gateway._read_step f g) in
  (forall rid,
     Gateway.futures g' !! rid = Gateway.futures g !! rid
     \/ (Gateway.futures g !! rid = Some FPending
         /\ Gateway.futures g' !! rid = Some (outcome (message_of f))))
  /\ Gateway._latency_samples g'
     = (Gateway._latency_samples g + Z.of_nat (settled evs))%Z
  /\ Gateway._pending g' = Gateway._pending g
  /\ Gateway._stream_callbacks g' = Gateway._stream_callbacks g
  /\ Gateway._ws g' = Gateway._ws g
  /\ Gateway.config g' = Gateway.config g.
Proof.
  unfold Gateway._read_step, message_of.
  destruct (Gateway.reader_running g); cbn [negb];
    [|cbn; repeat split; try lia; now left].
  destruct (Gateway.fr_body f) as [|v];
    [cbn; repeat split; try lia; now left|].
  set (g1 := Gateway.with_metrics _ _ _ _ _ _ g).
  destruct v as [|b|z|q|s|l|m];
    try (cbn; destruct (status_eqb _ _); cbn; repeat split; try lia; now left).
  destruct (dispatch_effect (Gateway.fr_now f) m g1)
    as (Hf & Hl & Hw & Hc & _).
  destruct (dispatch_frame (Gateway.fr_now f) m g1) as (Hp & Hs & _ & _ & _).
  destruct (Gateway._dispatch (Gateway.fr_now f) m g1) as [[r g2] ev].
  cbn [fst snd] in *. destruct r; cbn [fst snd].
  - repeat split; assumption.
  - unfold Gateway.reader_failed. cbn [fst snd].
    repeat split; try assumption.
    change (Gateway._latency_samples (Gateway.with_conn _ _ _ _ _ g2))
      with (Gateway._latency_samples g2).
    rewrite Hl. unfold settled. rewrite List.filter_app, length_app.
    destruct (status_eqb _ _); cbn; lia.
Qed.

(** ** Errors of [send] *)

Lemma awaited_read_step f g rid :
  awaited (Gateway.futures g !! rid) ->
  awaited (Gateway.futures (fst (Gateway._read_step f g)) !! rid).
Proof.
  intros H. destruct (read_step_effect f g) as (Hf & _).
  destruct (Hf rid) as [->|[_ ->]]; [exact H|].
  unfold outcome, awaited. destruct (truthy _); [now right|exact I].
Qed.

Lemma awaited_disconnect g rid :
  awaited (Gateway.futures g !! rid) ->
  awaited (Gateway.futures (fst (Gateway.disconnect g)) !! rid).
Proof.
  intros H. destruct (disconnect_spec g) as (_ & _ & _ & _ & ->).
  rewrite fail_all_pending_lookup.
  destruct (Gateway._pending g !! rid); [|exact H].
  destruct (Gateway.futures g !! rid) as [[]|]; cbn in *; auto.
Qed.

Lemma awaited_wait_all ws rid : forall g,
  awaited (Gateway.futures g !! rid) ->
  awaited (Gateway.futures (fst (Gateway.wait_all ws g)) !! rid).
Proof.
  induction ws as [|w ws IH]; intros g H; [exact H|]. cbn.
  assert (H1 : awaited (Gateway.futures (fst (Gateway.wait_step w g)) !! rid)).
  { destruct w; cbn; [now apply awaited_read_step|now apply awaited_disconnect]. }
  destruct (Gateway.wait_step w g) as [g1 ev1]. cbn [fst] in H1.
  specialize (IH g1 H1). now destruct (Gateway.wait_all ws g1).
Qed.

(** [send] raises what [connect] raises, what [json.dumps] raises for the
    message, the connection error of a transmission on a closed
    connection, or what the awaited future holds. *)
Lemma send_raise_class env payload timeout cb g e :
  fst (fst (Gateway.send env payload timeout cb g)) = Raise e ->
  send_error e
  \/ exists d, Gateway.se_ws_send env = NotSerialisable d /\ e = dumps_exn d.
Proof.
  unfold Gateway.send, send_error.
  set (pre := if status_eqb (Gateway._status g) CONNECTED then _ else _).
  assert (Hpre : forall x, fst (fst pre) = Raise x -> exn_of x = ConnectionError).
  { subst pre. destruct (status_eqb _ _); [discriminate|].
    unfold Gateway.connect. destruct (status_eqb _ _); [discriminate|].
    destruct (Gateway.se_connect env); cbn; [discriminate|].
    intros x Hx. now injection Hx as <-. }
  destruct pre as [[r0 g0] ev0]. cbn [fst] in Hpre.
  destruct r0 as [[]|x];
    [|cbn; intros H; injection H as <-; left; left; now apply Hpre].
  set (g1 := Gateway.with_tables _ _ _ g0).
  unfold Gateway._raw_send.
  destruct (Gateway._ws g1) as [ws|];
    [|cbn; intros H; injection H as <-; left; now left].
  destruct (Gateway.se_ws_send env) as [sent| |d];
    [|cbn; intros H; injection H as <-; left; now left
     |cbn; intros H; injection H as <-; right; now exists d].
  set (g2 := Gateway.with_metrics _ _ _ _ _ _ g1).
  assert (H2 : awaited (Gateway.futures g2 !! Gateway.se_uid env)).
  { cbn. now rewrite lookup_insert_eq. }
  apply (awaited_wait_all (Gateway.se_wait env)) in H2.
  destruct (Gateway.wait_all (Gateway.se_wait env) g2) as [g3 ev3].
  cbn [fst] in H2. unfold Gateway.await_future.
  destruct (Gateway.futures g3 !! Gateway.se_uid env) as [[| |x|]|];
    cbn in *; try contradiction; try discriminate;
    intros H; injection H as <-; cbn; tauto.
Qed.

Lemma dumps_exn_exception d : is_Exception (dumps_exn d) = true.
Proof. now destruct d. Qed.

(** Whatever [send] raises, [except Exception] catches it. *)
Lemma send_raise_exception env payload timeout cb g e :
  fst (fst (Gateway.send env payload timeout cb g)) = Raise e ->
  is_Exception e = true.
Proof.
  intros H. apply send_raise_class in H as [[H|[H|H]]|(d & _ & ->)];
    [unfold is_Exception; now rewrite H..|apply dumps_exn_exception].
Qed.

(** A message that [json.dumps] refuses fails the call with the error of
    [json.dumps], once the connection is there. *)
Lemma send_not_serialisable env payload timeout cb g d :
  can_transmit env g ->
  Gateway.se_ws_send env = NotSerialisable d ->
  fst (fst (Gateway.send env payload timeout cb g)) = Raise (dumps_exn d).
Proof.
  intros Hcan Hd. unfold Gateway.send.
  assert (Hconn : exists g0 ev0 ws,
    (if status_eqb (Gateway._status g) CONNECTED then (Ok tt, g, [])
     else Gateway.connect (Gateway.se_connect env) g) = (Ok tt, g0, ev0)
    /\ Gateway._ws g0 = Some ws).
  { destruct Hcan as [[Hs Hws]|[Hs [ws Hc]]].
    - apply status_eqb_eq in Hs. rewrite Hs.
      destruct (Gateway._ws g) as [ws|] eqn:E; [|congruence].
      eexists _, _, ws. now split.
    - apply status_eqb_neq in Hs. rewrite Hs. unfold Gateway.connect.
      rewrite Hs, Hc. eexists _, _, ws. now split. }
  destruct Hconn as (g0 & ev0 & ws & -> & Hws).
  set (g1 := Gateway.with_tables _ _ _ g0).
  unfold Gateway._raw_send.
  replace (Gateway._ws g1) with (Some ws) by (symmetry; exact Hws).
  now rewrite Hd.
Qed.

(** X11. Whatever the network does and whatever arrives while it waits,
    [send] returns a response or raises one of four errors: a connection
    error, a timeout, the runtime error that wraps an error reported by
    the brain, or the error with which [json.dumps] refuses the message (a
    type error, a value error or a recursion error), which [_raw_send]
    lets through and which does leave [send] once the connection is
    there. Each of them is caught by [except Exception]; in particular the
    caller never sees a cancellation. *)
Theorem send_raises_known_errors (env : Gateway.send_env)
    (payload : pydict) (timeout : option Q) (cb : option nat)
    (g : OpenClawGateway) :
  match fst (fst (Gateway.send env payload timeout cb g)) with
  | Ok _ => True
  | Raise e =>
      (send_error e
       \/ exists d, Gateway.se_ws_send env = NotSerialisable d
                    /\ e = dumps_exn d)
      /\ is_Exception e = true
  end
  /\ (forall d,
        can_transmit env g ->
        Gateway.se_ws_send env = NotSerialisable d ->
        fst (fst (Gateway.send env payload timeout cb g))
        = Raise (dumps_exn d)).
Proof.
  split; [|intros d; apply send_not_serialisable].
  destruct (fst (fst (Gateway.send env payload timeout cb g))) as [m|e] eqn:H;
    [exact I|].
  split; [exact (send_raise_class _ _ _ _ _ _ H)|].
  exact (send_raise_exception _ _ _ _ _ _ H).
Qed.

(* ===================================================================== *)
(** * [connect], and [send] from the transmission on *)
(* ===================================================================== *)

Lemma ws_sends_app evs evs' :
  ws_sends (evs ++ evs') = ws_sends evs ++ ws_sends evs'.
Proof. apply flat_map_app. Qed.

Lemma settled_app evs evs' : settled (evs ++ evs') = (settled evs + settled evs')%nat.
Proof. unfold settled. now rewrite List.filter_app, length_app. Qed.

(** The events of [_set_status] are calls of status listeners. *)
Lemma set_status_events st g :
  let evs := snd (Gateway._set_status st g) in
  ws_sends evs = [] /\ sink_calls evs = [] /\ settled evs = 0%nat
  /\ (forall rid, settlements rid evs = []).
Proof.
  cbn. destruct (status_eqb _ _); [now repeat split|].
  induction (Gateway._status_listeners g) as [|l ls IH]; [now repeat split|].
  exact IH.
Qed.

Lemma events_app_nil {A B} (f : A -> list B) (l l' : list A) :
  flat_map f l = [] -> flat_map f l' = [] -> flat_map f (l ++ l') = [].
Proof. intros H H'. now rewrite flat_map_app, H, H'. Qed.

(** A connection that the network grants. *)
Lemma connect_ok_spec ws g :
  Gateway._status g <> CONNECTED ->
  exists g' evs,
    Gateway.connect (ConnectOk ws) g = (Ok tt, g', evs)
    /\ Gateway._status g' = CONNECTED
    /\ Gateway._ws g' = Some ws
    /\ Gateway._reconnect_attempt g' = 0%Z
    /\ Gateway.reader_running g' = true
    /\ Gateway.config g' = Gateway.config g
    /\ Gateway._pending g' = Gateway._pending g
    /\ Gateway._stream_callbacks g' = Gateway._stream_callbacks g
    /\ Gateway.futures g' = Gateway.futures g
    /\ Gateway._status_listeners g' = Gateway._status_listeners g
    /\ evs = snd (Gateway._set_status CONNECTING g)
             ++ map (fun l => Gateway.StatusListener l CONNECTING CONNECTED)
                    (Gateway._status_listeners g).
Proof.
  intros Hs. apply status_eqb_neq in Hs. unfold Gateway.connect. rewrite Hs.
  cbn. eexists _, _. split; [reflexivity|]. cbn. now repeat split.
Qed.

Lemma status_listener_events old new (ls : list nat) :
  let evs := map (fun l => Gateway.StatusListener l old new) ls in
  ws_sends evs = [] /\ sink_calls evs = [] /\ settled evs = 0%nat
  /\ (forall rid, settlements rid evs = []) /\ sleeps evs = [].
Proof. induction ls as [|l ls IH]; [now repeat split|exact IH]. Qed.

Lemma connect_ok_events ws g :
  let evs := snd (Gateway.connect (ConnectOk ws) g) in
  ws_sends evs = [] /\ sink_calls evs = [] /\ settled evs = 0%nat
  /\ (forall rid, settlements rid evs = []).
Proof.
  destruct (status_eqb (Gateway._status g) CONNECTED) eqn:Hs.
  - unfold Gateway.connect. rewrite Hs. now repeat split.
  - apply status_eqb_neq in Hs.
    destruct (connect_ok_spec ws g Hs) as (g' & evs & -> & H).
    do 9 destruct H as [_ H]. cbn [snd]. subst evs.
    pose proof (set_status_events CONNECTING g) as (H1 & H2 & H3 & H4).
    pose proof (status_listener_events CONNECTING CONNECTED
                  (Gateway._status_listeners g)) as (K1 & K2 & K3 & K4 & _).
    cbv zeta in *.
    repeat split.
    + now apply events_app_nil.
    + now apply events_app_nil.
    + now rewrite settled_app, H3, K3.
    + intros rid. apply events_app_nil; [apply H4|apply K4].
Qed.

(** X12. A granted [connect] from any state but CONNECTED leaves the
    gateway CONNECTED on the new socket with the attempt counter at 0 and
    the reader running, keeps every registration, and tells each status
    listener of CONNECTING (unless that was the status) and then of
    CONNECTED; calling [connect] again is then a no-op whatever the
    network would do. A refused [connect] raises a connection error that
    names the uri and leaves the gateway DISCONNECTED with its socket,
    tasks and registrations as they were. *)
Theorem connect_opens_once (g : OpenClawGateway) :
  Gateway._status g <> CONNECTED ->
  (forall ws,
     let res := Gateway.connect (ConnectOk ws) g in
     let g' := snd (fst res) in
     fst (fst res) = Ok tt
     /\ Gateway._status g' = CONNECTED
     /\ Gateway._ws g' = Some ws
     /\ Gateway._reconnect_attempt g' = 0%Z
     /\ Gateway.reader_running g' = true
     /\ Gateway._pending g' = Gateway._pending g
     /\ Gateway._stream_callbacks g' = Gateway._stream_callbacks g
     /\ Gateway.futures g' = Gateway.futures g
     /\ snd res
        = (if status_eqb (Gateway._status g) CONNECTING then []
           else map (fun l => Gateway.StatusListener l (Gateway._status g)
                                                     CONNECTING)
                    (Gateway._status_listeners g))
          ++ map (fun l => Gateway.StatusListener l CONNECTING CONNECTED)
                 (Gateway._status_listeners g)
     /\ forall o, Gateway.connect o g' = (Ok tt, g', []))
  /\ (let res := Gateway.connect ConnectFails g in
      let g' := snd (fst res) in
      fst (fst res)
      = Raise (Exn ConnectionError
                   [PStr "Cannot reach OpenClaw gateway at ";
                    PStr (GatewayConfig.uri (Gateway.config g))])
      /\ Gateway._status g' = DISCONNECTED
      /\ Gateway._ws g' = Gateway._ws g
      /\ Gateway._reader_task g' = Gateway._reader_task g
      /\ Gateway._reconnect_attempt g' = Gateway._reconnect_attempt g
      /\ Gateway._pending g' = Gateway._pending g
      /\ Gateway.futures g' = Gateway.futures g).
Proof.
  intros Hs. split.
  - intros ws res g'. subst res g'.
    destruct (connect_ok_spec ws g Hs)
      as (g' & evs & -> & H1 & H2 & H3 & H4 & _ & H5 & H6 & H7 & _ & H8).
    cbn [fst snd]. repeat split; try assumption.
    intros o. unfold Gateway.connect. now rewrite H1.
  - apply status_eqb_neq in Hs. unfold Gateway.connect. rewrite Hs. cbn.
    now repeat split.
Qed.

Lemma connect_opens_once_witness :
  let g := Gateway.mk GatewayConfig.default None DISCONNECTED 3 ∅ ∅ [4%nat]
             0 0 None None 0 0 None None ∅ in
  let res := Gateway.connect (ConnectOk 1) g in
  Gateway._status g <> CONNECTED
  /\ fst (fst res) = Ok tt
  /\ Gateway._reconnect_attempt (snd (fst res)) = 0%Z
  /\ snd res = [Gateway.StatusListener 4 DISCONNECTED CONNECTING;
                Gateway.StatusListener 4 CONNECTING CONNECTED]
  /\ Gateway.connect ConnectFails (snd (fst res)) = (Ok tt, snd (fst res), []).
Proof.
  intros g res.
  assert (Hs : Gateway._status g <> CONNECTED) by discriminate.
  destruct (connect_opens_once g Hs) as [Hok _].
  destruct (Hok 1%nat) as (H1 & _ & _ & H4 & _ & _ & _ & _ & H9 & H10).
  split; [exact Hs|]. split; [exact H1|]. split; [exact H4|].
  split; [exact H9|exact (H10 ConnectFails)].
Defined.

(** ** The wait of [send] *)

Lemma wait_all_inbound frames g :
  Gateway.wait_all (map Gateway.Inbound frames) g = Gateway._read_loop frames g.
Proof.
  revert g. induction frames as [|f frames IH]; intros g; [reflexivity|].
  cbn. destruct (Gateway._read_step f g) as [g1 ev1]. now rewrite IH.
Qed.

Lemma dispatch_sends now m g : ws_sends (snd (Gateway._dispatch now m g)) = [].
Proof.
  unfold Gateway._dispatch, Gateway.lookup_key. repeat case_match; reflexivity.
Qed.

Lemma read_step_sends f g : ws_sends (snd (Gateway._read_step f g)) = [].
Proof.
  unfold Gateway._read_step, Gateway.reader_failed.
  destruct (Gateway.reader_running g); [|reflexivity]. cbn [negb].
  destruct (Gateway.fr_body f) as [|v]; [reflexivity|].
  set (g1 := Gateway.with_metrics _ _ _ _ _ _ g).
  destruct v; try (cbn; now destruct (status_eqb _ _)).
  pose proof (dispatch_sends (Gateway.fr_now f) d g1) as H.
  destruct (Gateway._dispatch (Gateway.fr_now f) d g1) as [[r g2] ev].
  cbn [snd] in H. destruct r; cbn [snd]; [exact H|].
  rewrite ws_sends_app, H. now destruct (status_eqb _ _).
Qed.

Lemma disconnect_sends g : ws_sends (snd (Gateway.disconnect g)) = [].
Proof.
  unfold Gateway.disconnect. cbn.
  rewrite ws_sends_app.
  destruct (Gateway._ws g); destruct (status_eqb _ _); cbn;
    try reflexivity;
    apply (status_listener_events (Gateway._status g) DISCONNECTED).
Qed.

(** While [send] waits nothing is transmitted and no stream callback is
    registered or dropped; the pending table changes only when the
    gateway is disconnected. *)
Lemma wait_all_tables ws : forall g,
  let g' := fst (Gateway.wait_all ws g) in
  Gateway._stream_callbacks g' = Gateway._stream_callbacks g
  /\ (~ In Gateway.Disconnect ws -> Gateway._pending g' = Gateway._pending g)
  /\ ws_sends (snd (Gateway.wait_all ws g)) = [].
Proof.
  induction ws as [|w ws IH]; intros g; [cbn; now repeat split|].
  cbn [Gateway.wait_all].
  assert (H1 : Gateway._stream_callbacks (fst (Gateway.wait_step w g))
               = Gateway._stream_callbacks g
               /\ (w <> Gateway.Disconnect ->
                   Gateway._pending (fst (Gateway.wait_step w g))
                   = Gateway._pending g)
               /\ ws_sends (snd (Gateway.wait_step w g)) = []).
  { destruct w as [f|]; cbn [Gateway.wait_step].
    - destruct (read_step_effect f g) as (_ & _ & Hp & Hc & _).
      split; [exact Hc|]. split; [intros _; exact Hp|apply read_step_sends].
    - destruct (disconnect_spec g) as (_ & _ & _ & Hc & _).
      split; [exact Hc|]. split; [congruence|apply disconnect_sends]. }
  destruct (Gateway.wait_step w g) as [g1 ev1]. cbn [fst snd] in H1.
  destruct H1 as (Hc1 & Hp1 & Hs1).
  destruct (IH g1) as (Hc & Hp & Hs).
  destruct (Gateway.wait_all ws g1) as [g2 ev2]. cbn [fst snd] in *.
  split; [congruence|]. split.
  - intros Hn. rewrite Hp, Hp1; [reflexivity| |]; intros H; apply Hn.
    + left. now symmetry.
    + now right.
  - now rewrite ws_sends_app, Hs1, Hs.
Qed.

(** A [send] that transmits its request: the state in which it waits. *)
Lemma send_transmits env payload timeout cb g sent :
  can_transmit env g ->
  (Gateway._status g = CONNECTED -> Gateway.reader_running g = true) ->
  Gateway.se_ws_send env = WsSent sent ->
  let uid := Gateway.se_uid env in
  exists g2 ev2,
    Gateway.futures g2 !! uid = Some FPending
    /\ tracked uid
         (PendingRequest.mk uid (framed uid payload) (Gateway.se_now env)
                            (effective_timeout timeout g))
         (match cb with
          | Some s => Some s
          | None => Gateway._stream_callbacks g !! uid
          end) g2
    /\ ws_sends ev2 = [framed uid payload]
    /\ sink_calls ev2 = []
    /\ settlements uid ev2 = []
    /\ Gateway.send env payload timeout cb g
       = let '(g3, ev3) := Gateway.wait_all (Gateway.se_wait env) g2 in
         let '(r, g4) :=
           Gateway.await_future uid (effective_timeout timeout g) g3 in
         (r,
          Gateway.with_tables (delete uid (Gateway._pending g4))
            (delete uid (Gateway._stream_callbacks g4)) (Gateway.futures g4) g4,
          ev2 ++ ev3).
Proof.
  intros Hcan Hrun Hsent uid. unfold Gateway.send. fold uid.
  assert (Hconn : exists g0 ev0 ws,
    (if status_eqb (Gateway._status g) CONNECTED then (Ok tt, g, [])
     else Gateway.connect (Gateway.se_connect env) g) = (Ok tt, g0, ev0)
    /\ Gateway._ws g0 = Some ws /\ Gateway.config g0 = Gateway.config g
    /\ Gateway.reader_running g0 = true
    /\ Gateway._stream_callbacks g0 = Gateway._stream_callbacks g
    /\ ws_sends ev0 = [] /\ sink_calls ev0 = [] /\ settlements uid ev0 = []).
  { destruct Hcan as [[Hs Hws]|[Hs [ws Hc]]].
    - specialize (Hrun Hs). apply status_eqb_eq in Hs. rewrite Hs.
      destruct (Gateway._ws g) as [ws|] eqn:E; [|congruence].
      eexists _, _, ws. now repeat split.
    - destruct (connect_ok_spec ws g Hs)
        as (g' & evs & He & _ & H2 & _ & H4 & H5 & _ & H6 & _).
      destruct (connect_ok_events ws g) as (K1 & K2 & _ & K4).
      rewrite He in K1, K2, K4. cbn [snd] in K1, K2, K4.
      apply status_eqb_neq in Hs. rewrite Hs, Hc, He.
      eexists _, _, ws. repeat split; try assumption. apply K4. }
  destruct Hconn as (g0 & ev0 & ws & -> & Hws & Hcfg & Hrun0 & Hcb0 & E1 & E2 & E3).
  fold (effective_timeout timeout g0).
  replace (effective_timeout timeout g0) with (effective_timeout timeout g)
    by (unfold effective_timeout; now rewrite Hcfg).
  set (T := effective_timeout timeout g).
  fold (framed uid payload).
  set (g1 := Gateway.with_tables _ _ _ g0).
  unfold Gateway._raw_send.
  replace (Gateway._ws g1) with (Some ws) by (symmetry; exact Hws).
  rewrite Hsent.
  set (g2 := Gateway.with_metrics _ _ _ _ _ _ g1).
  exists g2, (ev0 ++ [Gateway.WsSend ws (framed uid payload)]).
  split; [cbn; apply lookup_insert_eq|].
  split; [|split; [|split; [|split]]].
  - split; [exact Hrun0|]. split; [cbn; apply lookup_insert_eq|].
    cbn. destruct cb; [apply lookup_insert_eq|now rewrite Hcb0].
  - now rewrite ws_sends_app, E1.
  - now rewrite sink_calls_app, E2.
  - now rewrite settlements_app, E3.
  - destruct (Gateway.wait_all (Gateway.se_wait env) g2) as [g3 ev3].
    destruct (Gateway.await_future uid T g3) as [r g4].
    now rewrite <- app_assoc.
Qed.

(** A [send] whose request is answered: the state in which it reads its
    future. *)
Lemma send_settles env payload timeout cb g sent frames f rest :
  can_transmit env g ->
  (Gateway._status g = CONNECTED -> Gateway.reader_running g = true) ->
  (cb = None -> Gateway._stream_callbacks g !! Gateway.se_uid env = None) ->
  Gateway.se_uid env <> "" ->
  Gateway.se_ws_send env = WsSent sent ->
  Gateway.se_wait env = map Gateway.Inbound frames ->
  Forall (refers_to (Gateway.se_uid env)) frames ->
  not_routed cb frames = f :: rest ->
  let uid := Gateway.se_uid env in
  exists g3 evs,
    Gateway.futures g3 !! uid = Some (outcome (message_of f))
    /\ sink_calls evs = routed_chunks cb frames
    /\ settlements uid evs = [outcome (message_of f)]
    /\ ws_sends evs = [framed uid payload]
    /\ Gateway.send env payload timeout cb g
       = let '(r, g4) :=
           Gateway.await_future uid (effective_timeout timeout g) g3 in
         (r,
          Gateway.with_tables (delete uid (Gateway._pending g4))
            (delete uid (Gateway._stream_callbacks g4)) (Gateway.futures g4) g4,
          evs).
Proof.
  intros Hcan Hrun Hcb Hne Hsent Hwait Hall Hnr uid. subst uid.
  destruct (send_transmits env payload timeout cb g sent Hcan Hrun Hsent)
    as (g2 & ev2 & Hf2 & Ht2 & E1 & E2 & E3 & ->).
  set (uid := Gateway.se_uid env) in *.
  assert (Ht : tracked uid
                 (PendingRequest.mk uid (framed uid payload)
                    (Gateway.se_now env) (effective_timeout timeout g))
                 cb g2).
  { destruct cb; [exact Ht2|]. now rewrite (Hcb eq_refl) in Ht2. }
  rewrite Hwait, wait_all_inbound.
  destruct (read_loop_spec uid _ cb Hne frames g2 FPending Ht Hf2 Hall)
    as (g3 & ev3 & Hloop & _ & Hf3 & Hset & Hsink).
  pose proof (wait_all_tables (map Gateway.Inbound frames) g2) as (_ & _ & Hs3).
  rewrite wait_all_inbound, Hloop in Hs3. cbn [snd] in Hs3.
  rewrite Hloop. cbn [done] in Hf3, Hset. rewrite Hnr in Hf3, Hset.
  exists g3, (ev2 ++ ev3).
  split; [exact Hf3|].
  split; [now rewrite sink_calls_app, E2, Hsink|].
  split; [now rewrite settlements_app, E3, Hset|].
  split; [now rewrite ws_sends_app, E1, Hs3|].
  reflexivity.
Qed.

(** X13. [send] returns what the first message settles that carries its
    request id and is not a chunk routed to its sink: that message itself,
    or the runtime error made from its [error] entry. The chunks that
    arrive for the request are handed to the sink, in order, the future is
    settled once, and one frame is transmitted. *)
Theorem send_returns_first_settlement (env : Gateway.send_env)
    (payload : pydict) (timeout : option Q) (cb : option nat)
    (g : OpenClawGateway) (sent : Q) (frames : list Gateway.frame)
    (f : Gateway.frame) (rest : list Gateway.frame) :
  can_transmit env g ->
  (Gateway._status g = CONNECTED -> Gateway.reader_running g = true) ->
  (cb = None -> Gateway._stream_callbacks g !! Gateway.se_uid env = None) ->
  Gateway.se_uid env <> "" ->
  Gateway.se_ws_send env = WsSent sent ->
  Gateway.se_wait env = map Gateway.Inbound frames ->
  Forall (refers_to (Gateway.se_uid env)) frames ->
  not_routed cb frames = f :: rest ->
  let res := Gateway.send env payload timeout cb g in
  fst (fst res)
  = (if truthy (get_or_none "error" (message_of f))
     then Raise (Gateway.brain_error (get_or_none "error" (message_of f)))
     else Ok (message_of f))
  /\ sink_calls (snd res) = routed_chunks cb frames
  /\ settlements (Gateway.se_uid env) (snd res) = [outcome (message_of f)]
  /\ ws_sends (snd res) = [framed (Gateway.se_uid env) payload].
Proof.
  intros Hcan Hrun Hcb Hne Hsent Hwait Hall Hnr res. subst res.
  destruct (send_settles env payload timeout cb g sent frames f rest
              Hcan Hrun Hcb Hne Hsent Hwait Hall Hnr)
    as (g3 & evs & Hf3 & Hsink & Hset & Hws & ->).
  unfold outcome in Hf3 at 1. unfold Gateway.await_future.
  destruct (truthy (get_or_none "error" (message_of f)));
    rewrite Hf3; cbn [fst snd];
    (split; [reflexivity|]); repeat split; assumption.
Qed.

Lemma send_returns_first_settlement_witness :
  let chunk s := [("type", PStr "stream_chunk"); ("request_id", PStr "r2");
                  ("content", PStr s)] in
  let failure := [("request_id", PStr "r2"); ("error", PStr "overloaded")] in
  let late := [("request_id", PStr "r2"); ("content", PStr "Hello")] in
  let frames := [sample_frame 202 (chunk "Hel"); sample_frame 203 failure;
                 sample_frame 204 late] in
  let env := Gateway.mk_send_env ConnectFails "r2" 200 (WsSent 201)
               (map Gateway.Inbound frames) in
  let res := Gateway.send env [("user_message", PStr "hi")] None (Some 9%nat)
                          sample_gateway in
  can_transmit env sample_gateway
  /\ Forall (refers_to "r2") frames
  /\ not_routed (Some 9%nat) frames
     = [sample_frame 203 failure; sample_frame 204 late]
  /\ fst (fst res) = Raise (Gateway.brain_error (PStr "overloaded"))
  /\ sink_calls (snd res) = [(9%nat, PStr "Hel")]
  /\ settlements "r2" (snd res)
     = [FException (Gateway.brain_error (PStr "overloaded"))].
Proof.
  intros chunk failure late frames env res.
  assert (Hcan : can_transmit env sample_gateway)
    by (left; split; [reflexivity|discriminate]).
  assert (Hall : Forall (refers_to "r2") frames).
  { repeat constructor; eexists; split; reflexivity. }
  assert (Hnr : not_routed (Some 9%nat) frames
                = [sample_frame 203 failure; sample_frame 204 late])
    by reflexivity.
  assert (Hne : Gateway.se_uid env <> "") by discriminate.
  pose proof (send_returns_first_settlement env [("user_message", PStr "hi")]
                None (Some 9%nat) sample_gateway 201 frames _ _ Hcan
                (fun _ => eq_refl) (fun H => ltac:(discriminate H)) Hne
                eq_refl eq_refl Hall Hnr) as (H1 & H2 & H3 & _).
  split; [exact Hcan|]. split; [exact Hall|]. split; [exact Hnr|].
  split; [exact H1|]. split; [exact H2|exact H3].
Defined.



(** X15. The one message that a transmitting [send] puts on the wire is
    the payload with two entries in front: the request id drawn for the
    call and the type [conversation]. Every entry of the payload is sent
    as given, so a payload that has a [request_id] or a [type] of its own
    overrides the one of [send]. *)
Theorem transmitted_frame_carries_request_id (env : Gateway.send_env)
    (payload : pydict) (timeout : option Q) (cb : option nat)
    (g : OpenClawGateway) (sent : Q) :
  can_transmit env g ->
  Gateway.se_ws_send env = WsSent sent ->
  NoDup (map fst payload) ->
  let message := framed (Gateway.se_uid env) payload in
  ws_sends (snd (Gateway.send env payload timeout cb g)) = [message]
  /\ PyDict.get "request_id" message
     = Some (match PyDict.get "request_id" payload with
             | Some v => v
             | None => PStr (Gateway.se_uid env)
             end)
  /\ PyDict.get "type" message
     = Some (match PyDict.get "type" payload with
             | Some v => v
             | None => PStr "conversation"
             end)
  /\ (forall k v, PyDict.get k payload = Some v ->
                  PyDict.get k message = Some v).
Proof.
  intros Hcan Hsent Hnd message.
  split.
  - unfold Gateway.send.
    assert (Hconn : exists g0 ev0 ws,
      (if status_eqb (Gateway._status g) CONNECTED then (Ok tt, g, [])
       else Gateway.connect (Gateway.se_connect env) g) = (Ok tt, g0, ev0)
      /\ Gateway._ws g0 = Some ws /\ ws_sends ev0 = []).
    { destruct Hcan as [[Hs Hws]|[Hs [ws Hc]]].
      - apply status_eqb_eq in Hs. rewrite Hs.
        destruct (Gateway._ws g) as [ws|] eqn:E; [|congruence].
        eexists _, _, ws. now repeat split.
      - destruct (connect_ok_spec ws g Hs) as (g' & evs & He & _ & H2 & _).
        destruct (connect_ok_events ws g) as (K1 & _).
        rewrite He in K1. cbn [snd] in K1.
        apply status_eqb_neq in Hs. rewrite Hs, Hc, He.
        eexists _, _, ws. now repeat split. }
    destruct Hconn as (g0 & ev0 & ws & -> & Hws & E0).
    fold (framed (Gateway.se_uid env) payload). fold message.
    set (g1 := Gateway.with_tables _ _ _ g0).
    unfold Gateway._raw_send.
    replace (Gateway._ws g1) with (Some ws) by (symmetry; exact Hws).
    rewrite Hsent.
    set (g2' := Gateway.with_metrics _ _ _ _ _ _ g1).
    destruct (wait_all_tables (Gateway.se_wait env) g2') as (_ & _ & Hs3).
    destruct (Gateway.wait_all (Gateway.se_wait env) g2') as [g3 ev3].
    destruct (Gateway.await_future _ _ g3) as [r g4]. cbn [snd] in *.
    now rewrite !ws_sends_app, E0, Hs3.
  - subst message. unfold framed. rewrite !pydict_get_update by exact Hnd.
    split; [now destruct (PyDict.get "request_id" payload)|].
    split; [now destruct (PyDict.get "type" payload)|].
    intros k v Hk. now rewrite pydict_get_update, Hk by exact Hnd.
Qed.

Lemma transmitted_frame_carries_request_id_witness :
  let env := Gateway.mk_send_env ConnectFails "r2" 200 (WsSent 201) [] in
  let payload := [("user_message", PStr "hi"); ("request_id", PStr "mine")] in
  can_transmit env sample_gateway
  /\ NoDup (map fst payload)
  /\ ws_sends (snd (Gateway.send env payload None None sample_gateway))
     = [[("request_id", PStr "mine"); ("type", PStr "conversation");
         ("user_message", PStr "hi")]]
  /\ PyDict.get "request_id" (framed "r2" payload) = Some (PStr "mine").
Proof.
  intros env payload.
  assert (Hcan : can_transmit env sample_gateway)
    by (left; split; [reflexivity|discriminate]).
  assert (Hnd : NoDup (map fst payload)).
  { apply NoDup_ListNoDup. repeat constructor; cbn; intuition discriminate. }
  destruct (transmitted_frame_carries_request_id env payload None None
              sample_gateway 201 Hcan eq_refl Hnd) as (H1 & H2 & _).
  split; [exact Hcan|]. split; [exact Hnd|]. split; [exact H1|exact H2].
Defined.

(* ===================================================================== *)
(** * The reader, [disconnect] and [_reconnect] *)
(* ===================================================================== *)

Lemma read_step_unsolicited f g :
  Gateway.reader_running g = true -> unknown_id g f ->
  exists t,
    Gateway._read_step f g
    = (Gateway.with_metrics (Gateway._messages_sent g)
         (Gateway._messages_received g + 1) (Gateway._last_send_at g)
         (Some (Gateway.fr_recv_at f)) (Gateway._total_latency g)
         (Gateway._latency_samples g) g,
       [Gateway.Unsolicited t]).
Proof.
  intros Hrun (m & Hbody & Hid). unfold Gateway._read_step.
  rewrite Hrun, Hbody. cbn [negb].
  exists (get_or "type" (PStr "response") m).
  unfold Gateway._dispatch, Gateway.lookup_key.
  destruct (get_or_none "request_id" m) as [|b|z|q|s|l|d];
    try contradiction;
    try (destruct (eq_str _ _); destruct (truthy _); reflexivity).
  destruct Hid as [Hp Hc]. cbn [Gateway._stream_callbacks Gateway._pending
                                Gateway.with_metrics].
  rewrite Hp, Hc. destruct (eq_str _ _); destruct (truthy _); reflexivity.
Qed.

(** X16. Messages whose request id names no request of the gateway (a
    push notification, a reply that comes after its request was dropped)
    are counted as received and otherwise ignored: no future is touched,
    no sink is called, no table changes and the reader keeps running. *)
Theorem unsolicited_frames_change_nothing (frames : list Gateway.frame)
    (g : OpenClawGateway) :
  Gateway.reader_running g = true ->
  Forall (unknown_id g) frames ->
  let g' := fst (Gateway._read_loop frames g) in
  let evs := snd (Gateway._read_loop frames g) in
  Gateway.futures g' = Gateway.futures g
  /\ Gateway._pending g' = Gateway._pending g
  /\ Gateway._stream_callbacks g' = Gateway._stream_callbacks g
  /\ Gateway.reader_running g' = true
  /\ Gateway._messages_received g'
     = (Gateway._messages_received g + Z.of_nat (length frames))%Z
  /\ Gateway._latency_samples g' = Gateway._latency_samples g
  /\ settled evs = 0%nat
  /\ sink_calls evs = []
  /\ length evs = length frames
  /\ Forall (fun ev => exists t, ev = Gateway.Unsolicited t) evs.
Proof.
  revert g. induction frames as [|f frames IH]; intros g Hrun Hall.
  - cbn. repeat split; try lia; try assumption. constructor.
  - apply Forall_cons in Hall as [Hf Hall].
    destruct (read_step_unsolicited f g Hrun Hf) as [t Hstep].
    cbn [Gateway._read_loop]. rewrite Hstep.
    set (g1 := Gateway.with_metrics _ _ _ _ _ _ g).
    assert (Hall1 : Forall (unknown_id g1) frames) by exact Hall.
    destruct (IH g1 Hrun Hall1)
      as (H1 & H2 & H3 & H4 & H5 & H6 & H7 & H8 & H9 & H10).
    destruct (Gateway._read_loop frames g1) as [g2 ev2]. cbn [fst snd] in *.
    split; [exact H1|]. split; [exact H2|]. split; [exact H3|].
    split; [exact H4|]. split; [rewrite H5; cbn; lia|].
    split; [exact H6|]. split; [exact H7|]. split; [exact H8|].
    split; [cbn; now rewrite H9|].
    constructor; [now exists t|exact H10].
Qed.

Lemma unsolicited_frames_change_nothing_witness :
  let push := [("type", PStr "notification"); ("content", PStr "ping")] in
  let stale := [("request_id", PStr "r0"); ("content", PStr "late reply")] in
  let frames := [sample_frame 101 push; sample_frame 102 stale] in
  let g' := fst (Gateway._read_loop frames sample_gateway) in
  Gateway.reader_running sample_gateway = true
  /\ Forall (unknown_id sample_gateway) frames
  /\ Gateway.futures g' = Gateway.futures sample_gateway
  /\ Gateway._messages_received g' = 2%Z
  /\ snd (Gateway._read_loop frames sample_gateway)
     = [Gateway.Unsolicited (PStr "notification");
        Gateway.Unsolicited (PStr "response")].
Proof.
  intros push stale frames g'.
  assert (Hrun : Gateway.reader_running sample_gateway = true) by reflexivity.
  assert (Hall : Forall (unknown_id sample_gateway) frames).
  { repeat constructor.
    - exists push. split; [reflexivity|exact I].
    - exists stale. split; [reflexivity|]. split; reflexivity. }
  destruct (unsolicited_frames_change_nothing frames sample_gateway Hrun Hall)
    as (H1 & _ & _ & _ & H5 & _).
  split; [exact Hrun|]. split; [exact Hall|]. split; [exact H1|].
  split; [exact H5|reflexivity].
Defined.

(** X17. Whatever frames the reader is given, it samples the latency once
    for each future it settles and never else, and a future that is
    already settled keeps its value. *)
Theorem reader_settles_pending_futures_only (frames : list Gateway.frame)
    (g : OpenClawGateway) :
  let g' := fst (Gateway._read_loop frames g) in
  let evs := snd (Gateway._read_loop frames g) in
  Gateway._latency_samples g'
  = (Gateway._latency_samples g + Z.of_nat (settled evs))%Z
  /\ (forall rid f, Gateway.futures g !! rid = Some f -> done f = true ->
        Gateway.futures g' !! rid = Some f)
  /\ (forall rid, Gateway.futures g !! rid = None ->
        Gateway.futures g' !! rid = None)
  /\ Gateway._pending g' = Gateway._pending g
  /\ Gateway._stream_callbacks g' = Gateway._stream_callbacks g.
Proof.
  revert g. induction frames as [|f frames IH]; intros g.
  - cbn. repeat split; try lia; auto.
  - cbn [Gateway._read_loop].
    destruct (read_step_effect f g) as (Hf & Hl & Hp & Hc & _).
    destruct (Gateway._read_step f g) as [g1 ev1]. cbn [fst snd] in *.
    destruct (IH g1) as (Hl' & Hd' & Hn' & Hp' & Hc').
    destruct (Gateway._read_loop frames g1) as [g2 ev2]. cbn [fst snd] in *.
    repeat split.
    + rewrite Hl', Hl, settled_app. lia.
    + intros rid fs Hfs Hdone. apply Hd'; [|exact Hdone].
      destruct (Hf rid) as [->|[Hpend _]]; [exact Hfs|].
      rewrite Hpend in Hfs. injection Hfs as <-. discriminate.
    + intros rid Hnone. apply Hn'.
      destruct (Hf rid) as [->|[Hpend _]]; [exact Hnone|congruence].
    + congruence.
    + congruence.
Qed.

(** ** [disconnect] *)

Lemma cancel_task_idem tk :
  Gateway.cancel_task (Gateway.cancel_task tk) = Gateway.cancel_task tk.
Proof. now destruct tk as [[]|]. Qed.

Lemma fail_all_pending_empty e g :
  Gateway._pending g = ∅ -> Gateway.fail_all_pending e g = Gateway.futures g.
Proof.
  intros H. unfold Gateway.fail_all_pending. rewrite H. apply map_fold_empty.
Qed.

Lemma disconnect_idem g :
  Gateway.disconnect (fst (Gateway.disconnect g)) = (fst (Gateway.disconnect g), []).
Proof.
  destruct (disconnect_spec g) as (Hp & Hs & Hw & _ & _).
  unfold Gateway.disconnect at 1.
  rewrite Hw. cbn [app].
  set (g' := fst (Gateway.disconnect g)) in *.
  rewrite (fail_all_pending_empty _ g' Hp).
  unfold Gateway._set_status. cbn [Gateway._status Gateway.with_status
    Gateway.with_tables Gateway.with_conn].
  rewrite Hs. cbn [status_eqb]. f_equal.
  subst g'. cbn. rewrite !cancel_task_idem. reflexivity.
Qed.

(** X18. [disconnect] fails the futures of pending requests only while
    they are not settled: a settled future and a future that belongs to
    no pending request keep their state. It stops the reader, and a second
    [disconnect] changes nothing and notifies no one. *)
Theorem disconnect_spares_settled_futures (g : OpenClawGateway) :
  let g' := fst (Gateway.disconnect g) in
  (forall rid f, Gateway.futures g !! rid = Some f -> done f = true ->
     Gateway.futures g' !! rid = Some f)
  /\ (forall rid, Gateway._pending g !! rid = None ->
        Gateway.futures g' !! rid = Gateway.futures g !! rid)
  /\ Gateway.reader_running g' = false
  /\ Gateway.disconnect g' = (g', []).
Proof.
  cbn zeta. destruct (disconnect_spec g) as (Hp & Hs & Hw & Hc & Hf).
  repeat split.
  - intros rid f Hrid Hdone. rewrite Hf, fail_all_pending_lookup, Hrid.
    destruct (Gateway._pending g !! rid); [|reflexivity].
    cbn. unfold Gateway.fail_future. now rewrite Hdone.
  - intros rid Hrid. now rewrite Hf, fail_all_pending_lookup, Hrid.
  - cbn. unfold Gateway.reader_running. cbn.
    now destruct (Gateway._reader_task g) as [[]|].
  - apply disconnect_idem.
Qed.

(** ** [_reconnect] *)

Lemma reconnect_delay_capped c n d :
  Gateway.reconnect_delay c n = Ok d ->
  (d <= GatewayConfig.reconnect_delay_max c)%Q.
Proof.
  unfold Gateway.reconnect_delay.
  destruct (_ <? 0)%Z; [|destruct (_ <? 1024)%Z; [|discriminate]];
    intros H; injection H as <-; apply Q.le_min_r.
Qed.

(** X19. However a reconnection goes, every pause it makes before an
    attempt is the delay computed for that attempt and is never longer
    than the configured maximum. *)
Theorem reconnect_pauses_are_capped (script : list Gateway.attempt_env)
    (g : OpenClawGateway) :
  Forall (fun nd =>
            Gateway.reconnect_delay (Gateway.config g) (fst nd) = Ok (snd nd)
            /\ (snd nd <= GatewayConfig.reconnect_delay_max (Gateway.config g))%Q)
         (sleeps (snd (Gateway._reconnect script g))).
Proof.
  unfold Gateway._reconnect.
  destruct (Gateway._set_status RECONNECTING g) as [g1 ev1] eqn:Hs.
  assert (Hc : Gateway.config g1 = Gateway.config g)
    by (injection Hs as <- _; reflexivity).
  assert (He : sleeps ev1 = []).
  { injection Hs as _ <-. destruct (status_eqb _ _); [reflexivity|].
    apply sleeps_status_listeners. }
  destruct (reconnect_loop_spec script g1) as [Hall _].
  destruct (Gateway._reconnect_loop script g1) as [[r g2] ev2].
  cbn [fst snd] in *. rewrite sleeps_app, He. cbn [app].
  rewrite Hc in Hall. eapply List.Forall_impl; [|exact Hall].
  intros [n d] H. cbn [fst snd] in *. split; [exact H|].
  eapply reconnect_delay_capped, H.
Qed.

Lemma resend_spec now sent ws reqs : forall g,
  Gateway._ws g = Some ws ->
  exists g' evs,
    Gateway.resend now (WsSent sent) reqs g = (Ok tt, g', evs)
    /\ ws_sends evs
       = map (fun kv => PendingRequest.payload (snd kv))
             (List.filter (still_waiting now g) reqs)
    /\ sleeps evs = []
    /\ Gateway._ws g' = Some ws.
Proof.
  induction reqs as [|[rid req] reqs IH]; intros g Hws.
  - exists g, []. cbn. now repeat split.
  - cbn [Gateway.resend List.filter]. unfold still_waiting at 1 3.
    cbn [fst snd].
    destruct (negb (Qle_bool _ _) && negb (Gateway.future_done rid g)) eqn:Hw.
    + unfold Gateway._raw_send. rewrite Hws.
      set (g1 := Gateway.with_metrics _ _ _ _ _ _ g).
      destruct (IH g1 Hws) as (g' & evs & -> & H1 & H2 & H3).
      exists g', ([Gateway.WsSend ws (PendingRequest.payload req)] ++ evs).
      split; [reflexivity|].
      split; [rewrite ws_sends_app, H1; reflexivity|].
      split; [exact H2|exact H3].
    + destruct (IH g Hws) as (g' & evs & -> & H1 & H2 & H3).
      exists g', evs. now repeat split.
Qed.

(** X20. A reconnection whose first attempt is granted ends there: the
    gateway is CONNECTED on the new socket with the attempt counter back
    at 0, no request is dropped and no future touched, it has paused once
    for the delay of that attempt, and it has sent again exactly the
    pending requests that are neither timed out nor settled (in the order
    in which it visits its table). *)
Theorem reconnect_resends_waiting_requests (g : OpenClawGateway)
    (a : Gateway.attempt_env) (script : list Gateway.attempt_env)
    (ws : nat) (sent : Q) :
  let n := (Gateway._reconnect_attempt g + 1)%Z in
  let max_attempts := GatewayConfig.reconnect_max_attempts (Gateway.config g) in
  Gateway.ae_connect a = ConnectOk ws ->
  Gateway.ae_resend a = WsSent sent ->
  (1 <= n <= 1024)%Z ->
  (max_attempts <= 0 \/ n <= max_attempts)%Z ->
  let res := Gateway._reconnect (a :: script) g in
  let g' := snd (fst res) in
  fst (fst res) = Gateway.Reconnected
  /\ Gateway._status g' = CONNECTED
  /\ Gateway._ws g' = Some ws
  /\ Gateway._reconnect_attempt g' = 0%Z
  /\ Gateway._pending g' = Gateway._pending g
  /\ Gateway.futures g' = Gateway.futures g
  /\ sleeps (snd res)
     = [(n, Qmin (GatewayConfig.reconnect_delay_base (Gateway.config g)
                  * inject_Z (2 ^ (n - 1)))
                 (GatewayConfig.reconnect_delay_max (Gateway.config g)))]
  /\ ws_sends (snd res)
     ≡ₚ map (fun kv => PendingRequest.payload (snd kv))
            (List.filter (still_waiting (Gateway.ae_now a) g)
                         (map_to_list (Gateway._pending g))).
Proof.
  intros n max_attempts Hconn Hsend Hn Hmax res g'. subst res g'.
  unfold Gateway._reconnect.
  destruct (Gateway._set_status RECONNECTING g) as [g1 ev1] eqn:Hs1.
  assert (Hg1 : g1 = Gateway.with_status RECONNECTING g)
    by (injection Hs1 as <- _; reflexivity).
  assert (He1 : sleeps ev1 = [] /\ ws_sends ev1 = []).
  { pose proof (set_status_events RECONNECTING g) as (K1 & _).
    rewrite Hs1 in K1. cbn [snd] in K1. split; [|exact K1].
    injection Hs1 as _ <-. destruct (status_eqb _ _); [reflexivity|].
    apply sleeps_status_listeners. }
  destruct He1 as [He1 He1'].
  rewrite reconnect_loop_unfold. cbn zeta.
  set (g2 := Gateway.with_attempt (Gateway._reconnect_attempt g1 + 1) g1).
  assert (Hatt : Gateway._reconnect_attempt g2 = n) by (subst g2 g1; reflexivity).
  assert (Hcfg : Gateway.config g2 = Gateway.config g) by (subst g2 g1; reflexivity).
  assert (Hp2 : Gateway._pending g2 = Gateway._pending g) by (subst g2 g1; reflexivity).
  assert (Hf2 : Gateway.futures g2 = Gateway.futures g) by (subst g2 g1; reflexivity).
  rewrite Hatt, Hcfg. fold max_attempts.
  replace ((0 <? max_attempts)%Z && (max_attempts <? n)%Z) with false.
  2:{ symmetry. apply andb_false_iff. destruct Hmax as [H|H].
      - left. apply Z.ltb_ge. lia.
      - right. apply Z.ltb_ge. lia. }
  rewrite reconnect_delay_formula by exact Hn.
  rewrite Hconn.
  assert (Hst2 : Gateway._status g2 <> CONNECTED) by (subst g2 g1; discriminate).
  pose proof (connect_ok_events ws g2) as (K1 & _).
  destruct (connect_keeps (ConnectOk ws) g2) as (_ & _ & _ & K2).
  destruct (connect_ok_spec ws g2 Hst2)
    as (g3 & ev3 & Hc3 & H1 & H2 & H3 & _ & _ & H6 & _ & H8 & _).
  rewrite Hc3 in K1, K2 |- *. cbn [snd] in K1, K2.
  rewrite Hsend.
  destruct (resend_spec (Gateway.ae_now a) sent ws
              (map_to_list (Gateway._pending g3)) g3 H2)
    as (g4 & ev4 & Hr & R1 & R2 & R3).
  destruct (resend_keeps (Gateway.ae_now a) (WsSent sent)
              (map_to_list (Gateway._pending g3)) g3)
    as (_ & Q2 & Q3 & Q4 & Q5 & _).
  rewrite Hr in Q2, Q3, Q4, Q5 |- *. cbn [fst snd] in *.
  split; [reflexivity|]. split; [congruence|]. split; [exact R3|].
  split; [congruence|]. split; [congruence|]. split; [congruence|]. split.
  - rewrite !sleeps_app, He1, K2, R2. reflexivity.
  - rewrite !ws_sends_app, He1', K1, R1. cbn [app ws_sends flat_map].
    rewrite H6, Hp2.
    match goal with |- ?l ≡ₚ ?r => replace l with r; [reflexivity|] end.
    f_equal. apply filter_ext. intros [rid req].
    unfold still_waiting, Gateway.future_done. cbn [fst snd].
    now rewrite H8, Hf2.
Qed.

Lemma reconnect_resends_waiting_requests_witness :
  let stale := PendingRequest.mk "r0" [("request_id", PStr "r0")] 10 60 in
  let g := Gateway.mk GatewayConfig.default (Some 1%nat) CONNECTED 0
             {[ "r0" := stale; "r1" := sample_request ]} ∅ [] 2 0
             (Some 100%Q) None 0 0 (Some TaskDone) (Some TaskRunning)
             {[ "r0" := FPending; "r1" := FPending ]} in
  let a := Gateway.mk_attempt_env (ConnectOk 2) 120 (WsSent 121) in
  let res := Gateway._reconnect [a] g in
  (1 <= Gateway._reconnect_attempt g + 1 <= 1024)%Z
  /\ fst (fst res) = Gateway.Reconnected
  /\ Gateway._status (snd (fst res)) = CONNECTED
  /\ Gateway._pending (snd (fst res)) = Gateway._pending g
  /\ sleeps (snd res) = [(1%Z, 1%Q)]
  /\ ws_sends (snd res) = [PendingRequest.payload sample_request].
Proof.
  intros stale g a res.
  assert (Hn : (1 <= Gateway._reconnect_attempt g + 1 <= 1024)%Z)
    by (cbn; lia).
  assert (Hmax : (GatewayConfig.reconnect_max_attempts (Gateway.config g) <= 0
                  \/ Gateway._reconnect_attempt g + 1
                     <= GatewayConfig.reconnect_max_attempts (Gateway.config g))%Z)
    by (right; cbn; lia).
  destruct (reconnect_resends_waiting_requests g a [] 2%nat 121 eq_refl eq_refl
              Hn Hmax) as (H1 & H2 & _ & _ & H5 & _ & _ & _).
  split; [exact Hn|]. split; [exact H1|]. split; [exact H2|].
  split; [exact H5|]. split; reflexivity.
Defined.

(** ** Where the result of [send] comes from *)

Lemma result_among_wait_all all rid ws : forall g,
  (forall w, w ∈ ws -> w ∈ all) ->
  result_among all (Gateway.futures g !! rid) ->
  result_among all (Gateway.futures (fst (Gateway.wait_all ws g)) !! rid).
Proof.
  induction ws as [|w ws IH]; intros g Hsub H; [exact H|].
  cbn [Gateway.wait_all].
  assert (H1 : result_among all
                 (Gateway.futures (fst (Gateway.wait_step w g)) !! rid)).
  { destruct w as [f|]; cbn [Gateway.wait_step].
    - destruct (read_step_effect f g) as (Hf & _).
      destruct (Hf rid) as [->|[_ ->]]; [exact H|].
      intros m Hm. exists f. split; [apply Hsub; left|].
      unfold outcome in Hm. destruct (truthy _); congruence.
    - destruct (disconnect_spec g) as (_ & _ & _ & _ & ->).
      rewrite fail_all_pending_lookup.
      destruct (Gateway._pending g !! rid); [|exact H].
      destruct (Gateway.futures g !! rid) as [[]|]; cbn in *;
        solve [exact H|intros m Hm; discriminate Hm]. }
  destruct (Gateway.wait_step w g) as [g1 ev1]. cbn [fst] in H1.
  specialize (IH g1 (fun w' Hw' => Hsub w' (list_elem_of_further _ _ _ Hw')) H1).
  now destruct (Gateway.wait_all ws g1).
Qed.

(** The response that [send] returns is the message of a frame that
    arrived while it waited. *)
Lemma send_returns_inbound env payload timeout cb g raw :
  fst (fst (Gateway.send env payload timeout cb g)) = Ok raw ->
  exists f, Gateway.Inbound f ∈ Gateway.se_wait env /\ raw = message_of f.
Proof.
  unfold Gateway.send.
  destruct (if status_eqb (Gateway._status g) CONNECTED then _ else _)
    as [[r0 g0] ev0].
  destruct r0 as [[]|x]; [|discriminate].
  set (g1 := Gateway.with_tables _ _ _ g0).
  unfold Gateway._raw_send.
  destruct (Gateway._ws g1) as [ws|]; [|discriminate].
  destruct (Gateway.se_ws_send env) as [sent| |d]; [|discriminate..].
  set (g2 := Gateway.with_metrics _ _ _ _ _ _ g1).
  assert (H2 : result_among (Gateway.se_wait env)
                 (Gateway.futures g2 !! Gateway.se_uid env)).
  { intros m Hm. cbn in Hm. rewrite lookup_insert_eq in Hm. discriminate. }
  apply (result_among_wait_all _ _ (Gateway.se_wait env) g2 (fun _ H => H))
    in H2.
  destruct (Gateway.wait_all (Gateway.se_wait env) g2) as [g3 ev3].
  cbn [fst] in H2. unfold Gateway.await_future.
  destruct (Gateway.futures g3 !! Gateway.se_uid env) as [[|m|x|]|];
    cbn; try discriminate.
  intros H. injection H as <-. now apply H2.
Qed.

(* ===================================================================== *)
(** * Further properties of the engine *)
(* ===================================================================== *)

(** ** Parsing a response *)

Lemma truthy_state_value s : truthy (PStr (state_value s)) = true.
Proof. now destruct s. Qed.

(** X21. A response whose body is a JSON object, given as an object, as a
    string of JSON or as the response itself when it has no [content], is
    parsed without error: each field is the entry of the body under its
    key or the default of the field, the raw response and the latency are
    kept, and the state is set exactly when [inferred_state] is the value
    of a conversation state. *)
Theorem object_content_is_parsed (json_loads : string -> loads_outcome)
    (data c : pydict) (latency_ms : Q) :
  carries json_loads data c ->
  exists r,
    BrainResponse.from_gateway_response json_loads data latency_ms = Ok r
    /\ BrainResponse.text r = get_or "response_text" (PStr "") c
    /\ BrainResponse.intent r = get_or_none "inferred_intent" c
    /\ BrainResponse.entities r = get_or "entities_detected" (PList []) c
    /\ BrainResponse.suggested_actions r
       = get_or "suggested_actions" (PList []) c
    /\ BrainResponse.follow_up r = get_or_none "follow_up_prompt" c
    /\ BrainResponse.confidence r = get_or "confidence" (PFloat 1) c
    /\ BrainResponse.needs_clarification r
       = get_or "needs_clarification" (PBool false) c
    /\ BrainResponse.context_summary_update r
       = get_or_none "context_summary_update" c
    /\ BrainResponse.raw r = data
    /\ BrainResponse.latency_ms r = latency_ms
    /\ (forall st, BrainResponse.state r = Some st
                   <-> get_or_none "inferred_state" c = PStr (state_value st)).
Proof.
  intros Hc. unfold BrainResponse.from_gateway_response.
  assert (Hst : forall st,
    (if truthy (get_or_none "inferred_state" c)
     then state_of_value (get_or_none "inferred_state" c) else None) = Some st
    <-> get_or_none "inferred_state" c = PStr (state_value st)).
  { intros st. split.
    - destruct (truthy _); [apply state_of_value_inv|discriminate].
    - intros ->. now rewrite truthy_state_value, state_of_value_value. }
  assert (Hk : exists v, get_or "content" (PDict data) data = v
                         /\ (v = PDict c
                             \/ exists s, v = PStr s
                                          /\ json_loads s = Decoded (PDict c))).
  { unfold get_or.
    destruct Hc as [Hc|[(s & Hc & Hs)|[Hc ->]]]; rewrite Hc.
    - eexists. split; [reflexivity|]. now left.
    - eexists. split; [reflexivity|]. right. now exists s.
    - eexists. split; [reflexivity|]. now left. }
  destruct Hk as (v & -> & [->|(s & -> & ->)]);
    eexists; (split; [reflexivity|]); cbn; repeat split; apply Hst.
Qed.

Lemma object_content_is_parsed_witness :
  let body := [("response_text", PStr "Logged."); ("inferred_state", PStr "debriefing");
               ("inferred_intent", PStr "log_call")] in
  let data := [("request_id", PStr "r1"); ("content", PDict body)] in
  carries json_loads_sample data body
  /\ exists r,
       BrainResponse.from_gateway_response json_loads_sample data 12 = Ok r
       /\ BrainResponse.text r = PStr "Logged."
       /\ BrainResponse.state r = Some DEBRIEFING
       /\ BrainResponse.confidence r = PFloat 1.
Proof.
  intros body data.
  assert (Hc : carries json_loads_sample data body) by (left; reflexivity).
  split; [exact Hc|].
  destruct (object_content_is_parsed json_loads_sample data body 12 Hc)
    as (r & Hr & H1 & _ & _ & _ & _ & H6 & _ & _ & _ & _ & Hst).
  exists r. split; [exact Hr|]. split; [exact H1|].
  split; [apply Hst; reflexivity|exact H6].
Defined.

Lemma loads_exn_exception e : is_Exception (loads_exn e) = true.
Proof. now destruct e. Qed.

Lemma parse_raise (json_loads : string -> loads_outcome) data latency_ms x :
  BrainResponse.from_gateway_response json_loads data latency_ms = Raise x ->
  is_Exception x = true.
Proof.
  unfold BrainResponse.from_gateway_response.
  repeat case_match; intros; simplify_eq;
    solve [reflexivity|apply loads_exn_exception].
Qed.

(** ** The steps of [process] after the response *)

Lemma traverse_raise {A B} (f : A -> result B) (P : exn -> Prop) l x :
  (forall a y, f a = Raise y -> P y) -> traverse f l = Raise x -> P x.
Proof.
  intros Hf. induction l as [|a l IH]; cbn; [discriminate|].
  destruct (f a) eqn:Ha; [|intros H; injection H as <-; eapply Hf, Ha].
  destruct (traverse f l); [discriminate|].
  intros H; injection H as <-. now apply IH.
Qed.

Lemma decode_aliases_raise v x :
  Engine.decode_aliases v = Raise x -> is_Exception x = true.
Proof.
  unfold Engine.decode_aliases. destruct (negb (truthy v)); [discriminate|].
  destruct v; try discriminate;
    try (intros H; injection H as <-; reflexivity).
  destruct (traverse _ l) eqn:Ht; [discriminate|].
  intros H; injection H as <-.
  eapply (traverse_raise _ (fun y => is_Exception y = true)); [|exact Ht].
  intros a y. destruct a; try discriminate;
    intros H; injection H as <-; reflexivity.
Qed.

(** Aliases of the declared type are passed on: none for a falsy value,
    the strings of a list otherwise. *)
Lemma decode_aliases_typed v :
  typed_aliases v ->
  exists al, Engine.decode_aliases v = Ok al
             /\ (truthy v = false -> al = None)
             /\ (truthy v = true -> v = PList (map PStr (default [] al))).
Proof.
  unfold Engine.decode_aliases. intros [Hf|[al ->]].
  - rewrite Hf. exists None. split; [reflexivity|]. split; [reflexivity|].
    congruence.
  - destruct al as [|a al]; [exists None; now repeat split|].
    cbn [truthy map negb]. exists (Some (a :: al)).
    split; [|split; [discriminate|reflexivity]].
    assert (Ht : forall l : list string,
              traverse (fun x => match x with
                                 | PStr s => Ok s
                                 | _ => Raise (Exn TypeError [PStr "aliases"])
                                 end) (map PStr l) = Ok l).
    { induction l as [|b l IH]; [reflexivity|]. cbn. now rewrite IH. }
    change (PStr a :: map PStr al) with (map PStr (a :: al)).
    now rewrite Ht.
Qed.

Lemma track_entity_keeps uid now name ty al md c :
  let c' := snd (Context.track_entity uid now name ty al md c) in
  Context._turns c' = Context._turns c
  /\ Context._topic_stack c' = Context._topic_stack c
  /\ Context._session_summary c' = Context._session_summary c
  /\ Context.session_id c' = Context.session_id c
  /\ Context.window_size c' = Context.window_size c
  /\ Context._created_at c' = Context._created_at c.
Proof.
  unfold Context.track_entity.
  destruct (Context.find_entity name c); [cbn; now repeat split|].
  cbn zeta. cbn [snd].
  match goal with |- context [if ?b then _ else _] => destruct b end;
    cbn; now repeat split.
Qed.

Lemma process_entities_raise oracle l : forall i c x,
  fst (Engine._process_entities oracle i l c) = Raise x ->
  is_Exception x = true.
Proof.
  induction l as [|v l IH]; intros i c x; cbn; [discriminate|].
  destruct v; try (intros H; injection H as <-; reflexivity).
  destruct (negb (truthy _)); [apply IH|].
  destruct (get_or_none "name" d);
    try (intros H; injection H as <-; reflexivity).
  destruct (Engine.decode_aliases _) eqn:Hd;
    [|cbn; intros H; injection H as <-; eapply decode_aliases_raise, Hd].
  destruct (Context.track_entity _ _ _ _ _ _ c) as [en c']. apply IH.
Qed.

(** With aliases of the declared type, [_process_entities] raises only
    what the code raises: the attribute error of an entity that is no
    object, or of a name that is no string. *)
Lemma process_entities_typed oracle l : forall i c x,
  (forall d, PDict d ∈ l -> typed_aliases (get_or "aliases" (PList []) d)) ->
  fst (Engine._process_entities oracle i l c) = Raise x ->
  exn_of x = AttributeError.
Proof.
  induction l as [|v l IH]; intros i c x Ht; cbn; [discriminate|].
  assert (Ht' : forall d, PDict d ∈ l ->
                  typed_aliases (get_or "aliases" (PList []) d))
    by (intros d' Hd'; apply Ht; now right).
  destruct v; try (intros H; injection H as <-; reflexivity).
  destruct (negb (truthy _)); [now apply IH|].
  destruct (get_or_none "name" d);
    try (intros H; injection H as <-; reflexivity).
  destruct (decode_aliases_typed (get_or "aliases" (PList []) d))
    as (al & -> & _); [apply Ht; left|].
  destruct (Context.track_entity _ _ _ _ _ _ c) as [en c']. now apply IH.
Qed.

Lemma process_entities_keeps oracle l : forall i c,
  let c' := snd (Engine._process_entities oracle i l c) in
  Context._turns c' = Context._turns c
  /\ Context._topic_stack c' = Context._topic_stack c
  /\ Context._session_summary c' = Context._session_summary c
  /\ Context.session_id c' = Context.session_id c
  /\ Context.window_size c' = Context.window_size c
  /\ Context._created_at c' = Context._created_at c
  /\ (forall cap, (0 <= cap)%Z -> registry_ok cap c -> registry_ok cap c').
Proof.
  assert (Hsame : forall c : ConversationContext,
    Context._turns c = Context._turns c
    /\ Context._topic_stack c = Context._topic_stack c
    /\ Context._session_summary c = Context._session_summary c
    /\ Context.session_id c = Context.session_id c
    /\ Context.window_size c = Context.window_size c
    /\ Context._created_at c = Context._created_at c
    /\ (forall cap, (0 <= cap)%Z -> registry_ok cap c -> registry_ok cap c))
    by (intros c; repeat (split; [reflexivity|]); auto).
  induction l as [|v l IH]; intros i c; cbn; [apply Hsame|].
  destruct v; try apply Hsame.
  destruct (negb (truthy _)); [apply IH|].
  destruct (get_or_none "name" d) as [| | | |name| |]; try apply Hsame.
  destruct (Engine.decode_aliases _) as [al|]; [|apply Hsame].
  set (md := List.filter _ d).
  set (ty := get_or "type" (PStr "other") d).
  pose proof (track_entity_keeps (fst (oracle i)) (snd (oracle i)) name ty al
                (Some md) c) as (T1 & T2 & T3 & T4 & T5 & T6).
  pose proof (fun cap H => apply_call_ok cap c
                (mk_track_call (fst (oracle i)) (snd (oracle i)) name ty al
                               (Some md)) H) as Hok.
  unfold apply_call in Hok. cbn [tc_uid tc_now tc_name tc_type tc_aliases
                                 tc_metadata] in Hok.
  destruct (Context.track_entity _ _ _ _ _ _ c) as [en c1].
  cbn [snd] in *.
  destruct (IH (S i) c1) as (I1 & I2 & I3 & I4 & I5 & I6 & I7).
  repeat (split; [congruence|]).
  intros cap Hcap Hr. apply I7; [exact Hcap|]. now apply Hok.
Qed.

Lemma fire_actions_raise cb actions x :
  (forall a y, cb a = Some y -> is_Exception y = true) ->
  fst (Engine.fire_actions cb actions) = Raise x -> False.
Proof.
  intros Hcb. induction actions as [|a actions IH]; cbn; [discriminate|].
  unfold Engine.guarded. destruct (cb a) as [y|] eqn:Ha.
  - rewrite (Hcb a y Ha). destruct (Engine.fire_actions cb actions).
    exact IH.
  - destruct (Engine.fire_actions cb actions). exact IH.
Qed.

Lemma push_topic_keeps topic c :
  let c' := Context.push_topic topic c in
  Context._turns c' = Context._turns c
  /\ Context._entities c' = Context._entities c
  /\ Context.max_entities c' = Context.max_entities c.
Proof.
  unfold Context.push_topic.
  destruct (last _); [destruct (py_eq _ _)|]; cbn; now repeat split.
Qed.

(* ===================================================================== *)
(** * [process] from end to end *)
(* ===================================================================== *)

Section Pipeline.
Variable json_loads : string -> loads_outcome.
Variable py_str : pyval -> string.
Variable BRAIN_SYSTEM_PROMPT : string.

Lemma py_iter_raise v x : py_iter v = Raise x -> is_Exception x = true.
Proof. destruct v; cbn; intros H; now inversion H. Qed.

Lemma py_get_raise k d v x : py_get k d v = Raise x -> is_Exception x = true.
Proof. destruct v; cbn; intros H; now inversion H. Qed.

Lemma guarded_raise {A} (cb : A -> option exn) a x :
  (forall y, cb a = Some y -> is_Exception y = true) ->
  Engine.guarded cb a = Raise x -> False.
Proof.
  unfold Engine.guarded. intros H. destruct (cb a) as [y|]; [|discriminate].
  now rewrite (H y eq_refl).
Qed.

(** Steps 5 to 11 raise nothing that [except Exception] lets through,
    provided the two guarded callbacks do not. *)
Lemma process_response_raise env user_turn raw e x :
  callbacks_contained (Engine.config e) ->
  fst (fst (Engine.process_response json_loads env user_turn raw e)) = Raise x ->
  is_Exception x = true.
Proof.
  intros [Hresp Hact]. unfold Engine.process_response.
  repeat case_match; cbn [fst]; intros Hx; try discriminate;
    injection Hx as <-; simplify_eq.
  all: try (eapply parse_raise; eassumption).
  all: try (eapply py_iter_raise; eassumption).
  all: try (eapply (traverse_raise _ (fun y => is_Exception y = true));
            [apply py_get_raise|eassumption]).
  all: try match goal with
           | H : Engine._process_entities _ _ _ _ = (Raise _, _) |- _ =>
               eapply process_entities_raise; rewrite H; reflexivity
           end.
  all: try match goal with
           | H : Engine.guarded _ _ = Raise _ |- _ =>
               exfalso; eapply guarded_raise; [|exact H]; eauto
           end.
  all: try match goal with
           | H : Engine.fire_actions _ _ = (Raise _, _) |- _ =>
               exfalso; eapply fire_actions_raise; [|rewrite H; reflexivity];
               eauto
           end.
Qed.

(** What steps 5 to 11 leave of the engine. *)
Lemma process_response_keeps env user_turn raw e :
  let e' := snd (fst (Engine.process_response json_loads env user_turn raw e))
  in
  Engine.config e' = Engine.config e
  /\ Engine.gateway e' = Engine.gateway e
  /\ Engine._started e' = Engine._started e
  /\ Engine._processing e' = Engine._processing e
  /\ (exists more,
        Context._turns (Engine.context e')
        = Context._turns (Engine.context e) ++ more
        /\ (length more <= 1)%nat
        /\ Forall (fun t => Turn.role t = BRAIN) more)
  /\ (forall cap, (0 <= cap)%Z -> registry_ok cap (Engine.context e) ->
                  registry_ok cap (Engine.context e'))
  /\ (ledger_ok (Engine.state e) -> ledger_ok (Engine.state e')).
Proof.
  assert (Hsame : forall e0 : ConversationEngine,
    Engine.config e0 = Engine.config e ->
    Engine.gateway e0 = Engine.gateway e ->
    Engine._started e0 = Engine._started e ->
    Engine._processing e0 = Engine._processing e ->
    Engine.context e0 = Engine.context e ->
    Engine.state e0 = Engine.state e ->
    Engine.config e0 = Engine.config e
    /\ Engine.gateway e0 = Engine.gateway e
    /\ Engine._started e0 = Engine._started e
    /\ Engine._processing e0 = Engine._processing e
    /\ (exists more,
          Context._turns (Engine.context e0)
          = Context._turns (Engine.context e) ++ more
          /\ (length more <= 1)%nat
          /\ Forall (fun t => Turn.role t = BRAIN) more)
    /\ (forall cap, (0 <= cap)%Z -> registry_ok cap (Engine.context e) ->
                    registry_ok cap (Engine.context e0))
    /\ (ledger_ok (Engine.state e) -> ledger_ok (Engine.state e0))).
  { intros e0 H1 H2 H3 H4 H5 H6. repeat (split; [assumption|]).
    rewrite H5, H6. split; [|auto].
    exists []. rewrite app_nil_r. repeat split; [cbn; lia|constructor]. }
  unfold Engine.process_response.
  destruct (BrainResponse.from_gateway_response _ _ _) as [response|x0];
    [|now apply Hsame].
  destruct (py_iter _) as [entity_list|x0]; [|now apply Hsame].
  destruct (traverse _ entity_list) as [names|x0]; [|now apply Hsame].
  unfold Context.add_brain_turn. cbn zeta iota beta.
  set (turn := Turn.mk _ BRAIN _ _ _ _ _).
  set (c6 := Context.with_turns _ (Engine.context e)).
  pose proof (process_entities_keeps (Engine.pe_entities env) entity_list 0 c6)
    as (T1 & _ & _ & _ & _ & _ & T7).
  destruct (Engine._process_entities _ 0 entity_list c6) as [r7 c7].
  cbn [snd] in T1, T7.
  assert (Hreg : forall c : ConversationContext,
            Context._entities c = Context._entities c7 ->
            Context.max_entities c = Context.max_entities c7 ->
            forall cap, (0 <= cap)%Z -> registry_ok cap (Engine.context e) ->
                        registry_ok cap c).
  { intros c He Hm cap Hcap Hr. unfold registry_ok. rewrite He, Hm.
    apply (T7 cap Hcap). exact Hr. }
  assert (Hturns : forall c : ConversationContext,
            Context._turns c = Context._turns c7 ->
            exists more,
              Context._turns c = Context._turns (Engine.context e) ++ more
              /\ (length more <= 1)%nat
              /\ Forall (fun t => Turn.role t = BRAIN) more).
  { intros c Hc. exists [turn]. rewrite Hc, T1. cbn.
    repeat split; [lia|]. now repeat constructor. }
  destruct r7 as [[]|x0].
  2:{ cbn. repeat (split; [reflexivity|]). split; [now apply Hturns|].
      split; [now apply Hreg|auto]. }
  set (c9 := if truthy _ then Context.update_session_summary _ c7 else c7).
  set (c10 := if truthy _ then Context.push_topic _ c9 else c9).
  assert (H9 : Context._turns c9 = Context._turns c7
               /\ Context._entities c9 = Context._entities c7
               /\ Context.max_entities c9 = Context.max_entities c7)
    by (subst c9;
        destruct (truthy (BrainResponse.context_summary_update response));
        now repeat split).
  assert (H10 : Context._turns c10 = Context._turns c7
                /\ Context._entities c10 = Context._entities c7
                /\ Context.max_entities c10 = Context.max_entities c7).
  { subst c10. destruct (truthy (BrainResponse.intent response)); [|exact H9].
    destruct (push_topic_keeps (BrainResponse.intent response) c9)
      as (P1 & P2 & P3).
    destruct H9 as (Q1 & Q2 & Q3). repeat split; congruence. }
  destruct H10 as (Ht10 & He10 & Hm10).
  set (st := match BrainResponse.state response with
             | Some new_state => _
             | None => _
             end).
  assert (Hled : ledger_ok (Engine.state e) -> ledger_ok (fst st)).
  { subst st. destruct (BrainResponse.state response) as [new_state|];
      [|auto].
    intros Hl.
    pose proof (transition_keeps_ledger (Engine.pe_transition_time env)
                  new_state (Some (Turn.id user_turn))
                  (Some [("intent", BrainResponse.intent response)])
                  (Engine.state e) Hl) as Hk.
    destruct (StateTracker.transition _ _ _ _ _) as [[sn s8] ev8].
    exact Hk. }
  destruct st as [s8 ev8]. cbn [fst] in Hled.
  assert (Hfin : forall (r : result BrainResponse) (ev : list Engine.event),
    let e' := snd (fst (r, Engine.with_state s8
                             (Engine.with_context c10
                                (Engine.with_context c7 e)), ev)) in
    Engine.config e' = Engine.config e
    /\ Engine.gateway e' = Engine.gateway e
    /\ Engine._started e' = Engine._started e
    /\ Engine._processing e' = Engine._processing e
    /\ (exists more,
          Context._turns (Engine.context e')
          = Context._turns (Engine.context e) ++ more
          /\ (length more <= 1)%nat
          /\ Forall (fun t => Turn.role t = BRAIN) more)
    /\ (forall cap, (0 <= cap)%Z -> registry_ok cap (Engine.context e) ->
                    registry_ok cap (Engine.context e'))
    /\ (ledger_ok (Engine.state e) -> ledger_ok (Engine.state e'))).
  { intros r ev. cbn. repeat (split; [reflexivity|]).
    split; [now apply Hturns|]. split; [now apply Hreg|exact Hled]. }
  destruct (match EngineConfig.on_response (Engine.config e) with
            | Some cb => _
            | None => _
            end) as [r11 ev11].
  destruct r11 as [[]|x0]; [|apply Hfin].
  destruct (EngineConfig.on_action (Engine.config e)) as [cb|]; [|apply Hfin].
  destruct (truthy (BrainResponse.suggested_actions response)); [|apply Hfin].
  destruct (py_iter _) as [actions|x0]; [|apply Hfin].
  destruct (Engine.fire_actions cb actions) as [r12 ev12].
  destruct r12 as [[]|x0]; apply Hfin.
Qed.

(** The compression request cannot fail [process]: [send] raises only
    what [except Exception] catches. *)
Lemma compress_ok env e :
  let res := Engine._maybe_compress_context py_str env e in
  fst (fst res) = Ok tt
  /\ Context._entities (Engine.context (snd (fst res)))
     = Context._entities (Engine.context e)
  /\ Context.max_entities (Engine.context (snd (fst res)))
     = Context.max_entities (Engine.context e)
  /\ Context._topic_stack (Engine.context (snd (fst res)))
     = Context._topic_stack (Engine.context e)
  /\ ((Context.turn_count (Engine.context e)
       < EngineConfig.auto_compress_at (Engine.config e))%Z
      \/ (Context.turn_count (Engine.context e) mod 10 <> 0)%Z ->
      snd (fst res) = e /\ snd res = []).
Proof.
  unfold Engine._maybe_compress_context.
  destruct (Z.ltb_spec (Context.turn_count (Engine.context e))
              (EngineConfig.auto_compress_at (Engine.config e))) as [H1|H1];
    [cbn; now repeat split|].
  destruct (Z.eqb_spec (Context.turn_count (Engine.context e) mod 10) 0)
    as [H2|H2]; cbn [negb]; [|cbn; now repeat split].
  match goal with
  | |- context [Gateway.send ?a ?b ?c ?d ?g] =>
      pose proof (send_raise_exception a b c d g) as Hcls;
      destruct (Gateway.send a b c d g) as [[r g'] ev]
  end.
  cbn [fst] in Hcls. destruct r as [raw|x].
  - cbn [fst snd]. destruct (truthy _); cbn;
      repeat (split; [reflexivity|]); intros [H|H]; solve [lia|contradiction].
  - assert (Hx : is_Exception x = true) by exact (Hcls x eq_refl).
    rewrite Hx. cbn.
    repeat (split; [reflexivity|]); intros [H|H]; solve [lia|contradiction].
Qed.

(** Steps 1 to 3 always succeed. *)
Lemma prepare_ok env user_input metadata e :
  exists payload e' ev,
    Engine.process_prepare py_str BRAIN_SYSTEM_PROMPT env user_input metadata e
    = (Ok (user_turn_of env user_input metadata, payload), e', ev)
    /\ Engine.config e' = Engine.config e
    /\ Engine.state e' = Engine.state e
    /\ Engine._started e' = Engine._started e
    /\ Engine._processing e' = Engine._processing e
    /\ Context._turns (Engine.context e')
       = Context._turns (Engine.context e)
         ++ [user_turn_of env user_input metadata]
    /\ Context._entities (Engine.context e')
       = Context._entities (Engine.context e)
    /\ Context.max_entities (Engine.context e')
       = Context.max_entities (Engine.context e)
    /\ ((Context.turn_count (Engine.context e) + 1
         <= EngineConfig.auto_compress_at (Engine.config e))%Z ->
        e' = Engine.with_context
               (Context.with_turns
                  (Context._turns (Engine.context e)
                   ++ [user_turn_of env user_input metadata])
                  (Engine.context e)) e
        /\ ev = []).
Proof.
  unfold Engine.process_prepare, Context.add_user_turn. cbn zeta iota beta.
  fold (user_turn_of env user_input metadata).
  set (turn := user_turn_of env user_input metadata).
  match goal with
  | |- context [Engine._maybe_compress_context py_str env ?E] =>
      set (e1 := E)
  end.
  assert (Hcount : Context.turn_count (Engine.context e1)
                   = (Context.turn_count (Engine.context e) + 1)%Z).
  { subst e1. unfold Context.turn_count. cbn. rewrite length_app. cbn. lia. }
  destruct (Z.ltb_spec (EngineConfig.auto_compress_at (Engine.config e1))
              (Context.turn_count (Engine.context e1))) as [Hlt|Hge].
  - destruct (compress_keeps py_str env e1) as (Hc & Ht & Hs & Hst & Hp).
    destruct (compress_ok env e1) as (Hok & He & Hm & _ & _).
    destruct (Engine._maybe_compress_context py_str env e1) as [[r2 e2] ev2].
    cbn [fst snd] in *. rewrite Hok.
    eexists _, e2, ev2. split; [reflexivity|].
    repeat (split; [assumption|]).
    intros Hno. rewrite Hcount in Hlt. change (Engine.config e1)
      with (Engine.config e) in Hlt. lia.
  - eexists _, e1, []. split; [reflexivity|]. cbn. now repeat split.
Qed.

(** The body of the [try]. *)
Lemma process_body_spec env user_input metadata stream_callback e :
  let res := Engine.process_body json_loads py_str BRAIN_SYSTEM_PROMPT env
               user_input metadata stream_callback e in
  let e' := snd (fst res) in
  Engine.config e' = Engine.config e
  /\ Engine._started e' = Engine._started e
  /\ Engine._processing e' = Engine._processing e
  /\ (exists more,
        Context._turns (Engine.context e')
        = Context._turns (Engine.context e)
          ++ user_turn_of env user_input metadata :: more
        /\ (length more <= 1)%nat
        /\ Forall (fun t => Turn.role t = BRAIN) more)
  /\ (forall cap, (0 <= cap)%Z -> registry_ok cap (Engine.context e) ->
                  registry_ok cap (Engine.context e'))
  /\ (ledger_ok (Engine.state e) -> ledger_ok (Engine.state e'))
  /\ (callbacks_contained (Engine.config e) ->
      forall x, fst (fst res) = Raise x -> is_Exception x = true).
Proof.
  unfold Engine.process_body.
  destruct (prepare_ok env user_input metadata e)
    as (payload & e3 & ev3 & -> & Hc & Hs & Hst & Hp & Ht & He & Hm & _).
  assert (Hreg3 : forall cap, registry_ok cap (Engine.context e) ->
                              registry_ok cap (Engine.context e3)).
  { intros cap Hr. unfold registry_ok in *. now rewrite He, Hm. }
  match goal with
  | |- context [Gateway.send ?a ?b ?c ?d ?g] =>
      pose proof (send_raise_exception a b c d g) as Hcls;
      destruct (Gateway.send a b c d g) as [[r4 g4] ev4]
  end.
  cbn [fst] in Hcls. set (e4 := Engine.with_gateway g4 e3).
  destruct r4 as [raw|x].
  - pose proof (process_response_keeps env
                  (user_turn_of env user_input metadata) raw e4)
      as (R1 & _ & R3 & R4 & (more & R5 & R6 & R7) & R8 & R9).
    pose proof (process_response_raise env
                  (user_turn_of env user_input metadata) raw e4) as Rx.
    destruct (Engine.process_response json_loads env _ raw e4)
      as [[r e5] ev5]. cbn [fst snd] in *.
    change (Engine.config e4) with (Engine.config e3) in *.
    change (Engine._started e4) with (Engine._started e3) in *.
    change (Engine._processing e4) with (Engine._processing e3) in *.
    split; [congruence|]. split; [congruence|]. split; [congruence|].
    split; [|split; [|split]].
    + exists more. split; [|now split].
      rewrite R5. change (Engine.context e4) with (Engine.context e3).
      rewrite Ht, <- app_assoc. reflexivity.
    + intros cap Hcap Hr. apply R8; [exact Hcap|]. now apply Hreg3.
    + intros Hl. apply R9. change (Engine.state e4) with (Engine.state e3).
      now rewrite Hs.
    + intros Hcb x Hx. apply (Rx x); [|exact Hx]. now rewrite Hc.
  - cbn [fst snd]. subst e4. cbn [Engine.config Engine._started
      Engine._processing Engine.context Engine.state Engine.with_gateway].
    split; [exact Hc|]. split; [exact Hst|]. split; [exact Hp|].
    split; [|split; [|split]].
    + exists []. split; [exact Ht|]. split; [cbn; lia|constructor].
    + intros cap _ Hr. now apply Hreg3.
    + now rewrite Hs.
    + intros _ y Hy. injection Hy as <-. exact (Hcls x eq_refl).
Qed.

(** The body shared by the [except] clauses. *)
Lemma recover_spec env apology reported e :
  let res := Engine.recover env apology reported e in
  let e' := snd (fst res) in
  Engine.config e' = Engine.config e
  /\ Engine.gateway e' = Engine.gateway e
  /\ Engine._started e' = Engine._started e
  /\ Engine._processing e' = Engine._processing e
  /\ (exists t, Context._turns (Engine.context e')
                = Context._turns (Engine.context e) ++ [t]
                /\ Turn.role t = BRAIN /\ Turn.content t = PStr apology)
  /\ Context._entities (Engine.context e')
     = Context._entities (Engine.context e)
  /\ Context.max_entities (Engine.context e')
     = Context.max_entities (Engine.context e)
  /\ StateTracker.current_state (Engine.state e') = ERROR_RECOVERY
  /\ (ledger_ok (Engine.state e) -> ledger_ok (Engine.state e'))
  /\ (on_error_returns (Engine.config e) reported ->
      fst (fst res) = Ok (BrainResponse.error apology)).
Proof.
  unfold Engine.recover, on_error_returns, Context.add_brain_turn.
  cbn zeta iota beta.
  pose proof (transition_keeps_ledger (Engine.pe_error_transition_time env)
                ERROR_RECOVERY None None (Engine.state e)) as Hl.
  assert (Hcur : StateTracker.current_state
                   (snd (fst (StateTracker.transition
                                (Engine.pe_error_transition_time env)
                                ERROR_RECOVERY None None (Engine.state e))))
                 = ERROR_RECOVERY) by reflexivity.
  destruct (StateTracker.transition _ _ _ _ _) as [[sn s] evs].
  cbn [fst snd] in *.
  destruct (EngineConfig.on_error (Engine.config e)) as [cb|];
    [destruct (cb reported)|]; cbn [fst snd];
    repeat (split; [reflexivity|]);
    (split; [eexists; split; [reflexivity|]; split; reflexivity|]);
    repeat (split; [reflexivity|]);
    (split; [exact Hcur|]); (split; [exact Hl|]);
    intros H; congruence.
Qed.

Lemma start_ok env e :
  can_start env e ->
  exists e0 ev0,
    Engine.start (Engine.pe_start env) e = (Ok tt, e0, ev0)
    /\ Engine.config e0 = Engine.config e
    /\ Engine.context e0 = Engine.context e
    /\ Engine.state e0 = Engine.state e
    /\ Engine._started e0 = true
    /\ (Engine._started e = true -> e0 = e /\ ev0 = []).
Proof.
  intros Hcan. unfold Engine.start.
  destruct (Engine._started e) eqn:Hs.
  - exists e, []. now repeat split.
  - destruct (status_eqb (Gateway._status (Engine.gateway e)) CONNECTED)
      eqn:Hst.
    + unfold Gateway.connect. rewrite Hst. eexists _, _.
      split; [reflexivity|]. now repeat split.
    + destruct Hcan as [H|[H|[ws H]]]; [congruence| |].
      * apply status_eqb_eq in H. congruence.
      * apply status_eqb_neq in Hst.
        destruct (connect_ok_spec ws (Engine.gateway e) Hst)
          as (g' & evs & Hc & _).
        rewrite H, Hc. eexists _, _. split; [reflexivity|].
        now repeat split.
Qed.

(** What [process] leaves of the engine once it is past [start]. *)
Lemma process_spec env user_input metadata stream_callback e :
  can_start env e ->
  let res := Engine.process json_loads py_str BRAIN_SYSTEM_PROMPT env
               user_input metadata stream_callback e in
  let e' := snd (fst res) in
  Engine.config e' = Engine.config e
  /\ Engine._started e' = true
  /\ Engine._processing e' = false
  /\ (exists more,
        Context._turns (Engine.context e')
        = Context._turns (Engine.context e)
          ++ user_turn_of env user_input metadata :: more
        /\ (length more <= 2)%nat
        /\ Forall (fun t => Turn.role t = BRAIN) more)
  /\ (forall cap, (0 <= cap)%Z -> registry_ok cap (Engine.context e) ->
                  registry_ok cap (Engine.context e'))
  /\ (ledger_ok (Engine.state e) -> ledger_ok (Engine.state e'))
  /\ (callbacks_contained (Engine.config e) ->
      (forall x, on_error_returns (Engine.config e) x) ->
      exists r, fst (fst res) = Ok r).
Proof.
  intros Hcan. unfold Engine.process.
  destruct (start_ok env e Hcan) as (e0 & ev0 & -> & Hc0 & Hx0 & Hs0 & Hst0 & _).
  set (e1 := Engine.with_processing true e0).
  pose proof (process_body_spec env user_input metadata stream_callback e1)
    as (B1 & B2 & B3 & (more & B4 & B5 & B6) & B7 & B8 & B9).
  destruct (Engine.process_body json_loads py_str BRAIN_SYSTEM_PROMPT env
              user_input metadata stream_callback e1) as [[r e2] ev].
  cbn [fst snd] in *.
  change (Engine.config e1) with (Engine.config e0) in *.
  change (Engine.context e1) with (Engine.context e0) in *.
  change (Engine.state e1) with (Engine.state e0) in *.
  change (Engine._started e1) with (Engine._started e0) in *.
  rewrite Hc0, ?Hx0, ?Hs0 in *.
  assert (Hrec : forall apology reported,
    let res := Engine.recover env apology reported e2 in
    let e' := Engine.with_processing false (snd (fst res)) in
    Engine.config e' = Engine.config e
    /\ Engine._started e' = true
    /\ Engine._processing e' = false
    /\ (exists more,
          Context._turns (Engine.context e')
          = Context._turns (Engine.context e)
            ++ user_turn_of env user_input metadata :: more
          /\ (length more <= 2)%nat
          /\ Forall (fun t => Turn.role t = BRAIN) more)
    /\ (forall cap, (0 <= cap)%Z -> registry_ok cap (Engine.context e) ->
                    registry_ok cap (Engine.context e'))
    /\ (ledger_ok (Engine.state e) -> ledger_ok (Engine.state e'))
    /\ ((forall x, on_error_returns (Engine.config e) x) ->
        exists r, fst (fst res) = Ok r)).
  { intros apology reported.
    pose proof (recover_spec env apology reported e2)
      as (R1 & _ & R3 & _ & (t & R5 & R6 & _) & R7 & R8 & _ & R10 & R11).
    destruct (Engine.recover env apology reported e2) as [[r' e3] ev'].
    cbn [fst snd] in *.
    cbn [Engine.with_processing Engine.config Engine._started
         Engine._processing Engine.context Engine.state].
    split; [congruence|]. split; [congruence|]. split; [reflexivity|].
    split; [|split; [|split]].
    - exists (more ++ [t]). rewrite R5, B4, <- app_assoc. split; [reflexivity|].
      split; [rewrite length_app; cbn; lia|].
      apply Forall_app. split; [exact B6|]. now repeat constructor.
    - intros cap Hcap Hr. specialize (B7 cap Hcap Hr).
      unfold registry_ok in *. now rewrite R7, R8.
    - intros Hl. apply R10, B8, Hl.
    - intros Hret. eexists. apply R11. rewrite B1. apply Hret. }
  assert (Hplain : forall (r' : result BrainResponse),
    (callbacks_contained (Engine.config e) ->
     (forall x, on_error_returns (Engine.config e) x) ->
     exists r0, r' = Ok r0) ->
    let e' := Engine.with_processing false e2 in
    Engine.config e' = Engine.config e
    /\ Engine._started e' = true
    /\ Engine._processing e' = false
    /\ (exists more,
          Context._turns (Engine.context e')
          = Context._turns (Engine.context e)
            ++ user_turn_of env user_input metadata :: more
          /\ (length more <= 2)%nat
          /\ Forall (fun t => Turn.role t = BRAIN) more)
    /\ (forall cap, (0 <= cap)%Z -> registry_ok cap (Engine.context e) ->
                    registry_ok cap (Engine.context e'))
    /\ (ledger_ok (Engine.state e) -> ledger_ok (Engine.state e'))
    /\ (callbacks_contained (Engine.config e) ->
        (forall x, on_error_returns (Engine.config e) x) ->
        exists r0, r' = Ok r0)).
  { intros r' Hr'.
    cbn [Engine.with_processing Engine.config Engine._started
         Engine._processing Engine.context Engine.state].
    split; [exact B1|]. split; [congruence|]. split; [reflexivity|].
    split; [|split; [exact B7|split; [exact B8|exact Hr']]].
    exists more. split; [exact B4|]. split; [lia|exact B6]. }
  destruct r as [response|x].
  - cbn [fst snd]. apply Hplain. intros _ _. now eexists.
  - destruct (is_class TimeoutError x).
    { destruct (Hrec Engine.timeout_apology
                  (Exn TimeoutError [PStr "Brain timeout"]))
        as (H1 & H2 & H3 & H4 & H5 & H6 & H7).
      destruct (Engine.recover env Engine.timeout_apology _ e2)
        as [[r' e3] ev']. cbn [fst snd] in *.
      repeat (split; [assumption|]). intros _. exact H7. }
    destruct (is_class ConnectionError x).
    { destruct (Hrec Engine.connection_apology x)
        as (H1 & H2 & H3 & H4 & H5 & H6 & H7).
      destruct (Engine.recover env Engine.connection_apology x e2)
        as [[r' e3] ev']. cbn [fst snd] in *.
      repeat (split; [assumption|]). intros _. exact H7. }
    destruct (is_Exception x) eqn:Hex.
    { destruct (Hrec Engine.generic_apology x)
        as (H1 & H2 & H3 & H4 & H5 & H6 & H7).
      destruct (Engine.recover env Engine.generic_apology x e2)
        as [[r' e3] ev']. cbn [fst snd] in *.
      repeat (split; [assumption|]). intros _. exact H7. }
    cbn [fst snd]. apply Hplain. intros Hcb _.
    specialize (B9 Hcb x eq_refl). congruence.
Qed.

(** For typed replies the tracking of entities stays within the
    embedding: the reply that [process] parses is a message of the wait,
    its entities have aliases of the declared type, and
    [_process_entities] raises only the attribute errors of the code. *)
Lemma typed_replies_are_tracked env payload timeout cb g raw latency_ms r l :
  typed_replies json_loads env ->
  fst (fst (Gateway.send (Engine.pe_send env) payload timeout cb g)) = Ok raw ->
  BrainResponse.from_gateway_response json_loads raw latency_ms = Ok r ->
  py_iter (BrainResponse.entities r) = Ok l ->
  forall oracle i c x,
    fst (Engine._process_entities oracle i l c) = Raise x ->
    exn_of x = AttributeError.
Proof.
  intros Ht Hsend Hparse Hl oracle i c x.
  destruct (send_returns_inbound _ _ _ _ _ _ Hsend) as (f & Hf & ->).
  apply process_entities_typed. intros d Hd.
  exact (Ht f latency_ms r Hf Hparse l d Hl Hd).
Qed.

(** X22. A call of [process] that gets past its automatic start always
    returns a response object, whatever the network, the brain and the
    reply do, as long as the response and action callbacks raise only what
    [except Exception] catches and the error callback returns. It leaves
    the engine started and no longer processing. The replies are those
    whose entities have aliases of the type that [track_entity] declares:
    a list of strings or a falsy value. *)
Theorem process_always_answers (env : Engine.process_env)
    (user_input : string) (metadata : option pydict)
    (stream_callback : option nat) (e : ConversationEngine) :
  can_start env e ->
  typed_replies json_loads env ->
  callbacks_contained (Engine.config e) ->
  (forall x, on_error_returns (Engine.config e) x) ->
  let res := Engine.process json_loads py_str BRAIN_SYSTEM_PROMPT env
               user_input metadata stream_callback e in
  (exists r, fst (fst res) = Ok r)
  /\ Engine._processing (snd (fst res)) = false
  /\ Engine._started (snd (fst res)) = true.
Proof.
  intros Hcan _ Hcb Herr res. subst res.
  destruct (process_spec env user_input metadata stream_callback e Hcan)
    as (_ & H2 & H3 & _ & _ & _ & H7).
  split; [exact (H7 Hcb Herr)|]. split; [exact H3|exact H2].
Qed.

(** X23. A call of [process] that gets past its automatic start only
    appends to the history: first the turn of the user, then at most two
    turns of the brain (its reply, an apology, or a reply followed by an
    apology when a later step fails). The replies are those whose entities
    have aliases of the type that [track_entity] declares. *)
Theorem process_records_the_user_turn_first (env : Engine.process_env)
    (user_input : string) (metadata : option pydict)
    (stream_callback : option nat) (e : ConversationEngine) :
  can_start env e ->
  typed_replies json_loads env ->
  let e' := snd (fst (Engine.process json_loads py_str BRAIN_SYSTEM_PROMPT env
                        user_input metadata stream_callback e)) in
  exists more,
    Context._turns (Engine.context e')
    = Context._turns (Engine.context e)
      ++ user_turn_of env user_input metadata :: more
    /\ (length more <= 2)%nat
    /\ Forall (fun t => Turn.role t = BRAIN) more.
Proof.
  intros Hcan _.
  exact (proj1 (proj2 (proj2 (proj2
           (process_spec env user_input metadata stream_callback e Hcan))))).
Qed.

Lemma start_fails env e :
  Engine._started e = false ->
  Gateway._status (Engine.gateway e) <> CONNECTED ->
  Engine.pe_start env = ConnectFails ->
  exists g ev,
    Engine.start (Engine.pe_start env) e
    = (Raise (Exn ConnectionError
                  [PStr "Cannot reach OpenClaw gateway at ";
                   PStr (GatewayConfig.uri
                           (Gateway.config (Engine.gateway e)))]),
       Engine.with_gateway g e, map Engine.GatewayEvent ev)
    /\ Gateway._status g = DISCONNECTED.
Proof.
  intros Hs Hst Hc. unfold Engine.start. rewrite Hs, Hc.
  apply status_eqb_neq in Hst. unfold Gateway.connect. rewrite Hst. cbn.
  eexists _, _. split; reflexivity.
Qed.

(** X24. The memory and the ledger stay well formed across [process],
    whatever the brain replies and however the call ends: the registry
    keeps its ids distinct and its size within the capacity, and the
    ledger keeps its shape. The replies are those whose entities have
    aliases of the type that [track_entity] declares. *)
Theorem process_keeps_the_session_well_formed (env : Engine.process_env)
    (user_input : string) (metadata : option pydict)
    (stream_callback : option nat) (e : ConversationEngine) (cap : Z) :
  (0 <= cap)%Z ->
  typed_replies json_loads env ->
  registry_ok cap (Engine.context e) ->
  ledger_ok (Engine.state e) ->
  let e' := snd (fst (Engine.process json_loads py_str BRAIN_SYSTEM_PROMPT env
                        user_input metadata stream_callback e)) in
  registry_ok cap (Engine.context e') /\ ledger_ok (Engine.state e').
Proof.
  intros Hcap _ Hr Hl.
  destruct (Engine._started e) eqn:Hs;
    [|destruct (status_eqb (Gateway._status (Engine.gateway e)) CONNECTED)
        eqn:Hst;
      [|destruct (Engine.pe_start env) as [ws|] eqn:Hc]].
  4:{ apply status_eqb_neq in Hst.
      destruct (start_fails env e Hs Hst Hc) as (g & ev & Hf & _).
      unfold Engine.process. rewrite Hf. cbn. now split. }
  all: assert (Hcan : can_start env e);
    [unfold can_start; rewrite ?Hs, ?Hc;
     try apply status_eqb_eq in Hst; eauto|].
  all: destruct (process_spec env user_input metadata stream_callback e Hcan)
         as (_ & _ & _ & _ & H5 & H6 & _).
  all: split; [now apply H5|now apply H6].
Qed.

(** X25. The automatic start of [process] is not covered by its error
    handling: on an engine that is not started, a refused connection
    leaves [process] as a connection error. Nothing is recorded: no turn,
    no transition, no call of the error callback, and the engine stays
    unstarted. *)
Theorem failed_autostart_escapes_process (env : Engine.process_env)
    (user_input : string) (metadata : option pydict)
    (stream_callback : option nat) (e : ConversationEngine) :
  Engine._started e = false ->
  Gateway._status (Engine.gateway e) <> CONNECTED ->
  Engine.pe_start env = ConnectFails ->
  let res := Engine.process json_loads py_str BRAIN_SYSTEM_PROMPT env
               user_input metadata stream_callback e in
  let e' := snd (fst res) in
  fst (fst res)
  = Raise (Exn ConnectionError
               [PStr "Cannot reach OpenClaw gateway at ";
                PStr (GatewayConfig.uri (Gateway.config (Engine.gateway e)))])
  /\ Engine.context e' = Engine.context e
  /\ Engine.state e' = Engine.state e
  /\ Engine._started e' = false
  /\ Gateway._status (Engine.gateway e') = DISCONNECTED
  /\ Forall (fun ev => exists g, ev = Engine.GatewayEvent g) (snd res).
Proof.
  intros Hs Hst Hc res e'. subst res e'.
  destruct (start_fails env e Hs Hst Hc) as (g & ev & Hf & Hd).
  unfold Engine.process. rewrite Hf. cbn [fst snd].
  split; [reflexivity|]. split; [reflexivity|]. split; [reflexivity|].
  split; [exact Hs|]. split; [exact Hd|].
  apply Forall_map. apply Forall_forall. intros x _. now exists x.
Qed.

(** X26. The compression request is not critical: it never fails
    [process], it is made only when the history has reached the threshold
    and its length is a multiple of 10, and it changes nothing of the
    session but the summary (and the gateway it goes through). *)
Theorem compression_is_non_critical (env : Engine.process_env)
    (e : ConversationEngine) :
  let res := Engine._maybe_compress_context py_str env e in
  let e' := snd (fst res) in
  fst (fst res) = Ok tt
  /\ Context._turns (Engine.context e') = Context._turns (Engine.context e)
  /\ Context._entities (Engine.context e')
     = Context._entities (Engine.context e)
  /\ Context._topic_stack (Engine.context e')
     = Context._topic_stack (Engine.context e)
  /\ Engine.state e' = Engine.state e
  /\ Engine.config e' = Engine.config e
  /\ ((Context.turn_count (Engine.context e)
       < EngineConfig.auto_compress_at (Engine.config e))%Z
      \/ (Context.turn_count (Engine.context e) mod 10 <> 0)%Z ->
      e' = e /\ snd res = []).
Proof.
  cbn zeta.
  destruct (compress_keeps py_str env e) as (Hc & Ht & Hs & _ & _).
  destruct (compress_ok env e) as (Hok & He & _ & Htp & Hskip).
  repeat (split; [assumption|]). exact Hskip.
Qed.
End Pipeline.

Section Outcomes.
Variable json_loads : string -> loads_outcome.
Variable py_str : pyval -> string.
Variable BRAIN_SYSTEM_PROMPT : string.



Lemma fire_actions_ok cb actions :
  (forall a y, cb a = Some y -> is_Exception y = true) ->
  Engine.fire_actions cb actions = (Ok tt, map Engine.OnAction actions).
Proof.
  intros Hcb. induction actions as [|a actions IH]; [reflexivity|].
  cbn. unfold Engine.guarded. destruct (cb a) as [y|] eqn:Ha.
  - rewrite (Hcb a y Ha), IH. reflexivity.
  - rewrite IH. reflexivity.
Qed.

Lemma callbacks_fired_app evs evs' :
  callbacks_fired (evs ++ evs') = callbacks_fired evs ++ callbacks_fired evs'.
Proof. apply List.filter_app. Qed.

Lemma callbacks_fired_gateway evs :
  callbacks_fired (map Engine.GatewayEvent evs) = [].
Proof. induction evs as [|x evs IH]; [reflexivity|exact IH]. Qed.

Lemma callbacks_fired_state evs :
  callbacks_fired (map Engine.StateEvent evs) = [].
Proof. induction evs as [|x evs IH]; [reflexivity|exact IH]. Qed.

Lemma callbacks_fired_actions actions :
  callbacks_fired (map Engine.OnAction actions) = map Engine.OnAction actions.
Proof.
  unfold callbacks_fired.
  induction actions as [|x l IH]; [reflexivity|]. cbn. now rewrite IH.
Qed.

Lemma push_topic_current topic c :
  exists top,
    Context.current_topic (Context.push_topic topic c) = Some top
    /\ (top = topic \/ py_eq top topic = true).
Proof.
  unfold Context.push_topic, Context.current_topic.
  destruct (last (Context._topic_stack c)) as [top|] eqn:Hl.
  - destruct (py_eq top topic) eqn:He.
    + exists top. rewrite Hl. split; [reflexivity|now right].
    + exists topic. split; [|now left].
      cbn [Context._topic_stack Context.with_topics].
      destruct (Z.ltb_spec 20
                  (Z.of_nat (length (Context._topic_stack c ++ [topic]))))
        as [Hlt|Hge]; [|apply last_snoc].
      change (-20)%Z with (Z.opp 20). rewrite slice_from_neg_suffix by lia.
      rewrite length_app in *. cbn [length] in *.
      rewrite drop_app_le by lia. apply last_snoc.
  - exists topic. split; [reflexivity|now left].
Qed.

(** Steps 5 to 11 for a reply that parses, names no entity and lists its
    actions. *)
Lemma process_response_plain env user_turn raw e r actions :
  BrainResponse.from_gateway_response json_loads raw
    ((Engine.pe_end_time env - Engine.pe_start_time env) * 1000)%Q = Ok r ->
  BrainResponse.entities r = PList [] ->
  BrainResponse.suggested_actions r = PList actions ->
  callbacks_contained (Engine.config e) ->
  let res := Engine.process_response json_loads env user_turn raw e in
  let c6 := Context.with_turns
              (Context._turns (Engine.context e) ++ [brain_turn_of env r []])
              (Engine.context e) in
  let c9 := if truthy (BrainResponse.context_summary_update r)
            then Context.update_session_summary
                   (BrainResponse.context_summary_update r) c6
            else c6 in
  fst (fst res) = Ok r
  /\ Engine.context (snd (fst res))
     = (if truthy (BrainResponse.intent r)
        then Context.push_topic (BrainResponse.intent r) c9 else c9)
  /\ Engine.state (snd (fst res))
     = match BrainResponse.state r with
       | Some st =>
           snd (fst (StateTracker.transition (Engine.pe_transition_time env) st
                       (Some (Turn.id user_turn))
                       (Some [("intent", BrainResponse.intent r)])
                       (Engine.state e)))
       | None => Engine.state e
       end
  /\ Engine._processing (snd (fst res)) = Engine._processing e
  /\ callbacks_fired (snd res)
     = match EngineConfig.on_response (Engine.config e) with
       | Some _ => [Engine.OnResponse r]
       | None => []
       end
       ++ match EngineConfig.on_action (Engine.config e) with
          | Some _ => map Engine.OnAction actions
          | None => []
          end.
Proof.
  intros Hparse Hent Hact [Hresp Hacts].
  unfold Engine.process_response. rewrite Hparse, Hent. cbn [py_iter traverse].
  unfold Context.add_brain_turn. cbn zeta iota beta.
  fold (brain_turn_of env r []). cbn [Engine._process_entities].
  set (c6 := Context.with_turns _ (Engine.context e)).
  set (c9 := if truthy (BrainResponse.context_summary_update r) then _ else c6).
  set (c10 := if truthy (BrainResponse.intent r) then _ else c9).
  set (st := match BrainResponse.state r with Some new_state => _ | None => _ end).
  assert (Hst : fst st
                = match BrainResponse.state r with
                  | Some st =>
                      snd (fst (StateTracker.transition
                                  (Engine.pe_transition_time env) st
                                  (Some (Turn.id user_turn))
                                  (Some [("intent", BrainResponse.intent r)])
                                  (Engine.state e)))
                  | None => Engine.state e
                  end
                /\ callbacks_fired (snd st) = []).
  { subst st. destruct (BrainResponse.state r) as [new_state|];
      [|now split].
    cbn [Engine.state Engine.with_context].
    destruct (StateTracker.transition _ _ _ _ _) as [[sn s] evs].
    split; [reflexivity|apply callbacks_fired_state]. }
  destruct st as [s8 ev8]. cbn [fst snd] in Hst. destruct Hst as [Hs8 Hev8].
  rewrite Hact.
  assert (Hr11 : forall cb, EngineConfig.on_response (Engine.config e) = Some cb ->
                            Engine.guarded cb r = Ok tt).
  { intros cb Hcb. unfold Engine.guarded. destruct (cb r) as [y|] eqn:Hy;
      [|reflexivity]. now rewrite (Hresp cb r y Hcb Hy). }
  destruct (EngineConfig.on_response (Engine.config e)) as [cb|] eqn:Eresp;
    [rewrite (Hr11 cb eq_refl)|];
    (destruct (EngineConfig.on_action (Engine.config e)) as [ca|] eqn:Eact;
     [destruct actions as [|a actions];
      [|cbn [truthy py_iter];
        rewrite (fire_actions_ok ca (a :: actions) (fun a y => Hacts ca a y eq_refl))]
     |]);
    cbn [truthy fst snd Engine.context Engine.state Engine._processing
         Engine.with_state Engine.with_context];
    (split; [reflexivity|]); (split; [reflexivity|]);
    (split; [exact Hs8|]); (split; [reflexivity|]);
    rewrite ?callbacks_fired_app, ?Hev8, ?callbacks_fired_actions;
    reflexivity.
Qed.

(** X28. On a started engine whose history is below the compression
    threshold, a request that the brain answers with a message that
    parses, names no entity and lists its actions, makes [process] return
    the parsed response. The history gains the user turn and the reply,
    the ledger moves to the state of the reply if it has one, the summary
    and the topic follow the reply, and the response callback is called
    once, before the action callback is called for each action in
    order. *)
Theorem answered_request_is_returned (env : Engine.process_env)
    (user_input : string) (metadata : option pydict)
    (stream_callback : option nat) (e : ConversationEngine) (sent : Q)
    (frames : list Gateway.frame) (f : Gateway.frame)
    (rest : list Gateway.frame) (r : BrainResponse) (actions : list pyval) :
  let senv := Engine.pe_send env in
  let g := Engine.gateway e in
  Engine._started e = true ->
  (Context.turn_count (Engine.context e) + 1
   <= EngineConfig.auto_compress_at (Engine.config e))%Z ->
  callbacks_contained (Engine.config e) ->
  can_transmit senv g ->
  (Gateway._status g = CONNECTED -> Gateway.reader_running g = true) ->
  (stream_callback = None ->
   Gateway._stream_callbacks g !! Gateway.se_uid senv = None) ->
  Gateway.se_uid senv <> "" ->
  Gateway.se_ws_send senv = WsSent sent ->
  Gateway.se_wait senv = map Gateway.Inbound frames ->
  Forall (refers_to (Gateway.se_uid senv)) frames ->
  not_routed stream_callback frames = f :: rest ->
  truthy (get_or_none "error" (message_of f)) = false ->
  BrainResponse.from_gateway_response json_loads (message_of f)
    ((Engine.pe_end_time env - Engine.pe_start_time env) * 1000)%Q = Ok r ->
  BrainResponse.entities r = PList [] ->
  BrainResponse.suggested_actions r = PList actions ->
  let res := Engine.process json_loads py_str BRAIN_SYSTEM_PROMPT env
               user_input metadata stream_callback e in
  let e' := snd (fst res) in
  fst (fst res) = Ok r
  /\ Context._turns (Engine.context e')
     = Context._turns (Engine.context e)
       ++ [user_turn_of env user_input metadata; brain_turn_of env r []]
  /\ match BrainResponse.state r with
     | Some st => StateTracker.current_state (Engine.state e') = st
     | None => Engine.state e' = Engine.state e
     end
  /\ Context._session_summary (Engine.context e')
     = (if truthy (BrainResponse.context_summary_update r)
        then BrainResponse.context_summary_update r
        else Context._session_summary (Engine.context e))
  /\ (if truthy (BrainResponse.intent r)
      then exists top,
             Context.current_topic (Engine.context e') = Some top
             /\ (top = BrainResponse.intent r
                 \/ py_eq top (BrainResponse.intent r) = true)
      else Context._topic_stack (Engine.context e')
           = Context._topic_stack (Engine.context e))
  /\ Context._entities (Engine.context e')
     = Context._entities (Engine.context e)
  /\ Engine._processing e' = false
  /\ callbacks_fired (snd res)
     = match EngineConfig.on_response (Engine.config e) with
       | Some _ => [Engine.OnResponse r]
       | None => []
       end
       ++ match EngineConfig.on_action (Engine.config e) with
          | Some _ => map Engine.OnAction actions
          | None => []
          end.
Proof.
  intros senv g Hst Hno Hcb Hcan Hrun Hfresh Hne Hsent Hwait Hall Hnr Herr
         Hparse Hent Hact res e'. subst res e'.
  destruct (prepare_ok py_str BRAIN_SYSTEM_PROMPT env user_input metadata
              (Engine.with_processing true e))
    as (payload & e3 & ev3 & Hprep & _ & _ & _ & _ & _ & _ & _ & Hskip).
  destruct (Hskip Hno) as [He3 Hev3]. subst ev3.
  assert (Hg : Engine.gateway e3 = g) by now rewrite He3.
  assert (Hc3 : Engine.config e3 = Engine.config e) by now rewrite He3.
  assert (Hres : fst (fst (Gateway.send senv payload
                             (Some (EngineConfig.response_timeout
                                      (Engine.config e3)))
                             stream_callback g))
                 = Ok (message_of f)).
  { destruct (send_settles senv payload
                (Some (EngineConfig.response_timeout (Engine.config e3)))
                stream_callback g sent frames f rest Hcan Hrun Hfresh Hne
                Hsent Hwait Hall Hnr) as (g3 & evs & Hf3 & _ & _ & _ & Hsend).
    rewrite Hsend. unfold Gateway.await_future. rewrite Hf3. unfold outcome.
    now rewrite Herr. }
  unfold Engine.process, Engine.start. rewrite Hst.
  unfold Engine.process_body. rewrite Hprep. fold senv. rewrite Hg.
  destruct (Gateway.send senv payload _ stream_callback g)
    as [[r4 g4] ev4]. cbn [fst] in Hres. subst r4.
  set (e4 := Engine.with_gateway g4 e3).
  assert (Hcb4 : callbacks_contained (Engine.config e4))
    by (change (Engine.config e4) with (Engine.config e3); now rewrite Hc3).
  pose proof (process_response_plain env (user_turn_of env user_input metadata)
                (message_of f) e4 r actions Hparse Hent Hact Hcb4)
    as (P1 & P2 & P3 & P4 & P5).
  change (Engine.config e4) with (Engine.config e3) in P5.
  rewrite Hc3 in P5.
  destruct (Engine.process_response json_loads env _ (message_of f) e4)
    as [[r' e5] ev5]. cbn [fst snd] in *. subst r'.
  cbn [fst snd Engine.with_processing Engine.context Engine.state
       Engine._processing].
  assert (Hctx4 : Engine.context e4
                  = Context.with_turns
                      (Context._turns (Engine.context e)
                       ++ [user_turn_of env user_input metadata])
                      (Engine.context e)) by (subst e4; now rewrite He3).
  assert (Hst4 : Engine.state e4 = Engine.state e)
    by (subst e4; now rewrite He3).
  rewrite P2, P3, Hctx4, Hst4.
  split; [reflexivity|].
  set (c6 := Context.with_turns _ (Context.with_turns _ (Engine.context e))).
  set (c9 := if truthy (BrainResponse.context_summary_update r) then _ else c6).
  assert (H9 : Context._turns c9
               = Context._turns (Engine.context e)
                 ++ [user_turn_of env user_input metadata; brain_turn_of env r []]
               /\ Context._entities c9 = Context._entities (Engine.context e)
               /\ Context._topic_stack c9
                  = Context._topic_stack (Engine.context e)
               /\ Context._session_summary c9
                  = (if truthy (BrainResponse.context_summary_update r)
                     then BrainResponse.context_summary_update r
                     else Context._session_summary (Engine.context e))).
  { subst c9 c6. destruct (truthy (BrainResponse.context_summary_update r));
      cbn; rewrite <- app_assoc; now repeat split. }
  destruct H9 as (T9 & E9 & S9 & M9).
  split; [|split; [|split; [|split; [|split; [|split]]]]].
  - destruct (truthy (BrainResponse.intent r)); [|exact T9].
    destruct (push_topic_keeps (BrainResponse.intent r) c9) as (K1 & _).
    now rewrite K1.
  - destruct (BrainResponse.state r); reflexivity.
  - destruct (truthy (BrainResponse.intent r)); [|exact M9].
    unfold Context.push_topic.
    destruct (last _); [destruct (py_eq _ _)|]; exact M9.
  - destruct (truthy (BrainResponse.intent r)); [|exact S9].
    apply push_topic_current.
  - destruct (truthy (BrainResponse.intent r)); [|exact E9].
    destruct (push_topic_keeps (BrainResponse.intent r) c9) as (_ & K2 & _).
    now rewrite K2.
  - reflexivity.
  - rewrite !callbacks_fired_app, callbacks_fired_gateway.
    cbn [callbacks_fired List.filter app]. rewrite app_nil_r. exact P5.
Qed.
End Outcomes.

(* ===================================================================== *)
(** * The recent states, and the life cycle of the engine *)
(* ===================================================================== *)

(** X29. For a positive [n], [last_n_states] returns the states of the
    last [n] snapshots of the history (all of them when there are fewer),
    oldest first, so that the list ends with the current state. For
    [n = 0] it returns the states of the whole history. *)
Theorem last_n_states_ends_with_current (n : Z) (s : StateTracker) :
  ledger_ok s ->
  (0 < n)%Z ->
  let recent := StateTracker.last_n_states n s in
  length recent = Nat.min (Z.to_nat n) (length (StateTracker._history s))
  /\ last recent = Some (StateTracker.current_state s)
  /\ (exists older,
        map StateSnapshot.state (StateTracker._history s) = older ++ recent)
  /\ StateTracker.last_n_states 0 s
     = map StateSnapshot.state (StateTracker._history s).
Proof.
  intros ([past Hh] & _) Hn recent. subst recent.
  unfold StateTracker.last_n_states. split; [|split; [|split]].
  - rewrite length_map, slice_from_neg_length by exact Hn. lia.
  - rewrite slice_from_neg_suffix by exact Hn. rewrite Hh.
    rewrite length_app. cbn [length].
    rewrite drop_app_le by lia. rewrite map_app. cbn [map].
    apply last_snoc.
  - destruct (slice_from_app_suffix n (StateTracker._history s) Hn)
      as [older Ho].
    exists (map StateSnapshot.state older).
    rewrite <- map_app. now rewrite <- Ho.
  - change (- 0)%Z with (Z.opp 0). now rewrite slice_from_zero.
Qed.

Lemma last_n_states_ends_with_current_witness :
  let s := run_ledger [Transition 1 GREETING None None;
                       Transition 2 QUERYING None None;
                       Transition 3 CONFIRMING None None]
                      (StateTracker.init 0) in
  ledger_ok s
  /\ (0 < 2)%Z
  /\ StateTracker.last_n_states 2 s = [QUERYING; CONFIRMING]
  /\ last (StateTracker.last_n_states 2 s)
     = Some (StateTracker.current_state s)
  /\ StateTracker.last_n_states 0 s = [IDLE; GREETING; QUERYING; CONFIRMING].
Proof.
  intros s.
  assert (Hok : ledger_ok s).
  { split; [eexists; reflexivity|]. split; [reflexivity|].
    split; [vm_compute; lia|]. vm_compute. repeat split. }
  assert (Hn : (0 < 2)%Z) by lia.
  destruct (last_n_states_ends_with_current 2 s Hok Hn) as (_ & H2 & _ & _).
  split; [exact Hok|]. split; [exact Hn|]. split; [reflexivity|].
  split; [exact H2|reflexivity].
Defined.

(** X30. [stop] leaves the engine unstarted on a disconnected gateway with
    no pending request, and touches neither the memory nor the ledger;
    stopping again changes nothing. From there a granted [start] brings
    the engine back, after which [start] is a no-op, and a refused [start]
    raises the connection error and leaves the engine unstarted. *)
Theorem stop_then_start (e : ConversationEngine) :
  let e1 := fst (Engine.stop e) in
  Engine._started e1 = false
  /\ Gateway._status (Engine.gateway e1) = DISCONNECTED
  /\ Gateway._pending (Engine.gateway e1) = ∅
  /\ Engine.context e1 = Engine.context e
  /\ Engine.state e1 = Engine.state e
  /\ Engine.stop e1 = (e1, [])
  /\ (forall ws,
        let started := Engine.start (ConnectOk ws) e1 in
        let e2 := snd (fst started) in
        fst (fst started) = Ok tt
        /\ Engine._started e2 = true
        /\ Gateway._status (Engine.gateway e2) = CONNECTED
        /\ Gateway._ws (Engine.gateway e2) = Some ws
        /\ forall o, Engine.start o e2 = (Ok tt, e2, []))
  /\ (let refused := Engine.start ConnectFails e1 in
      fst (fst refused)
      = Raise (Exn ConnectionError
                   [PStr "Cannot reach OpenClaw gateway at ";
                    PStr (GatewayConfig.uri
                            (Gateway.config (Engine.gateway e)))])
      /\ Engine._started (snd (fst refused)) = false).
Proof.
  unfold Engine.stop.
  pose proof (disconnect_spec (Engine.gateway e)) as (Hp & Hs & _).
  pose proof (disconnect_idem (Engine.gateway e)) as Hidem.
  assert (Hcfg : Gateway.config (fst (Gateway.disconnect (Engine.gateway e)))
                 = Gateway.config (Engine.gateway e)) by reflexivity.
  destruct (Gateway.disconnect (Engine.gateway e)) as [g1 ev1].
  cbn [fst snd] in *. cbn zeta.
  set (e1 := Engine.with_started false (Engine.with_gateway g1 e)).
  assert (Hne : Gateway._status g1 <> CONNECTED) by (rewrite Hs; discriminate).
  split; [reflexivity|]. split; [exact Hs|]. split; [exact Hp|].
  split; [reflexivity|]. split; [reflexivity|]. split; [|split].
  - change (Engine.gateway e1) with g1. rewrite Hidem. reflexivity.
  - intros ws.
    destruct (connect_ok_spec ws g1 Hne) as (g2 & ev2 & Hc & H1 & H2 & _).
    assert (Hstart : Engine.start (ConnectOk ws) e1
                     = (Ok tt,
                        Engine.with_started true (Engine.with_gateway g2 e1),
                        map Engine.GatewayEvent ev2)).
    { unfold Engine.start. change (Engine._started e1) with false.
      change (Engine.gateway e1) with g1. now rewrite Hc. }
    rewrite Hstart. cbn [fst snd].
    split; [reflexivity|]. split; [reflexivity|]. split; [exact H1|].
    split; [exact H2|]. intros o. reflexivity.
  - unfold Engine.start. change (Engine._started e1) with false.
    change (Engine.gateway e1) with g1.
    apply status_eqb_neq in Hne. unfold Gateway.connect. rewrite Hne. cbn.
    rewrite Hcfg. split; reflexivity.
Qed.

(* ===================================================================== *)
(** * [process] on sample sessions *)
(* ===================================================================== *)

Lemma noisy_config_contained : callbacks_contained noisy_config.
Proof.
  split.
  - intros cb r x H Hx. cbn in H. injection H as <-. now injection Hx as <-.
  - intros cb a x H Hx. cbn in H. injection H as <-. discriminate Hx.
Qed.

Lemma noisy_config_returns x : on_error_returns noisy_config x.
Proof. reflexivity. Qed.

(** The replies of the sample sessions have typed aliases. *)
Lemma silent_env_typed json_loads : typed_replies json_loads silent_env.
Proof. intros f latency_ms r Hf. cbn in Hf. inversion Hf. Qed.

Lemma sample_body_typed :
  typed_replies json_loads_sample (answering_env sample_body).
Proof.
  intros f latency_ms r Hf Hr. cbn in Hf.
  apply list_elem_of_singleton in Hf. injection Hf as ->.
  cbn in Hr. injection Hr as <-.
  intros l d Hl Hd. cbn in Hl. injection Hl as <-. inversion Hd.
Qed.

Lemma entity_body_typed :
  typed_replies json_loads_sample (answering_env entity_body).
Proof.
  intros f latency_ms r Hf Hr. cbn in Hf.
  apply list_elem_of_singleton in Hf. injection Hf as ->.
  cbn in Hr. injection Hr as <-.
  intros l d Hl Hd. cbn in Hl. injection Hl as <-.
  apply list_elem_of_singleton in Hd. injection Hd as ->.
  right. exists ["Marc"]. reflexivity.
Qed.

(** The brain answers; the response callback raises a [ValueError]. *)
Lemma process_always_answers_witness :
  let e := sample_engine noisy_config in
  let env := answering_env sample_body in
  let res := Engine.process json_loads_sample (fun _ => "") "prompt" env
               "Log my call" None None e in
  can_start env e
  /\ typed_replies json_loads_sample env
  /\ fst (fst res) = Ok sample_response
  /\ (exists r, fst (fst res) = Ok r)
  /\ Engine._processing (snd (fst res)) = false
  /\ Engine._started (snd (fst res)) = true.
Proof.
  intros e env res.
  assert (Hcan : can_start env e) by (left; reflexivity).
  split; [exact Hcan|]. split; [exact sample_body_typed|].
  split; [vm_compute; reflexivity|].
  exact (process_always_answers json_loads_sample (fun _ => "") "prompt" env
           "Log my call" None None e Hcan sample_body_typed
           noisy_config_contained noisy_config_returns).
Defined.

Lemma process_records_the_user_turn_first_witness :
  let e := sample_engine EngineConfig.default in
  let res := Engine.process json_loads_sample (fun _ => "") "prompt"
               silent_env "Hello?" None None e in
  can_start silent_env e
  /\ typed_replies json_loads_sample silent_env
  /\ map Turn.role (Context._turns (Engine.context (snd (fst res))))
     = [USER; BRAIN]
  /\ exists more,
       Context._turns (Engine.context (snd (fst res)))
       = Context._turns (Engine.context e)
         ++ user_turn_of silent_env "Hello?" None :: more
       /\ (length more <= 2)%nat
       /\ Forall (fun t => Turn.role t = BRAIN) more.
Proof.
  intros e res.
  assert (Hcan : can_start silent_env e) by (left; reflexivity).
  split; [exact Hcan|]. split; [apply silent_env_typed|].
  split; [vm_compute; reflexivity|].
  exact (process_records_the_user_turn_first json_loads_sample (fun _ => "")
           "prompt" silent_env "Hello?" None None e Hcan
           (silent_env_typed json_loads_sample)).
Defined.

Lemma ledger_ok_init now : ledger_ok (StateTracker.init now).
Proof.
  split; [exists []; reflexivity|]. cbn. repeat split. lia.
Qed.

Lemma process_keeps_the_session_well_formed_witness :
  let e := sample_engine EngineConfig.default in
  let res := Engine.process json_loads_sample (fun _ => "") "prompt"
               (answering_env entity_body) "I met Marcus" None None e in
  let e' := snd (fst res) in
  (0 <= 200)%Z
  /\ typed_replies json_loads_sample (answering_env entity_body)
  /\ registry_ok 200 (Engine.context e)
  /\ ledger_ok (Engine.state e)
  /\ map Entity.canonical_name (Context._entities (Engine.context e'))
     = ["Marcus"]
  /\ map Entity.aliases (Context._entities (Engine.context e'))
     = [["Marc"]]
  /\ registry_ok 200 (Engine.context e')
  /\ ledger_ok (Engine.state e').
Proof.
  intros e res e'.
  assert (Hcap : (0 <= 200)%Z) by lia.
  assert (Hr : registry_ok 200 (Engine.context e)) by (apply init_ok; lia).
  assert (Hl : ledger_ok (Engine.state e)) by apply ledger_ok_init.
  split; [exact Hcap|]. split; [exact entity_body_typed|].
  split; [exact Hr|]. split; [exact Hl|].
  split; [vm_compute; reflexivity|]. split; [vm_compute; reflexivity|].
  exact (process_keeps_the_session_well_formed json_loads_sample
           (fun _ => "") "prompt" (answering_env entity_body) "I met Marcus"
           None None e 200 Hcap entity_body_typed Hr Hl).
Defined.

Lemma failed_autostart_escapes_process_witness :
  let e := Engine.init EngineConfig.default "s" 0 0 in
  let res := Engine.process json_loads_sample (fun _ => "") "prompt"
               offline_env "Hello?" None None e in
  Engine._started e = false
  /\ Gateway._status (Engine.gateway e) <> CONNECTED
  /\ Engine.pe_start offline_env = ConnectFails
  /\ fst (fst res)
     = Raise (Exn ConnectionError
                  [PStr "Cannot reach OpenClaw gateway at ";
                   PStr "ws://127.0.0.1:18789"])
  /\ Context._turns (Engine.context (snd (fst res))) = []
  /\ Engine.state (snd (fst res)) = Engine.state e.
Proof.
  intros e res.
  assert (Hs : Engine._started e = false) by reflexivity.
  assert (Hst : Gateway._status (Engine.gateway e) <> CONNECTED)
    by discriminate.
  assert (Hc : Engine.pe_start offline_env = ConnectFails) by reflexivity.
  destruct (failed_autostart_escapes_process json_loads_sample (fun _ => "")
              "prompt" offline_env "Hello?" None None e Hs Hst Hc)
    as (H1 & H2 & H3 & _).
  split; [exact Hs|]. split; [exact Hst|]. split; [exact Hc|].
  split; [exact H1|]. split; [subst res; now rewrite H2|exact H3].
Defined.


Lemma answered_request_is_returned_witness :
  let e := sample_engine noisy_config in
  let env := answering_env sample_body in
  let reply := [("request_id", PStr "r2"); ("content", PDict sample_body)] in
  let res := Engine.process json_loads_sample (fun _ => "") "prompt" env
               "Log my call" None None e in
  let e' := snd (fst res) in
  Engine._started e = true
  /\ can_transmit (Engine.pe_send env) (Engine.gateway e)
  /\ BrainResponse.from_gateway_response json_loads_sample reply
       ((Engine.pe_end_time env - Engine.pe_start_time env) * 1000)%Q
     = Ok sample_response
  /\ fst (fst res) = Ok sample_response
  /\ map Turn.content (Context._turns (Engine.context e'))
     = [PStr "Log my call"; PStr "Logged."]
  /\ StateTracker.current_state (Engine.state e') = DEBRIEFING
  /\ callbacks_fired (snd res)
     = [Engine.OnResponse sample_response; Engine.OnAction (PStr "crm.update");
        Engine.OnAction (PStr "notify")].
Proof.
  intros e env reply res e'.
  assert (Hst : Engine._started e = true) by reflexivity.
  assert (Hno : (Context.turn_count (Engine.context e) + 1
                 <= EngineConfig.auto_compress_at (Engine.config e))%Z)
    by (vm_compute; discriminate).
  assert (Hcan : can_transmit (Engine.pe_send env) (Engine.gateway e))
    by (left; split; [reflexivity|discriminate]).
  assert (Hne : Gateway.se_uid (Engine.pe_send env) <> "") by discriminate.
  assert (Hall : Forall (refers_to (Gateway.se_uid (Engine.pe_send env)))
                        [sample_frame 12 reply]).
  { repeat constructor. eexists. split; reflexivity. }
  assert (Hparse : BrainResponse.from_gateway_response json_loads_sample
                     (message_of (sample_frame 12 reply))
                     ((Engine.pe_end_time env - Engine.pe_start_time env)
                      * 1000)%Q
                   = Ok sample_response) by reflexivity.
  destruct (answered_request_is_returned json_loads_sample (fun _ => "")
              "prompt" env "Log my call" None None e 11
              [sample_frame 12 reply] (sample_frame 12 reply) []
              sample_response [PStr "crm.update"; PStr "notify"]
              Hst Hno noisy_config_contained Hcan (fun _ => eq_refl)
              (fun _ => eq_refl) Hne eq_refl eq_refl Hall eq_refl eq_refl
              Hparse eq_refl eq_refl)
    as (H1 & H2 & H3 & _ & _ & _ & _ & H8).
  split; [exact Hst|]. split; [exact Hcan|]. split; [exact Hparse|].
  split; [exact H1|]. split; [subst e' res; rewrite H2; reflexivity|].
  split; [exact H3|exact H8].
Defined.

(* ===================================================================== *)
(** * [send] after a disconnection *)
(* ===================================================================== *)

(** The reader changes neither the status nor the socket. *)
Lemma read_step_conn f g :
  let g' := fst (Gateway._read_step f g) in
  Gateway._status g' = Gateway._status g /\ Gateway._ws g' = Gateway._ws g.
Proof.
  unfold Gateway._read_step.
  destruct (Gateway.reader_running g); cbn [negb]; [|now split].
  destruct (Gateway.fr_body f) as [|v]; [now split|].
  set (g1 := Gateway.with_metrics _ _ _ _ _ _ g).
  destruct v as [|b|z|q|s|l|m]; try (now split).
  destruct (dispatch_frame (Gateway.fr_now f) m g1) as (_ & _ & _ & Hs & _).
  destruct (dispatch_effect (Gateway.fr_now f) m g1) as (_ & _ & Hw & _).
  destruct (Gateway._dispatch (Gateway.fr_now f) m g1) as [[r g2] ev].
  cbn [fst snd] in *. destruct r; cbn; now split.
Qed.

Lemma read_loop_conn frames : forall g,
  let g' := fst (Gateway._read_loop frames g) in
  Gateway._status g' = Gateway._status g /\ Gateway._ws g' = Gateway._ws g.
Proof.
  induction frames as [|f frames IH]; intros g; [now split|].
  cbn [Gateway._read_loop].
  destruct (read_step_conn f g) as [Hs Hw].
  destruct (Gateway._read_step f g) as [g1 ev1]. cbn [fst] in Hs, Hw.
  destruct (IH g1) as [Hs' Hw'].
  destruct (Gateway._read_loop frames g1) as [g2 ev2]. cbn [fst] in *.
  split; congruence.
Qed.

Lemma await_future_conn rid timeout g :
  let g' := snd (Gateway.await_future rid timeout g) in
  Gateway._status g' = Gateway._status g /\ Gateway._ws g' = Gateway._ws g.
Proof.
  unfold Gateway.await_future.
  destruct (Gateway.futures g !! rid) as [[| | |]|]; now split.
Qed.

(** A [send] on a gateway that is not connected, when the network grants
    the connection and takes the message: [send] connects, tells the
    status listeners, transmits on the new socket, and waits. *)
Lemma send_connects env payload timeout cb g ws sent :
  Gateway._status g <> CONNECTED ->
  Gateway.se_connect env = ConnectOk ws ->
  Gateway.se_ws_send env = WsSent sent ->
  let uid := Gateway.se_uid env in
  exists g2,
    Gateway._status g2 = CONNECTED
    /\ Gateway._ws g2 = Some ws
    /\ Gateway.send env payload timeout cb g
       = let '(g3, ev3) := Gateway.wait_all (Gateway.se_wait env) g2 in
         let '(r, g4) :=
           Gateway.await_future uid (effective_timeout timeout g) g3 in
         (r,
          Gateway.with_tables (delete uid (Gateway._pending g4))
            (delete uid (Gateway._stream_callbacks g4)) (Gateway.futures g4) g4,
          snd (Gateway._set_status CONNECTING g)
          ++ map (fun l => Gateway.StatusListener l CONNECTING CONNECTED)
                 (Gateway._status_listeners g)
          ++ Gateway.WsSend ws (framed uid payload) :: ev3).
Proof.
  intros Hs Hc Hsent uid. unfold Gateway.send. fold uid.
  destruct (connect_ok_spec ws g Hs)
    as (g0 & ev0 & He & H1 & H2 & _ & _ & Hcfg & _ & _ & _ & _ & Hev).
  apply status_eqb_neq in Hs. rewrite Hs, Hc, He.
  fold (effective_timeout timeout g0).
  replace (effective_timeout timeout g0) with (effective_timeout timeout g)
    by (unfold effective_timeout; now rewrite Hcfg).
  fold (framed uid payload).
  set (g1 := Gateway.with_tables _ _ _ g0).
  unfold Gateway._raw_send.
  replace (Gateway._ws g1) with (Some ws) by (symmetry; exact H2).
  rewrite Hsent.
  set (g2 := Gateway.with_metrics _ _ _ _ _ _ g1).
  exists g2. split; [exact H1|]. split; [exact H2|].
  destruct (Gateway.wait_all (Gateway.se_wait env) g2) as [g3 ev3].
  destruct (Gateway.await_future uid _ g3) as [r g4].
  rewrite Hev, <- !app_assoc. reflexivity.
Qed.

(** C6, as the code has it. After [disconnect] the pending table is empty,
    the gateway is DISCONNECTED without a transport, and every request
    that was in the table with a pending future has failed with the
    connection error of the disconnection. A [send] issued afterwards
    opens the connection itself, without a call of [connect] by the
    caller. When that connection cannot be opened, the call fails with a
    connection error, the gateway stays DISCONNECTED and nothing is
    transmitted. When it is opened and takes the message, the status
    listeners are told of CONNECTING and of CONNECTED, the request is
    transmitted on the new socket, and a response that arrives for it is
    what [send] returns, on a gateway that is CONNECTED. And [send]
    returns a response only when that connection was opened. *)
Theorem disconnect_fails_pending_then_send_connects :
  forall (g : OpenClawGateway),
    let g' := fst (Gateway.disconnect g) in
    Gateway._pending g' = ∅
    /\ Gateway._status g' = DISCONNECTED
    /\ Gateway._ws g' = None
    /\ (forall rid req,
          Gateway._pending g !! rid = Some req ->
          Gateway.futures g !! rid = Some FPending ->
          Gateway.futures g' !! rid = Some (FException disconnected_error))
    /\ (forall env payload timeout cb,
          let res := Gateway.send env payload timeout cb g' in
          let uid := Gateway.se_uid env in
          (Gateway.se_connect env = ConnectFails ->
           exists e, fst (fst res) = Raise e
                     /\ exn_of e = ConnectionError
                     /\ Gateway._status (snd (fst res)) = DISCONNECTED
                     /\ Gateway._ws (snd (fst res)) = None
                     /\ ws_sends (snd res) = [])
          /\ (forall ws sent,
                Gateway.se_connect env = ConnectOk ws ->
                Gateway.se_ws_send env = WsSent sent ->
                (exists rest,
                   snd res
                   = map (fun l => Gateway.StatusListener l DISCONNECTED
                                                          CONNECTING)
                         (Gateway._status_listeners g)
                     ++ map (fun l => Gateway.StatusListener l CONNECTING
                                                             CONNECTED)
                            (Gateway._status_listeners g)
                     ++ Gateway.WsSend ws (framed uid payload) :: rest)
                /\ ws_sends (snd res) = [framed uid payload]
                /\ forall frames f rest,
                     (cb = None -> Gateway._stream_callbacks g !! uid = None) ->
                     uid <> "" ->
                     Gateway.se_wait env = map Gateway.Inbound frames ->
                     Forall (refers_to uid) frames ->
                     not_routed cb frames = f :: rest ->
                     truthy (get_or_none "error" (message_of f)) = false ->
                     fst (fst res) = Ok (message_of f)
                     /\ Gateway._status (snd (fst res)) = CONNECTED
                     /\ Gateway._ws (snd (fst res)) = Some ws)
          /\ (forall r,
                fst (fst res) = Ok r ->
                exists ws, Gateway.se_connect env = ConnectOk ws)).
Proof.
  intros g g'. destruct (disconnect_spec g) as (Hp & Hs & Hw & Hcb & Hf).
  fold g' in Hp, Hs, Hw, Hcb, Hf.
  assert (Hn : Gateway._status g' <> CONNECTED) by (rewrite Hs; discriminate).
  assert (Hl : Gateway._status_listeners g' = Gateway._status_listeners g)
    by reflexivity.
  split; [exact Hp|]. split; [exact Hs|]. split; [exact Hw|]. split.
  { intros rid req Hr Hfut. rewrite Hf, fail_all_pending_lookup, Hr, Hfut.
    reflexivity. }
  intros env payload timeout cb res uid. subst res uid.
  split; [|split].
  - intros Hc. pose proof Hn as Hn'. apply status_eqb_neq in Hn'.
    unfold Gateway.send, Gateway.connect. rewrite Hn', Hc.
    pose proof (set_status_events CONNECTING g') as (E1 & _).
    pose proof (set_status_fields CONNECTING g') as (_ & _ & _ & _ & W1 & _).
    destruct (Gateway._set_status CONNECTING g') as [g1 ev1].
    pose proof (set_status_events DISCONNECTED g1) as (E2 & _).
    pose proof (set_status_fields DISCONNECTED g1) as (S2 & _ & _ & _ & W2 & _).
    destruct (Gateway._set_status DISCONNECTED g1) as [g2 ev2].
    cbn [fst snd] in *.
    eexists. split; [reflexivity|]. split; [reflexivity|].
    split; [exact S2|]. split; [congruence|].
    now rewrite ws_sends_app, E1, E2.
  - intros ws sent Hc Hsent.
    assert (Hcan : can_transmit env g') by (right; split; [exact Hn|eauto]).
    destruct (send_connects env payload timeout cb g' ws sent Hn Hc Hsent)
      as (g2 & Hs2 & Hw2 & Hsend).
    assert (Hev0 : snd (Gateway._set_status CONNECTING g')
                   = map (fun l => Gateway.StatusListener l DISCONNECTED
                                                          CONNECTING)
                         (Gateway._status_listeners g)).
    { unfold Gateway._set_status. rewrite Hs, Hl. reflexivity. }
    split; [|split].
    + rewrite Hsend, Hev0, Hl.
      destruct (Gateway.wait_all (Gateway.se_wait env) g2) as [g3 ev3].
      destruct (Gateway.await_future _ _ g3) as [r g4]. cbn [snd].
      now exists ev3.
    + destruct (send_transmits env payload timeout cb g' sent Hcan
                  (fun H => ltac:(congruence)) Hsent)
        as (g2' & ev2 & _ & _ & E1 & _ & _ & Hsend').
      rewrite Hsend'.
      pose proof (wait_all_tables (Gateway.se_wait env) g2') as (_ & _ & E3).
      destruct (Gateway.wait_all (Gateway.se_wait env) g2') as [g3 ev3].
      destruct (Gateway.await_future _ _ g3) as [r g4]. cbn [snd] in *.
      now rewrite ws_sends_app, E1, E3.
    + intros frames f rest Hfresh Hne Hwait Hall Hnr Herr.
      split.
      * destruct (send_settles env payload timeout cb g' sent frames f rest
                    Hcan (fun H => ltac:(congruence))
                    (fun H => eq_trans (f_equal (fun m => m !! _) Hcb)
                                       (Hfresh H))
                    Hne Hsent Hwait Hall Hnr)
          as (g3 & evs & Hf3 & _ & _ & _ & Hsend').
        rewrite Hsend'. unfold Gateway.await_future. rewrite Hf3.
        unfold outcome. now rewrite Herr.
      * rewrite Hsend, Hwait, wait_all_inbound.
        destruct (read_loop_conn frames g2) as [Hs3 Hw3].
        destruct (Gateway._read_loop frames g2) as [g3 ev3].
        cbn [fst] in Hs3, Hw3.
        destruct (await_future_conn (Gateway.se_uid env)
                    (effective_timeout timeout g') g3) as [Hs4 Hw4].
        destruct (Gateway.await_future _ _ g3) as [r g4].
        cbn [fst snd Gateway._status Gateway._ws Gateway.with_tables] in *.
        split; congruence.
  - intros r. now apply send_ok_connected.
Qed.

(** The request of [sample_gateway] is waiting when the gateway, which has
    one status listener, is disconnected. A [send] whose connection is
    refused fails; a [send] whose connection is granted tells the
    listener, transmits and returns the response of the brain. *)
Lemma disconnect_fails_pending_then_send_connects_witness :
  let g := Gateway.mk GatewayConfig.default (Some 1%nat) CONNECTED 0
             {[ "r1" := sample_request ]} ∅ [4%nat] 1 0 (Some 100%Q) None
             0 0 (Some TaskRunning) (Some TaskRunning) {[ "r1" := FPending ]} in
  let g' := fst (Gateway.disconnect g) in
  let refused := Gateway.mk_send_env ConnectFails "r2" 200 (WsSent 201) [] in
  let reply := [("request_id", PStr "r2"); ("content", PStr "hello")] in
  let granted := Gateway.mk_send_env (ConnectOk 2) "r2" 200 (WsSent 201)
                   [Gateway.Inbound (sample_frame 202 reply)] in
  let payload := [("user_message", PStr "hi")] in
  let res := Gateway.send granted payload None None g' in
  Gateway._pending g !! "r1" = Some sample_request
  /\ Gateway.futures g !! "r1" = Some FPending
  /\ Gateway.futures g' !! "r1" = Some (FException disconnected_error)
  /\ (exists e, fst (fst (Gateway.send refused payload None None g')) = Raise e
                /\ exn_of e = ConnectionError)
  /\ (exists rest,
        snd res = [Gateway.StatusListener 4 DISCONNECTED CONNECTING;
                   Gateway.StatusListener 4 CONNECTING CONNECTED;
                   Gateway.WsSend 2 (framed "r2" payload)] ++ rest)
  /\ fst (fst res) = Ok reply
  /\ Gateway._status (snd (fst res)) = CONNECTED
  /\ Gateway._ws (snd (fst res)) = Some 2%nat.
Proof.
  intros g g' refused reply granted payload res.
  assert (H1 : Gateway._pending g !! "r1" = Some sample_request)
    by (vm_compute; reflexivity).
  assert (H2 : Gateway.futures g !! "r1" = Some FPending)
    by (vm_compute; reflexivity).
  destruct (disconnect_fails_pending_then_send_connects g)
    as (_ & _ & _ & Hf & Hsend).
  split; [exact H1|]. split; [exact H2|].
  split; [exact (Hf "r1" sample_request H1 H2)|]. split.
  - destruct (Hsend refused payload None None) as (Hrefused & _).
    destruct (Hrefused eq_refl) as (e & He & Hc & _). now exists e.
  - destruct (Hsend granted payload None None) as (_ & Hgranted & _).
    destruct (Hgranted 2%nat 201%Q eq_refl eq_refl) as ((rest & Hev) & _ & Hok).
    split; [exists rest; exact Hev|].
    apply (Hok [sample_frame 202 reply] (sample_frame 202 reply) []);
      try reflexivity.
    + discriminate.
    + repeat constructor. eexists. split; reflexivity.
Defined.
